(** * ISTAT fundamental-data pipeline: a shallow embedding and its properties

    The development follows the three Python stages of the repository:

    - [IstatMapping.py]                     (class [IstatMappingBuilder]),
    - [ISTATavailableconstraintsbuilder.py] (class [IstatConstraintsBuilder]),
    - [ISTATDataextractorfromdatasetID.py]  (class [IstatSeriesExtractor]).

    Python values that come out of [json.load] are modelled by the type
    [json]; Python dictionaries are insertion-ordered association lists;
    [xml.etree.ElementTree] elements are rose trees; exceptions are the
    [Raise] branch of [result], and [try]/[except] is a [match] on it.
    Logging has no influence on the results and is left out. *)

From Stdlib Require Import String Ascii List ZArith Bool Lia Sorted Permutation.
Import ListNotations.
Local Open Scope string_scope.
Local Open Scope list_scope.

Local Infix "+++" := String.append (at level 60, right associativity).

(** ** Python dictionaries

    A [dict] keeps its keys in insertion order; assigning to a key that is
    already present replaces the value in place, assigning to a new key
    appends it. *)

Section Dict.
Context {K V : Type} (eqb : K -> K -> bool).

Fixpoint dict_get (k : K) (d : list (K * V)) : option V :=
  match d with
  | [] => None
  | (k', v) :: d' => if eqb k k' then Some v else dict_get k d'
  end.

Definition dict_mem (k : K) (d : list (K * V)) : bool :=
  match dict_get k d with Some _ => true | None => false end.

Fixpoint dict_set (k : K) (v : V) (d : list (K * V)) : list (K * V) :=
  match d with
  | [] => [(k, v)]
  | (k', v') :: d' =>
      if eqb k k' then (k', v) :: d' else (k', v') :: dict_set k v d'
  end.

Definition dict_keys (d : list (K * V)) : list K := map fst d.
End Dict.

(** Keys that may be [None] (an attribute that [attrib.get] did not find). *)
Definition opt_eqb (a b : option string) : bool :=
  match a, b with
  | Some x, Some y => String.eqb x y
  | None, None => true
  | _, _ => false
  end.

(** [str(x)] inside an f-string, for [x] a string or [None]. *)
Definition pystr (x : option string) : string :=
  match x with Some s => s | None => "None" end.

(** Truth value of a string or [None]: [if s:]. *)
Definition str_truthy (x : option string) : bool :=
  match x with
  | Some s => negb (String.eqb s EmptyString)
  | None => false
  end.

(** ** ElementTree elements *)

#[warnings="-register-all"] Inductive element : Type :=
| Element (tag : string) (attrib : list (string * string))
          (text : option string) (children : list element).

Definition tag_of (e : element) : string :=
  match e with Element t _ _ _ => t end.
Definition attrib_of (e : element) : list (string * string) :=
  match e with Element _ a _ _ => a end.
Definition text_of (e : element) : option string :=
  match e with Element _ _ t _ => t end.
Definition children_of (e : element) : list element :=
  match e with Element _ _ _ c => c end.

(** [e.attrib.get(k)] and [e.attrib.get(k, default)]. *)
Definition attrib_get (k : string) (e : element) : option string :=
  dict_get String.eqb k (attrib_of e).
Definition attrib_get_default (k : string) (default : option string)
           (e : element) : option string :=
  match attrib_get k e with Some v => Some v | None => default end.

(** An element followed by all its descendants, in document order
    ([Element.iter()]). *)
Fixpoint subtree (e : element) : list element :=
  match e with
  | Element _ _ _ cs => e :: flat_map subtree cs
  end.

(** The proper descendants of an element: what the path [.//] ranges over. *)
Definition descendants (e : element) : list element :=
  flat_map subtree (children_of e).

Definition has_tag (t : string) (e : element) : bool := String.eqb (tag_of e) t.

(** [e.findall('t')]: the children with tag [t]. *)
Definition findall_child (t : string) (e : element) : list element :=
  filter (has_tag t) (children_of e).
(** [e.findall('.//t')]: the descendants with tag [t]. *)
Definition findall_desc (t : string) (e : element) : list element :=
  filter (has_tag t) (descendants e).
(** [e.findall('.//t/u')]: the children [u] of the descendants [t]. *)
Definition findall_desc_child (t u : string) (e : element) : list element :=
  flat_map (findall_child u) (findall_desc t e).
(** [e.findall('t[@k="v"]')]. *)
Definition findall_child_attr (t k v : string) (e : element) : list element :=
  filter (fun c => match attrib_get k c with
                   | Some v' => String.eqb v' v
                   | None => false
                   end)
         (findall_child t e).

(** [find] is the first result of [findall], or [None]. *)
Definition find_child (t : string) (e : element) : option element :=
  hd_error (findall_child t e).
Definition find_desc (t : string) (e : element) : option element :=
  hd_error (findall_desc t e).
Definition find_desc_child (t u : string) (e : element) : option element :=
  hd_error (findall_desc_child t u e).
Definition find_child_attr (t k v : string) (e : element) : option element :=
  hd_error (findall_child_attr t k v e).

(** The [namespaces] table of the three classes, and qualified tags the way
    ElementTree stores them. *)
Definition ns_message := "http://www.sdmx.org/resources/sdmxml/schemas/v2_1/message".
Definition ns_generic := "http://www.sdmx.org/resources/sdmxml/schemas/v2_1/data/generic".
Definition ns_structure := "http://www.sdmx.org/resources/sdmxml/schemas/v2_1/structure".
Definition ns_common := "http://www.sdmx.org/resources/sdmxml/schemas/v2_1/common".

Definition qname (ns local : string) : string := "{" +++ ns +++ "}" +++ local.

Definition xml_lang := "{http://www.w3.org/XML/1998/namespace}lang".

Definition base_url := "https://sdmx.istat.it/SDMXWS/rest".

(** ** Paths of the document store

    [os.path.join(directory, filename)] is kept as the pair it was built
    from: the stages only use paths as keys. *)
Record path : Type := Path { path_dir : string; path_file : string }.

Definition os_path_join (dir file : string) : path := Path dir file.

(** ** Floating-point numbers

    [float(text)] is a Python built-in.  The pipeline only needs to know
    whether it accepts a text, and the truth value of a number. *)
Class PyFloat : Type := {
  pyfloat : Type;
  (** [float(s)]; [None] stands for [ValueError]. *)
  float_of_str : string -> option pyfloat;
  (** [x == 0.0], which decides the truth value of [x]. *)
  float_is_zero : pyfloat -> bool
}.

(** A reader of plain decimal literals such as [10.5] or [-3], the number
    being [mantissa / 10 ^ scale].  The properties below hold for every
    [PyFloat]; this one runs them on concrete documents. *)
Record decimal : Type := Decimal { mantissa : Z; scale : nat }.

Definition digit_of (c : ascii) : option Z :=
  let n := Z.of_nat (nat_of_ascii c) in
  if ((48 <=? n) && (n <=? 57))%Z then Some (n - 48)%Z else None.

Fixpoint read_digits (s : string) (acc : Z) (frac : option nat) (seen : bool)
  : option decimal :=
  match s with
  | EmptyString =>
      if seen
      then Some (Decimal acc (match frac with Some n => n | None => 0 end))
      else None
  | String c s' =>
      match digit_of c with
      | Some d => read_digits s' (10 * acc + d)%Z (option_map S frac) true
      | None =>
          if Ascii.eqb c "."%char then
            match frac with
            | None => read_digits s' acc (Some 0) seen
            | Some _ => None
            end
          else None
      end
  end.

Definition decimal_of_str (s : string) : option decimal :=
  match s with
  | String "-"%char s' =>
      match read_digits s' 0%Z None false with
      | Some d => Some (Decimal (- mantissa d) (scale d))
      | None => None
      end
  | _ => read_digits s 0%Z None false
  end.

Definition decimal_floats : PyFloat :=
  {| pyfloat := decimal;
     float_of_str := decimal_of_str;
     float_is_zero := fun d => Z.eqb (mantissa d) 0 |}.

Section Pipeline.
Context {FP : PyFloat}.

(** ** Values loaded by [json.load] *)

#[warnings="-register-all"] Inductive json : Type :=
| JNull
| JBool (b : bool)
| JInt (z : Z)
| JFloat (f : pyfloat)
| JStr (s : string)
| JArr (l : list json)
| JObj (items : list (string * json)).

(** A string or [None] as a Python value. *)
Definition of_opt_str (x : option string) : json :=
  match x with Some s => JStr s | None => JNull end.

(** Truth value of a Python value ([if v:], [a or b]). *)
Definition truthy (v : json) : bool :=
  match v with
  | JNull => false
  | JBool b => b
  | JInt z => negb (Z.eqb z 0)
  | JFloat f => negb (float_is_zero f)
  | JStr s => negb (String.eqb s EmptyString)
  | JArr l => match l with [] => false | _ => true end
  | JObj d => match d with [] => false | _ => true end
  end.

(** ** Exceptions *)

Inductive message : Type :=
| Msg (s : string)
(** f"Constraints file mismatch. Expected dataset {expected} but got
    {got}. Please check the constraints file: {file}" *)
| MsgConstraintsMismatch (expected : string) (got : json) (file : path)
(** f"Constraints file not found for dataset {dataset_id}. Expected
    file: {file}. ..." *)
| MsgConstraintsNotFound (dataset_id : string) (file : path).

Inductive exn : Type :=
| KeyError
| TypeError
| AttributeError
| ValueError (m : message)
| FileNotFoundError (m : message)
| JSONDecodeError
(** whatever [requests.get], [raise_for_status] or [ET.fromstring] raise *)
| FetchError (what : string).

Inductive result (A : Type) : Type :=
| Ok (a : A)
| Raise (e : exn).
Arguments Ok {A} a.
Arguments Raise {A} e.

Definition bind {A B : Type} (r : result A) (k : A -> result B) : result B :=
  match r with
  | Ok a => k a
  | Raise e => Raise e
  end.

Notation "x <- r ;; k" := (bind r (fun x => k))
  (at level 61, r at next level, right associativity).

(** A [for] loop whose body may raise: the first exception leaves it. *)
Fixpoint for_each {A S : Type} (body : S -> A -> result S)
         (l : list A) (s : S) : result S :=
  match l with
  | [] => Ok s
  | a :: l' => s' <- body s a ;; for_each body l' s'
  end.

(** [try: body  except Exception: handler]. *)
Definition try_except {A : Type} (body : result A) (handler : exn -> result A)
  : result A :=
  match body with
  | Ok a => Ok a
  | Raise e => handler e
  end.

(** *** Operations on loaded values *)

(** [v[key]].  Only a dict can be subscripted by a string or [None]. *)
Definition py_getitem (v : json) (key : option string) : result json :=
  match v with
  | JObj d =>
      match key with
      | Some k =>
          match dict_get String.eqb k d with
          | Some x => Ok x
          | None => Raise KeyError
          end
      | None => Raise KeyError
      end
  | _ => Raise TypeError
  end.

(** [v.get(key, default)].  Only a dict has the method. *)
Definition py_get (v : json) (key : option string) (default : json)
  : result json :=
  match v with
  | JObj d =>
      match key with
      | Some k =>
          match dict_get String.eqb k d with
          | Some x => Ok x
          | None => Ok default
          end
      | None => Ok default
      end
  | _ => Raise AttributeError
  end.

(** [x == v] for [x] a string or [None]. *)
Definition py_eq_str (x : option string) (v : json) : bool :=
  match x, v with
  | Some s, JStr t => String.eqb s t
  | None, JNull => true
  | _, _ => false
  end.

(** [key in v]: key membership for a dict, element membership for a
    list, substring test for a string, [TypeError] otherwise. *)
Definition py_contains (key : option string) (v : json) : result bool :=
  match v with
  | JObj d =>
      match key with
      | Some k => Ok (dict_mem String.eqb k d)
      | None => Ok false
      end
  | JArr l => Ok (existsb (py_eq_str key) l)
  | JStr s =>
      match key with
      | Some k => Ok (match String.index 0 k s with
                      | Some _ => true
                      | None => false
                      end)
      | None => Raise TypeError
      end
  | _ => Raise TypeError
  end.

(** [a or b], with [b] evaluated only when needed. *)
Definition py_or (a : json) (b : result json) : result json :=
  if truthy a then Ok a else b.

(** ** The outside world

    The remote service answers a URL with a parsed XML envelope or an
    exception; the document store holds files that are JSON documents or
    something [json.load] rejects; the clock gives
    [datetime.now().isoformat()] for the n-th reading. *)

Inductive file_content : Type :=
| FileJson (doc : json)
| FileOther.

Record world : Type := World {
  remote : string -> result element;
  files : path -> option file_content;
  clock : nat -> string
}.

(** [fetch_xml] / [fetch_series_data]: the exception of the request is
    logged and raised again. *)
Definition fetch_xml (w : world) (url : string) : result element :=
  try_except (remote w url) (fun e => Raise e).

(** [open(path); json.load(f)], with the error logged and raised again. *)
Definition load_json (w : world) (p : path) : result json :=
  match files w p with
  | Some (FileJson doc) => Ok doc
  | Some FileOther => Raise JSONDecodeError
  | None => Raise (FileNotFoundError (Msg "No such file or directory"))
  end.

(** ** ISTATDataextractorfromdatasetID.py *)

Definition constraints_dir := "C:\Users\Antonio\Streamlit app\constraints".

Definition find_constraints_file (w : world) (dataset_id : string)
  : result path :=
  let expected_filename := "constraints_" +++ dataset_id +++ ".json" in
  let constraints_path := os_path_join constraints_dir expected_filename in
  match files w constraints_path with
  | None =>
      Raise (FileNotFoundError
               (MsgConstraintsNotFound dataset_id constraints_path))
  | Some _ => Ok constraints_path
  end.

(** The attributes of an [IstatSeriesExtractor] that the methods read. *)
Record extractor : Type := Extractor {
  ex_dataset_id : string;
  ex_output_dir : string;
  ex_constraints_path : path;
  ex_constraints : json
}.

Definition load_constraints (w : world) (constraints_path : path)
  : result json :=
  try_except (load_json w constraints_path) (fun e => Raise e).

Definition validate_constraints (dataset_id : string)
           (constraints_path : path) (constraints : json) : result unit :=
  info <- py_getitem constraints (Some "dataset_info") ;;
  id <- py_getitem info (Some "id") ;;
  if negb (py_eq_str (Some dataset_id) id) then
    info' <- py_getitem constraints (Some "dataset_info") ;;
    got <- py_getitem info' (Some "id") ;;
    Raise (ValueError
             (MsgConstraintsMismatch dataset_id got constraints_path))
  else Ok tt.

(** [IstatSeriesExtractor.__init__], up to the creation of the output
    directory. *)
Definition extractor_init (w : world) (dataset_id output_dir : string)
  : result extractor :=
  constraints_path <- find_constraints_file w dataset_id ;;
  constraints <- load_constraints w constraints_path ;;
  _ <- validate_constraints dataset_id constraints_path constraints ;;
  Ok (Extractor dataset_id output_dir constraints_path constraints).

Definition fetch_series_data (w : world) (dataset_id : string)
  : result element :=
  fetch_xml w (base_url +++ "/data/" +++ dataset_id).

(** The body of the [try] in [get_value_description]. *)
Definition value_description_lookup (constraints : json)
           (concept code : option string) : result json :=
  dims <- py_getitem constraints (Some "dimensions") ;;
  found <- py_contains concept dims ;;
  if found then
    dims' <- py_getitem constraints (Some "dimensions") ;;
    dimension_info <- py_getitem dims' concept ;;
    values <- py_getitem dimension_info (Some "values") ;;
    value_info <- py_get values code (JObj []) ;;
    names <- py_get value_info (Some "name") (JObj []) ;;
    en <- py_get names (Some "en") JNull ;;
    py_or en
      (it <- py_get names (Some "it") JNull ;;
       py_or it (py_get names (Some "default") (of_opt_str code)))
  else Ok (of_opt_str code).

Definition get_value_description (constraints : json)
           (concept code : option string) : result json :=
  try_except (value_description_lookup constraints concept code)
             (fun _ => Ok (of_opt_str code)).

(** *** Series records *)

Definition tag_Series := qname ns_generic "Series".
Definition tag_SeriesKey := qname ns_generic "SeriesKey".
Definition tag_Value := qname ns_generic "Value".
Definition tag_Obs := qname ns_generic "Obs".
Definition tag_ObsDimension := qname ns_generic "ObsDimension".
Definition tag_ObsValue := qname ns_generic "ObsValue".

(** The value of an observation: [float(text)], or the text itself. *)
Inductive obs_value : Type :=
| VFloat (f : pyfloat)
| VText (s : string).

(** The dict [observation] of the loop over [generic:Obs].  A field is
    [None] while its key is not in the dict; the key ["time_period"] can be
    present and hold Python's [None] (the inner option). *)
Record observation : Type := Observation {
  time_period : option (option string);
  value : option obs_value
}.

Record dataset_info : Type := DatasetInfo {
  di_id : string;
  di_names : json;
  di_structure_reference : json;
  di_generated_at : string
}.

(** One entry of [series_data["metadata"]]. *)
Record key_label : Type := KeyLabel {
  code : option string;
  description : json
}.

Record series_data : Type := SeriesData {
  sd_dataset_info : dataset_info;
  sd_metadata : list (option string * key_label);
  sd_observations : list observation
}.

(** The body of the loop over [generic:Obs], up to the test that decides
    whether the observation is appended. *)
Definition read_observation (obs : element) : observation :=
  let time :=
    match find_child_attr tag_ObsDimension "id" "TIME_PERIOD" obs with
    | Some time_dim => Some (attrib_get "value" time_dim)
    | None => None
    end in
  let val :=
    match find_child tag_ObsValue obs with
    | Some obs_value =>
        match attrib_get "value" obs_value with
        | Some v =>
            if str_truthy (Some v) then
              match float_of_str v with
              | Some f => Some (VFloat f)
              | None => Some (VText v)
              end
            else None
        | None => None
        end
    | None => None
    end in
  Observation time val.

(** ["time_period" in observation and "value" in observation]. *)
Definition has_time_and_value (o : observation) : bool :=
  match time_period o, value o with
  | Some _, Some _ => true
  | _, _ => false
  end.

(** [x.get("time_period", '')]: the sort key, which is Python's [None]
    when the key holds [None]. *)
Definition sort_key (o : observation) : option string :=
  match time_period o with
  | Some t => t
  | None => Some EmptyString
  end.

(** [a < b] on sort keys: strings compare by code point, and a comparison
    that involves [None] raises [TypeError]. *)
Definition key_lt (a b : option string) : result bool :=
  match a, b with
  | Some x, Some y => Ok (String.ltb x y)
  | _, _ => Raise TypeError
  end.

(** [list.sort(key=...)] is stable and uses [<] only.  It is modelled by
    a stable insertion sort: both give the one stable ordering when no
    comparison raises, and both compare every element of a list of two or
    more at least once, so both raise exactly when such a list holds a
    [None] key. *)
Fixpoint insert_sorted (x : observation) (l : list observation)
  : result (list observation) :=
  match l with
  | [] => Ok [x]
  | y :: l' =>
      lt <- key_lt (sort_key x) (sort_key y) ;;
      if lt then Ok (x :: y :: l')
      else (r <- insert_sorted x l' ;; Ok (y :: r))
  end.

Definition sort_by_time_period (l : list observation)
  : result (list observation) :=
  for_each (fun sorted x => insert_sorted x sorted) l [].

(** The body of the loop over the [generic:Value] elements of the key. *)
Definition add_key_value (constraints : json)
           (metadata : list (option string * key_label)) (v : element)
  : result (list (option string * key_label)) :=
  let concept := attrib_get "id" v in
  let code := attrib_get "value" v in
  description <- get_value_description constraints concept code ;;
  Ok (dict_set opt_eqb concept (KeyLabel code description) metadata).

Definition extract_series_key (ex : extractor) (now : string)
           (series_elem : element) : result series_data :=
  try_except
    (info <- py_getitem (ex_constraints ex) (Some "dataset_info") ;;
     names <- py_getitem info (Some "names") ;;
     info' <- py_getitem (ex_constraints ex) (Some "dataset_info") ;;
     structure_reference <- py_getitem info' (Some "structure_reference") ;;
     metadata <-
       match find_child tag_SeriesKey series_elem with
       | Some series_key =>
           for_each (add_key_value (ex_constraints ex))
                    (findall_desc tag_Value series_key) []
       | None => Ok []
       end ;;
     let observations :=
       filter has_time_and_value
              (map read_observation (findall_child tag_Obs series_elem)) in
     observations' <-
       match observations with
       | [] => Ok observations
       | _ :: _ => sort_by_time_period observations
       end ;;
     Ok (SeriesData
           (DatasetInfo (ex_dataset_id ex) names structure_reference now)
           metadata observations'))
    (fun e => Raise e).

(** The name of the file a series is saved under. *)
Definition series_filename (dataset_id : string)
           (metadata : list (option string * key_label)) : string :=
  let filename_parts :=
    ("dataset_" +++ dataset_id)
      :: map (fun '(concept, info) => pystr concept +++ "-" +++ pystr (code info))
             metadata in
  "series_" +++ String.concat "_" filename_parts +++ ".json".

(** [enumerate(l, 1)]. *)
Definition enumerate1 {A : Type} (l : list A) : list (nat * A) :=
  combine (seq 1 (length l)) l.

(** One round of the loop of [process_series]; [written] is the list of
    files saved so far, oldest first.  An exception inside the round is
    logged and the loop continues.  Saving a file is taken to succeed: the
    file system is not part of the model. *)
Definition process_one (ex : extractor) (w : world)
           (written : list (path * series_data)) (item : nat * element)
  : list (path * series_data) :=
  let (i, series_elem) := item in
  match extract_series_key ex (clock w i) series_elem with
  | Raise _ => written
  | Ok series_data =>
      match sd_observations series_data with
      | [] => written
      | _ :: _ =>
          let filename :=
            series_filename (ex_dataset_id ex) (sd_metadata series_data) in
          let output_path := os_path_join (ex_output_dir ex) filename in
          written ++ [(output_path, series_data)]
      end
  end.

Definition process_series (ex : extractor) (w : world)
  : result (list (path * series_data)) :=
  try_except
    (root <- fetch_series_data w (ex_dataset_id ex) ;;
     let series_elements := findall_desc tag_Series root in
     Ok (fold_left (process_one ex w) (enumerate1 series_elements) []))
    (fun e => Raise e).

(** [main], for the dataset id it is given: every exception ends the run
    with a log message, and nothing has been saved by then. *)
Definition extractor_run (w : world) (dataset_id : string)
  : list (path * series_data) :=
  match (ex <- extractor_init w dataset_id "./series_data" ;;
         process_series ex w) with
  | Ok written => written
  | Raise _ => []
  end.

Definition extractor_main (w : world) : list (path * series_data) :=
  extractor_run w "111_111".

(** ** IstatMapping.py *)

Record DataStructureInfo : Type := Build_DataStructureInfo {
  dsi_agency_id : option string;
  dsi_structure_id : option string;
  dsi_version : option string
}.

Record CodelistRef : Type := Build_CodelistRef {
  clr_agency_id : option string;
  clr_id : option string;
  clr_version : option string
}.

(** A dict from language tag to text; [name.text] is [None] for an element
    without text. *)
Definition lang_map : Type := list (string * option string).

(** One entry of [values]: a code's names and descriptions. *)
Record code_value : Type := CodeValue {
  cv_name : lang_map;
  cv_description : lang_map
}.

(** What [get_codelist_values] returns. *)
Record codelist_data : Type := CodelistData {
  cd_info_name : lang_map;
  cd_info_description : lang_map;
  cd_values : list (string * code_value)
}.

Record dimension_mapping : Type := DimensionMapping {
  dm_codelist : CodelistRef;
  dm_codelist_name : lang_map;
  dm_codelist_description : lang_map;
  dm_values : list (string * code_value)
}.

Record mapping_document : Type := MappingDocument {
  md_dataset_id : string;
  md_generated_at : string;
  md_structure : DataStructureInfo;
  md_dimensions : list (string * dimension_mapping)
}.

Definition tag_common_Structure := qname ns_common "Structure".
Definition tag_Dimension := qname ns_structure "Dimension".
Definition tag_Enumeration := qname ns_structure "Enumeration".
Definition tag_structure_Name := qname ns_structure "Name".
Definition tag_common_Name := qname ns_common "Name".
Definition tag_common_Description := qname ns_common "Description".
Definition tag_Code := qname ns_structure "Code".

Definition get_structure_from_data (w : world) (dataset_id : string)
  : result DataStructureInfo :=
  try_except
    (root <- fetch_xml w (base_url +++ "/data/" +++ dataset_id) ;;
     match find_desc tag_common_Structure root with
     | None =>
         Raise (ValueError (Msg "Structure element not found in data response"))
     | Some struct_elem =>
         match find_child "Ref" struct_elem with
         | None => Raise (ValueError (Msg "Ref element not found in Structure"))
         | Some ref_elem =>
             Ok (Build_DataStructureInfo
                   (attrib_get "agencyID" ref_elem)
                   (attrib_get "id" ref_elem)
                   (attrib_get "version" ref_elem))
         end
     end)
    (fun e => Raise e).

(** The body of the loop over the dimensions of the structure. *)
Definition add_codelist_ref (structure_info : DataStructureInfo)
           (codelist_refs : list (string * CodelistRef)) (dim : element)
  : list (string * CodelistRef) :=
  match attrib_get "id" dim with
  | Some dim_id =>
      if str_truthy (Some dim_id) then
        match find_desc_child tag_Enumeration "Ref" dim with
        | Some enum_ref =>
            dict_set String.eqb dim_id
              (Build_CodelistRef
                 (attrib_get_default "agencyID" (dsi_agency_id structure_info)
                                     enum_ref)
                 (attrib_get "id" enum_ref)
                 (attrib_get_default "version" (Some "1.0") enum_ref))
              codelist_refs
        | None => codelist_refs
        end
      else codelist_refs
  | None => codelist_refs
  end.

Definition get_dimension_codelist_refs (w : world)
           (structure_info : DataStructureInfo)
  : result (list (string * CodelistRef)) :=
  try_except
    (root <- fetch_xml w (base_url +++ "/datastructure/"
                            +++ pystr (dsi_agency_id structure_info) +++ "/"
                            +++ pystr (dsi_structure_id structure_info)) ;;
     let dimensions := findall_desc tag_Dimension root in
     Ok (fold_left (add_codelist_ref structure_info) dimensions []))
    (fun e => Raise e).

(** [for name in names: d[name.attrib.get(xml:lang, 'default')] = name.text]. *)
Definition add_lang (d : lang_map) (name : element) : lang_map :=
  let lang := match attrib_get xml_lang name with
              | Some l => l
              | None => "default"
              end in
  dict_set String.eqb lang (text_of name) d.

(** The body of the loop over the codes of a codelist. *)
Definition add_code (values : list (string * code_value)) (code : element)
  : list (string * code_value) :=
  match attrib_get "id" code with
  | Some code_id =>
      if str_truthy (Some code_id) then
        dict_set String.eqb code_id
          (CodeValue
             (fold_left add_lang (findall_desc tag_common_Name code) [])
             (fold_left add_lang (findall_desc tag_common_Description code) []))
          values
      else values
  | None => values
  end.

Definition get_codelist_values (w : world) (codelist_ref : CodelistRef)
  : result codelist_data :=
  try_except
    (root <- fetch_xml w (base_url +++ "/codelist/"
                            +++ pystr (clr_agency_id codelist_ref) +++ "/"
                            +++ pystr (clr_id codelist_ref)) ;;
     let info_name :=
       fold_left add_lang
                 (findall_desc_child tag_structure_Name tag_common_Name root)
                 [] in
     let values := fold_left add_code (findall_desc tag_Code root) [] in
     Ok (CodelistData info_name [] values))
    (fun e => Raise e).

(** The body of the loop of [build_mapping] over [codelist_refs.items()]. *)
Definition add_dimension (w : world)
           (dimensions : list (string * dimension_mapping))
           (item : string * CodelistRef)
  : result (list (string * dimension_mapping)) :=
  let (dim_id, codelist_ref) := item in
  codelist_data <- get_codelist_values w codelist_ref ;;
  Ok (dict_set String.eqb dim_id
        (DimensionMapping codelist_ref
           (cd_info_name codelist_data)
           (cd_info_description codelist_data)
           (cd_values codelist_data))
        dimensions).

(** [build_mapping] returns the mapping after saving it; the result here
    also names the file it was saved under. *)
Definition build_mapping (w : world) (dataset_id output_dir : string)
  : result (path * mapping_document) :=
  try_except
    (structure_info <- get_structure_from_data w dataset_id ;;
     let generated_at := clock w 0 in
     codelist_refs <- get_dimension_codelist_refs w structure_info ;;
     dimensions <- for_each (add_dimension w) codelist_refs [] ;;
     let mapping :=
       MappingDocument dataset_id generated_at structure_info dimensions in
     let output_file :=
       os_path_join output_dir ("mapping_" +++ dataset_id +++ ".json") in
     Ok (output_file, mapping))
    (fun e => Raise e).

(** ** ISTATavailableconstraintsbuilder.py *)

Definition tag_CubeRegion := qname ns_structure "CubeRegion".
Definition tag_KeyValue := qname ns_common "KeyValue".
Definition tag_common_Value := qname ns_common "Value".
Definition tag_Dataflow := qname ns_structure "Dataflow".
Definition tag_structure_Structure := qname ns_structure "Structure".

(** [if value.text: constraints[dim_id].append(value.text)]. *)
Definition add_constraint_value (codes : list string) (v : element)
  : list string :=
  match text_of v with
  | Some t => if str_truthy (Some t) then codes ++ [t] else codes
  | None => codes
  end.

(** The body of the loop over the [common:KeyValue] elements. *)
Definition add_key_constraints (constraints : list (string * list string))
           (key_value : element) : list (string * list string) :=
  match attrib_get "id" key_value with
  | Some dim_id =>
      if str_truthy (Some dim_id) then
        dict_set String.eqb dim_id
          (fold_left add_constraint_value
                     (findall_child tag_common_Value key_value) [])
          constraints
      else constraints
  | None => constraints
  end.

Definition get_available_constraints (w : world) (dataset_id : string)
  : result (list (string * list string)) :=
  try_except
    (root <- fetch_xml w (base_url +++ "/availableconstraint/" +++ dataset_id) ;;
     match find_desc tag_CubeRegion root with
     | None => Ok []
     | Some cube_region =>
         Ok (fold_left add_key_constraints
                       (findall_desc tag_KeyValue cube_region) [])
     end)
    (fun e => Raise e).

(** [info["structure_reference"]]: the empty dict, or the three attributes
    of the reference. *)
Record structure_reference : Type := StructureReference {
  sr_agency_id : option string;
  sr_id : option string;
  sr_version : option string
}.

(** What [get_dataflow_info] returns.  A name without [xml:lang] is stored
    under the key [None]. *)
Record dataflow_info : Type := DataflowInfo {
  df_id : string;
  df_names : list (option string * option string);
  df_structure_reference : option structure_reference
}.

Definition get_dataflow_info (w : world) (dataset_id : string)
  : result dataflow_info :=
  try_except
    (root <- fetch_xml w (base_url +++ "/dataflow/IT1/" +++ dataset_id) ;;
     match find_desc tag_Dataflow root with
     | Some dataflow =>
         let names :=
           fold_left (fun names name =>
                        dict_set opt_eqb (attrib_get xml_lang name)
                                 (text_of name) names)
                     (findall_desc tag_common_Name dataflow) [] in
         let structure_reference :=
           match find_desc_child tag_structure_Structure "Ref" dataflow with
           | Some struct_ref =>
               Some (StructureReference (attrib_get "agencyID" struct_ref)
                                        (attrib_get "id" struct_ref)
                                        (attrib_get "version" struct_ref))
           | None => None
           end in
         Ok (DataflowInfo dataset_id names structure_reference)
     | None => Ok (DataflowInfo dataset_id [] None)
     end)
    (fun e => Raise e).

Definition load_mapping_file (w : world) (mappings_dir dataset_id : string)
  : result json :=
  try_except
    (load_json w (os_path_join mappings_dir
                               ("mapping_" +++ dataset_id +++ ".json")))
    (fun e => Raise e).

(** One entry of a dimension's [values] in the overview: [{"name": ...}]. *)
Record value_label : Type := ValueLabel { vl_name : json }.

Record dimension_overview : Type := DimensionOverview {
  do_id : string;
  do_values : list (string * value_label)
}.

Record overview : Type := Overview {
  ov_dataset_info : dataflow_info;
  ov_generated_at : string;
  ov_dimensions : list (string * dimension_overview)
}.

(** The degenerate label [{"default": value}]. *)
Definition default_label (v : string) : json := JObj [("default", JStr v)].

(** The body of the inner loop of [build_constraints_overview]. *)
Definition add_value_label (dim_info : json)
           (values : list (string * value_label)) (v : string)
  : result (list (string * value_label)) :=
  all_values <- py_get dim_info (Some "values") (JObj []) ;;
  value_info <- py_get all_values (Some v) (JObj []) ;;
  if truthy value_info then
    name <- py_get value_info (Some "name") (default_label v) ;;
    Ok (dict_set String.eqb v (ValueLabel name) values)
  else
    Ok (dict_set String.eqb v (ValueLabel (default_label v)) values).

(** The body of the outer loop.  The source stores the dimension with no
    values and then fills them in place; storing it once they are all known
    puts the same entry at the same position. *)
Definition add_dimension_overview (mapping : json)
           (dimensions : list (string * dimension_overview))
           (item : string * list string)
  : result (list (string * dimension_overview)) :=
  let (dim_id, values) := item in
  all_dimensions <- py_get mapping (Some "dimensions") (JObj []) ;;
  dim_info <- py_get all_dimensions (Some dim_id) (JObj []) ;;
  labels <- for_each (add_value_label dim_info) values [] ;;
  Ok (dict_set String.eqb dim_id (DimensionOverview dim_id labels) dimensions).

(** [build_constraints_overview] returns the overview after saving it; the
    result here also names the file it was saved under. *)
Definition build_constraints_overview (w : world)
           (dataset_id mappings_dir output_dir : string)
  : result (path * overview) :=
  try_except
    (dataflow_info <- get_dataflow_info w dataset_id ;;
     available_constraints <- get_available_constraints w dataset_id ;;
     mapping <- load_mapping_file w mappings_dir dataset_id ;;
     let generated_at := clock w 0 in
     dimensions <-
       for_each (add_dimension_overview mapping) available_constraints [] ;;
     let output_file :=
       os_path_join output_dir ("constraints_" +++ dataset_id +++ ".json") in
     Ok (output_file, Overview dataflow_info generated_at dimensions))
    (fun e => Raise e).

(** ** Vocabulary of the statements *)

(** [v[k]] when [v] is a dict that has the key. *)
Definition obj_field (k : string) (v : json) : option json :=
  match v with
  | JObj d => dict_get String.eqb k d
  | _ => None
  end.

(** The name entries a constraints document records for a code of a
    dimension: [constraints["dimensions"][concept]["values"][code]["name"]],
    when every step of that path is there and the end is a dict. *)
Definition name_entries (constraints : json) (concept code : option string)
  : option (list (string * json)) :=
  match concept, code with
  | Some dim, Some k =>
      match obj_field "dimensions" constraints with
      | Some dims =>
          match obj_field dim dims with
          | Some dimension_info =>
              match obj_field "values" dimension_info with
              | Some values =>
                  match obj_field k values with
                  | Some value_info =>
                      match obj_field "name" value_info with
                      | Some (JObj names) => Some names
                      | _ => None
                      end
                  | None => None
                  end
              | None => None
              end
          | None => None
          end
      | None => None
      end
  | _, _ => None
  end.

(** The entry of a language, when it is there and is not empty (Python's
    [or] skips [None], the empty string and the like). *)
Definition usable_entry (lang : string) (names : list (string * json))
  : option json :=
  match dict_get String.eqb lang names with
  | Some v => if truthy v then Some v else None
  | None => None
  end.

(** The label the fallback chain picks among name entries. *)
Definition fallback_label (names : list (string * json))
           (code : option string) : json :=
  match usable_entry "en" names with
  | Some v => v
  | None =>
      match usable_entry "it" names with
      | Some v => v
      | None =>
          match dict_get String.eqb "default" names with
          | Some v => v
          | None => of_opt_str code
          end
      end
  end.

(** [constraints["dataset_info"]["id"]], when the document has it. *)
Definition declared_dataset_id (constraints : json) : option json :=
  match obj_field "dataset_info" constraints with
  | Some info => obj_field "id" info
  | None => None
  end.

(** The file [find_constraints_file] looks for. *)
Definition constraints_file (dataset_id : string) : path :=
  os_path_join constraints_dir ("constraints_" +++ dataset_id +++ ".json").

(** The raw time period of an observation element: [None] without a
    [TIME_PERIOD] dimension, [Some None] when that element carries no
    [value] attribute. *)
Definition raw_time (obs : element) : option (option string) :=
  match find_child_attr tag_ObsDimension "id" "TIME_PERIOD" obs with
  | Some time_dim => Some (attrib_get "value" time_dim)
  | None => None
  end.

(** The raw value text of an observation element. *)
Definition raw_value (obs : element) : option string :=
  match find_child tag_ObsValue obs with
  | Some obs_value => attrib_get "value" obs_value
  | None => None
  end.

(** The observations of a series that pass the test "both time and
    value", in document order. *)
Definition surviving_observations (series_elem : element) : list observation :=
  filter has_time_and_value
         (map read_observation (findall_child tag_Obs series_elem)).

(** Ascending order of two observations by time-period string. *)
Definition time_le (a b : observation) : Prop :=
  match sort_key a, sort_key b with
  | Some x, Some y => String.leb x y = true
  | _, _ => False
  end.

(** The (dimension, code) pairs of a series key, in document order. *)
Definition key_pairs (series_elem : element)
  : list (option string * option string) :=
  match find_child tag_SeriesKey series_elem with
  | Some series_key =>
      map (fun v => (attrib_get "id" v, attrib_get "value" v))
          (findall_desc tag_Value series_key)
  | None => []
  end.

(** The dict that assigning the pairs one after the other builds: a
    dimension keeps the place of its first occurrence and the code of its
    last. *)
Definition pairs_dict (pairs : list (option string * option string))
  : list (option string * option string) :=
  fold_left (fun d p => dict_set opt_eqb (fst p) (snd p) d) pairs [].

(** The file name spelled out from the dataset id and the pairs. *)
Definition filename_of_pairs (dataset_id : string)
           (pairs : list (option string * option string)) : string :=
  "series_" +++
  String.concat "_"
    (("dataset_" +++ dataset_id)
       :: map (fun p => pystr (fst p) +++ "-" +++ pystr (snd p))
              (pairs_dict pairs))
  +++ ".json".

(** The name a dimension entry of a mapping document records for a code:
    [dim_info["values"][code]["name"]], when the entry of the code is there
    and not empty. *)
Definition dimension_name (dim_info : json) (code : string) : option json :=
  match obj_field "values" dim_info with
  | Some values =>
      match obj_field code values with
      | Some value_info =>
          if truthy value_info then obj_field "name" value_info else None
      | None => None
      end
  | None => None
  end.

(** The name a mapping document records for a code of a dimension:
    [mapping["dimensions"][dim_id]["values"][code]["name"]]. *)
Definition mapping_name (mapping : json) (dim_id code : string) : option json :=
  match obj_field "dimensions" mapping with
  | Some dims =>
      match obj_field dim_id dims with
      | Some dim_info => dimension_name dim_info code
      | None => None
      end
  | None => None
  end.

(** The label of a code in the overview: the recorded name, or the
    degenerate label. *)
Definition label_or_default (name : option json) (code : string) : json :=
  match name with
  | Some n => n
  | None => default_label code
  end.

(** The codes a [KeyValue] element lists. *)
Definition listed_codes (key_value : element) : list string :=
  fold_left add_constraint_value (findall_child tag_common_Value key_value) [].

Definition is_obj (v : json) : bool :=
  match v with JObj _ => true | _ => false end.

(** A dimension entry of a mapping document: a dict whose ["values"], if
    any, is a dict of dicts. *)
Definition dimension_well_formed (dim_info : json) : bool :=
  match dim_info with
  | JObj d =>
      match dict_get String.eqb "values" d with
      | Some (JObj values) => forallb (fun kv => is_obj (snd kv)) values
      | Some _ => false
      | None => true
      end
  | _ => false
  end.

(** The shape of a mapping document as far as the constraints builder reads
    it: a dict whose ["dimensions"], if any, is a dict of well-formed
    dimension entries. *)
Definition mapping_well_formed (mapping : json) : bool :=
  match mapping with
  | JObj top =>
      match dict_get String.eqb "dimensions" top with
      | Some (JObj dims) => forallb (fun kv => dimension_well_formed (snd kv)) dims
      | Some _ => false
      | None => true
      end
  | _ => false
  end.


(** ** Sample documents and responses *)

(** A constraints document for dataset [D1] with one dimension [FREQ] and
    one code [A], whose name entries are [names]. *)
Definition constraints_with_names (names : json) : json :=
  JObj [("dataset_info",
         JObj [("id", JStr "D1");
               ("names", JObj [("en", JStr "Sample dataset")]);
               ("structure_reference", JObj [("id", JStr "DSD1")])]);
        ("generated_at", JStr "2024-01-01T00:00:00");
        ("dimensions",
         JObj [("FREQ",
                JObj [("id", JStr "FREQ");
                      ("values", JObj [("A", JObj [("name", names)])])])])].

(** A world whose document store holds [doc] as the constraints file of
    [dataset_id], whose data endpoint answers [response], and whose clock
    reads [now]. *)
Definition world_at (now : string) (dataset_id : string) (doc : json)
           (response : element) : world :=
  World
    (fun url =>
       if String.eqb url (base_url +++ "/data/" +++ dataset_id)
       then Ok response
       else Raise (FetchError "404"))
    (fun p =>
       if String.eqb (path_dir p) constraints_dir
          && String.eqb (path_file p) ("constraints_" +++ dataset_id +++ ".json")
       then Some (FileJson doc)
       else None)
    (fun _ => now).

Definition world_with (dataset_id : string) (doc : json) (response : element)
  : world :=
  world_at "2024-01-02T00:00:00" dataset_id doc response.

(** An envelope with the given series. *)
Definition data_response (series : list element) : element :=
  Element (qname ns_message "GenericData") [] None
          [Element (qname ns_message "DataSet") [] None series].

Definition key_value_elem (concept code : string) : element :=
  Element tag_Value [("id", concept); ("value", code)] None [].

Definition series_elem_of (key : list element) (obs : list element) : element :=
  Element tag_Series [] None (Element tag_SeriesKey [] None key :: obs).

(** [<Obs><ObsDimension id="TIME_PERIOD" value=t/><ObsValue value=v/></Obs>]. *)
Definition obs_elem (t v : string) : element :=
  Element tag_Obs [] None
          [Element tag_ObsDimension [("id", "TIME_PERIOD"); ("value", t)] None [];
           Element tag_ObsValue [("value", v)] None []].

(** An observation whose time dimension carries no [value] attribute:
    [<Obs><ObsDimension id="TIME_PERIOD"/><ObsValue value=v/></Obs>]. *)
Definition obs_elem_no_period (v : string) : element :=
  Element tag_Obs [] None
          [Element tag_ObsDimension [("id", "TIME_PERIOD")] None [];
           Element tag_ObsValue [("value", v)] None []].

(** An observation without a [value] attribute on its [ObsValue]. *)
Definition obs_elem_no_value (t : string) : element :=
  Element tag_Obs [] None
          [Element tag_ObsDimension [("id", "TIME_PERIOD"); ("value", t)] None [];
           Element tag_ObsValue [] None []].

(** An extractor for [D1] as [extractor_init] builds it from
    [constraints_with_names names]. *)
Definition extractor_with_names (names : json) : extractor :=
  Extractor "D1" "./series_data" (constraints_file "D1")
            (constraints_with_names names).

(** A world for the constraints builder of dataset [D1]: the dataflow and
    constraint endpoints answer [flow] and [response], and the store holds
    [mapping] as the mapping file. *)
Definition constraints_world (flow response : element) (mapping : json)
  : world :=
  World
    (fun url =>
       if String.eqb url (base_url +++ "/dataflow/IT1/D1") then Ok flow
       else if String.eqb url (base_url +++ "/availableconstraint/D1")
            then Ok response
            else Raise (FetchError "404"))
    (fun p =>
       if String.eqb (path_dir p) "./mappings"
          && String.eqb (path_file p) "mapping_D1.json"
       then Some (FileJson mapping)
       else None)
    (fun _ => "2024-01-01T00:00:00").

Definition dataflow_response : element :=
  Element (qname ns_message "Structure") [] None
    [Element tag_Dataflow [("id", "D1")] None
       [Element tag_common_Name [(xml_lang, "en")] (Some "Sample dataset") [];
        Element tag_structure_Structure [] None
          [Element "Ref" [("agencyID", "IT1"); ("id", "DSD1"); ("version", "1.0")]
                   None []]]].

(** A constraint response without [CubeRegion]. *)
Definition constraint_response_empty : element :=
  Element (qname ns_message "Structure") [] None
    [Element (qname ns_structure "ContentConstraint") [] None []].

(** A constraint region with [FREQ] in {A, Q} and [ITTER107] in {IT}. *)
Definition constraint_response : element :=
  Element (qname ns_message "Structure") [] None
    [Element tag_CubeRegion [] None
       [Element tag_KeyValue [("id", "FREQ")] None
          [Element tag_common_Value [] (Some "A") [];
           Element tag_common_Value [] (Some "Q") []];
        Element tag_KeyValue [("id", "ITTER107")] None
          [Element tag_common_Value [] (Some "IT") []]]].

(** A constraint region that lists [FREQ] twice: first with the code
    [A], then with the code [Q]. *)
Definition constraint_region_repeated : element :=
  Element tag_CubeRegion [] None
    [Element tag_KeyValue [("id", "FREQ")] None
       [Element tag_common_Value [] (Some "A") []];
     Element tag_KeyValue [("id", "FREQ")] None
       [Element tag_common_Value [] (Some "Q") []]].

(** A mapping document that knows the code [A] of [FREQ] only. *)
Definition mapping_doc : json :=
  JObj [("dataset_id", JStr "D1");
        ("dimensions",
         JObj [("FREQ",
                JObj [("values",
                       JObj [("A",
                              JObj [("name", JObj [("en", JStr "annual")]);
                                    ("description", JObj [])])])])])].

(** A world for the mapping builder of dataset [D1]: the data, structure
    and codelist endpoints answer the given envelopes, and every other URL
    an empty one. *)
Definition mapping_world (data structure codelist : element) : world :=
  World
    (fun url =>
       if String.eqb url (base_url +++ "/data/D1") then Ok data
       else if String.eqb url (base_url +++ "/datastructure/IT1/DSD1")
            then Ok structure
            else if String.eqb url (base_url +++ "/codelist/IT1/CL_FREQ")
                 then Ok codelist
                 else Ok (Element (qname ns_message "Structure") [] None []))
    (fun _ => None)
    (fun _ => "2024-01-01T00:00:00").

(** A data envelope with its structure reference. *)
Definition data_with_structure : element :=
  Element (qname ns_message "GenericData") [] None
    [Element (qname ns_message "Header") [] None
       [Element (qname ns_message "Structure") [] None
          [Element tag_common_Structure [] None
             [Element "Ref" [("agencyID", "IT1"); ("id", "DSD1");
                             ("version", "1.0")] None []]]]].


(** A dimension without enumeration reference. *)
Definition dimension_without_enumeration : element :=
  Element tag_Dimension [("id", "OBS_NOTE")] None
    [Element (qname ns_structure "LocalRepresentation") [] None
       [Element (qname ns_structure "TextFormat") [("textType", "String")]
                None []]].

(** A structure with the dimension [FREQ], enumerated by [CL_FREQ], and a
    dimension without enumeration reference. *)
Definition structure_response : element :=
  Element (qname ns_message "Structure") [] None
    [Element (qname ns_structure "DimensionList") [] None
       [Element tag_Dimension [("id", "FREQ")] None
          [Element (qname ns_structure "LocalRepresentation") [] None
             [Element tag_Enumeration [] None
                [Element "Ref" [("id", "CL_FREQ"); ("agencyID", "IT1")]
                         None []]]];
        dimension_without_enumeration]].

(** A code without identifier. *)
Definition code_without_id : element :=
  Element tag_Code [] None
    [Element tag_common_Name [(xml_lang, "en")] (Some "quarterly") []].

(** A codelist with the code [A] and a code without identifier. *)
Definition codelist_response : element :=
  Element (qname ns_message "Structure") [] None
    [Element (qname ns_structure "Codelist") [("id", "CL_FREQ")] None
       [Element tag_common_Name [(xml_lang, "en")] (Some "Frequency") [];
        Element tag_Code [("id", "A")] None
          [Element tag_common_Name [(xml_lang, "en")] (Some "annual") [];
           Element tag_common_Name [(xml_lang, "it")] (Some "annuale") []];
        code_without_id]].

(** ** Further vocabulary *)

(** The time period of an observation is a string (and not Python's
    [None]). *)
Definition has_period (o : observation) : Prop :=
  exists t, time_period o = Some (Some t).

(** The language tag a name or description element is stored under. *)
Definition lang_of (name : element) : string :=
  match attrib_get xml_lang name with
  | Some l => l
  | None => "default"
  end.

(** The URL [get_codelist_values] fetches for a codelist reference. *)
Definition codelist_url (codelist_ref : CodelistRef) : string :=
  base_url +++ "/codelist/" +++ pystr (clr_agency_id codelist_ref) +++ "/"
           +++ pystr (clr_id codelist_ref).

(** The texts a [KeyValue] element lists, one by one. *)
Definition value_text (v : element) : list string :=
  match text_of v with
  | Some t => if String.eqb t EmptyString then [] else [t]
  | None => []
  end.

(** ** Documents as files

    Each stage saves its document with [json.dump] and the next stage reads
    it with [json.load].  The functions below give the value read back: a
    dict becomes an object with the same keys in the same order, [None]
    becomes [null] and back, and a key [None] is written as the key
    "null" (two keys written alike leave one entry, at the place of the
    first and with the value of the last). *)

Definition json_key (k : option string) : string :=
  match k with Some s => s | None => "null" end.

Definition lang_map_json (m : lang_map) : json :=
  JObj (map (fun e => (fst e, of_opt_str (snd e))) m).

Definition code_value_json (cv : code_value) : json :=
  JObj [("name", lang_map_json (cv_name cv));
        ("description", lang_map_json (cv_description cv))].

Definition dimension_mapping_json (dm : dimension_mapping) : json :=
  JObj [("codelist",
         JObj [("id", of_opt_str (clr_id (dm_codelist dm)));
               ("agency_id", of_opt_str (clr_agency_id (dm_codelist dm)));
               ("version", of_opt_str (clr_version (dm_codelist dm)));
               ("name", lang_map_json (dm_codelist_name dm));
               ("description", lang_map_json (dm_codelist_description dm))]);
        ("values",
         JObj (map (fun e => (fst e, code_value_json (snd e))) (dm_values dm)))].

(** The mapping file of [build_mapping], as loaded. *)
Definition mapping_json (m : mapping_document) : json :=
  JObj [("dataset_id", JStr (md_dataset_id m));
        ("generated_at", JStr (md_generated_at m));
        ("structure",
         JObj [("agency_id", of_opt_str (dsi_agency_id (md_structure m)));
               ("id", of_opt_str (dsi_structure_id (md_structure m)));
               ("version", of_opt_str (dsi_version (md_structure m)))]);
        ("dimensions",
         JObj (map (fun e => (fst e, dimension_mapping_json (snd e)))
                   (md_dimensions m)))].

Definition structure_reference_json (r : option structure_reference) : json :=
  match r with
  | Some r =>
      JObj [("agency_id", of_opt_str (sr_agency_id r));
            ("id", of_opt_str (sr_id r));
            ("version", of_opt_str (sr_version r))]
  | None => JObj []
  end.

Definition dataflow_info_json (info : dataflow_info) : json :=
  JObj [("id", JStr (df_id info));
        ("names",
         JObj (fold_left
                 (fun d e =>
                    dict_set String.eqb (json_key (fst e)) (of_opt_str (snd e)) d)
                 (df_names info) []));
        ("structure_reference",
         structure_reference_json (df_structure_reference info))].

Definition dimension_overview_json (dim : dimension_overview) : json :=
  JObj [("id", JStr (do_id dim));
        ("values",
         JObj (map (fun e => (fst e, JObj [("name", vl_name (snd e))]))
                   (do_values dim)))].

(** The constraints file of [build_constraints_overview], as loaded. *)
Definition overview_json (ov : overview) : json :=
  JObj [("dataset_info", dataflow_info_json (ov_dataset_info ov));
        ("generated_at", JStr (ov_generated_at ov));
        ("dimensions",
         JObj (map (fun e => (fst e, dimension_overview_json (snd e)))
                   (ov_dimensions ov)))].

(** One observation of a saved record: the keys the dict has. *)
Definition observation_json (o : observation) : json :=
  JObj ((match time_period o with
         | Some t => [("time_period", of_opt_str t)]
         | None => []
         end)
          ++ (match value o with
              | Some (VFloat f) => [("value", JFloat f)]
              | Some (VText s) => [("value", JStr s)]
              | None => []
              end)).

Definition key_label_json (kl : key_label) : json :=
  JObj [("code", of_opt_str (code kl)); ("description", description kl)].

(** A series file of [process_series], as loaded. *)
Definition series_data_json (sd : series_data) : json :=
  JObj [("dataset_info",
         JObj [("id", JStr (di_id (sd_dataset_info sd)));
               ("names", di_names (sd_dataset_info sd));
               ("structure_reference",
                di_structure_reference (sd_dataset_info sd));
               ("generated_at", JStr (di_generated_at (sd_dataset_info sd)))]);
        ("metadata",
         JObj (fold_left
                 (fun d e =>
                    dict_set String.eqb (json_key (fst e))
                             (key_label_json (snd e)) d)
                 (sd_metadata sd) []));
        ("observations", JArr (map observation_json (sd_observations sd)))].

(** ** ISTAT_Time_Serie_Plotter.py *)

(** The argument of ['_'.join(parts)]: every part must be a string. *)
Fixpoint str_parts (parts : list json) : result (list string) :=
  match parts with
  | [] => Ok []
  | JStr s :: rest => r <- str_parts rest ;; Ok (s :: r)
  | _ :: _ => Raise TypeError
  end.

(** [generate_output_filename]; [stem] is [file_path.stem]. *)
Definition generate_output_filename (series_data : json) (stem : string)
  : result string :=
  try_except
    (info <- py_get series_data (Some "dataset_info") (JObj []) ;;
     series_id <- py_get info (Some "id") (JStr EmptyString) ;;
     metadata <- py_get series_data (Some "metadata") (JObj []) ;;
     tipo_dato_info <- py_get metadata (Some "TIPO_DATO") (JObj []) ;;
     tipo_dato <- py_get tipo_dato_info (Some "code") (JStr EmptyString) ;;
     tipo_aggr_info <- py_get metadata (Some "TIPO_AGGR_MILEURO") (JObj []) ;;
     tipo_aggr <- py_get tipo_aggr_info (Some "code") (JStr EmptyString) ;;
     let data_type := if truthy tipo_dato then tipo_dato else tipo_aggr in
     freq_info <- py_get metadata (Some "FREQ") (JObj []) ;;
     freq <- py_get freq_info (Some "code") (JStr EmptyString) ;;
     let filename_parts := filter truthy [series_id; freq; data_type] in
     match filename_parts with
     | _ :: _ =>
         parts <- str_parts filename_parts ;;
         Ok (String.concat "_" parts +++ ".png")
     | [] => Ok (stem +++ ".png")
     end)
    (fun _ => Ok (stem +++ ".png")).

(** The non-empty code that the metadata of a record give for a
    dimension, as a list of at most one string. *)
Definition code_part (metadata : list (option string * key_label))
           (concept : string) : list string :=
  match dict_get opt_eqb (Some concept) metadata with
  | Some kl =>
      match code kl with
      | Some s => if String.eqb s EmptyString then [] else [s]
      | None => []
      end
  | None => []
  end.

(** The name of the plot of a record: the dataset id, the code of [FREQ]
    and the code of [TIPO_DATO] (else of [TIPO_AGGR_MILEURO]), those that
    are not empty, joined by "_"; the stem of the series file when all are
    empty. *)
Definition plot_filename (dataset_id : string)
           (metadata : list (option string * key_label)) (stem : string)
  : string :=
  let parts :=
    (if String.eqb dataset_id EmptyString then [] else [dataset_id])
      ++ code_part metadata "FREQ"
      ++ (match code_part metadata "TIPO_DATO" with
          | [] => code_part metadata "TIPO_AGGR_MILEURO"
          | l => l
          end) in
  match parts with
  | [] => stem +++ ".png"
  | _ :: _ => String.concat "_" parts +++ ".png"
  end.

(** ** Label resolution *)

(** Every path through [get_value_description], the exceptional ones
    included, ends in a label. *)
Lemma get_value_description_eq :
  forall (constraints : json) (concept code : option string),
    get_value_description constraints concept code =
    Ok (match name_entries constraints concept code with
        | Some names => fallback_label names code
        | None => of_opt_str code
        end).
Proof.
  intros constraints concept code.
  unfold get_value_description, value_description_lookup, name_entries.
  destruct constraints as [| | | | |l|top]; try (destruct concept, code; reflexivity).
  cbn [py_getitem obj_field].
  destruct (dict_get String.eqb "dimensions" top) as [dims|];
    [|destruct concept, code; reflexivity].
  cbn [bind].
  destruct dims as [| | | | s |l|dims];
    try (destruct concept, code; reflexivity).
  - (* a string: [concept in dims] is a substring test *)
    destruct concept as [c|]; [|destruct code; reflexivity].
    cbn. destruct (index 0 c s); destruct code; reflexivity.
  - (* a list: [concept in dims] may hold, but [dims[concept]] raises *)
    cbn. destruct (existsb (py_eq_str concept) l);
      destruct concept, code; reflexivity.
  - destruct concept as [c|]; [|destruct code; reflexivity].
    cbn [py_contains bind py_getitem obj_field]. unfold dict_mem.
    destruct (dict_get String.eqb c dims) as [dimension_info|];
      [|destruct code; reflexivity].
    cbn [bind].
    destruct dimension_info as [| | | | | |di]; try (destruct code; reflexivity).
    cbn [py_getitem obj_field].
    destruct (dict_get String.eqb "values" di) as [values|];
      [|destruct code; reflexivity].
    cbn [bind].
    destruct values as [| | | | | |values]; try (destruct code; reflexivity).
    destruct code as [k|]; [|reflexivity].
    cbn [py_get obj_field].
    destruct (dict_get String.eqb k values) as [value_info|]; [|reflexivity].
    cbn [bind].
    destruct value_info as [| | | | | |vi]; try reflexivity.
    cbn [py_get obj_field].
    destruct (dict_get String.eqb "name" vi) as [names|]; [|reflexivity].
    cbn [bind].
    destruct names as [| | | | | |names]; try reflexivity.
    cbn [py_get bind].
    unfold fallback_label, usable_entry, py_or.
    destruct (dict_get String.eqb "en" names) as [en|].
    + cbn [bind]. destruct (truthy en); [reflexivity|].
      destruct (dict_get String.eqb "it" names) as [it|].
      * cbn [bind]. destruct (truthy it); [reflexivity|].
        destruct (dict_get String.eqb "default" names); reflexivity.
      * cbn. destruct (dict_get String.eqb "default" names); reflexivity.
    + cbn [bind truthy].
      destruct (dict_get String.eqb "it" names) as [it|].
      * cbn [bind]. destruct (truthy it); [reflexivity|].
        destruct (dict_get String.eqb "default" names); reflexivity.
      * cbn. destruct (dict_get String.eqb "default" names); reflexivity.
Qed.

(** C1 (as amended). Label resolution always returns and never raises.
    When the constraints document records name entries for the code of the
    dimension, the label is the "en" entry if it is there and not empty,
    else the "it" entry if it is there and not empty, else the "default"
    entry if there is one, else the raw code.  In every other case (unknown
    dimension, unknown code, malformed entry) the label is the raw code. *)
Theorem get_value_description_fallback :
  forall (constraints : json) (concept code : option string),
    get_value_description constraints concept code =
    Ok (match name_entries constraints concept code with
        | Some names =>
            match usable_entry "en" names with
            | Some en => en
            | None =>
                match usable_entry "it" names with
                | Some it => it
                | None =>
                    match dict_get String.eqb "default" names with
                    | Some default => default
                    | None => of_opt_str code
                    end
                end
            end
        | None => of_opt_str code
        end).
Proof.
  intros constraints concept code.
  rewrite get_value_description_eq. reflexivity.
Qed.

(** ** Validation of the constraints document *)

(** C2. For two distinct dataset ids, building the extractor for one of
    them while the constraints file found for it declares the other as
    [dataset_info.id] raises the mismatch [ValueError] (the integrity
    error), and the run saves no series. *)
Theorem mismatched_constraints_rejected :
  forall (w : world) (expected declared output_dir : string) (doc : json),
    expected <> declared ->
    files w (constraints_file expected) = Some (FileJson doc) ->
    declared_dataset_id doc = Some (JStr declared) ->
    extractor_init w expected output_dir =
      Raise (ValueError (MsgConstraintsMismatch
                           expected (JStr declared) (constraints_file expected)))
    /\ extractor_run w expected = [].
Proof.
  intros w expected declared output_dir doc Hneq Hfile Hid.
  assert (Hv : validate_constraints expected (constraints_file expected) doc =
               Raise (ValueError (MsgConstraintsMismatch
                        expected (JStr declared) (constraints_file expected)))).
  { unfold declared_dataset_id in Hid. unfold validate_constraints.
    destruct doc as [| | | | | |top]; try discriminate Hid.
    cbn [obj_field] in Hid. cbn [py_getitem].
    destruct (dict_get String.eqb "dataset_info" top) as [info|];
      [|discriminate Hid].
    cbn [bind].
    destruct info as [| | | | | |info]; try discriminate Hid.
    cbn [obj_field] in Hid. cbn [py_getitem]. rewrite Hid. cbn [bind py_eq_str].
    apply String.eqb_neq in Hneq. rewrite Hneq. reflexivity. }
  assert (Hinit : forall out, extractor_init w expected out =
               Raise (ValueError (MsgConstraintsMismatch
                        expected (JStr declared) (constraints_file expected)))).
  { intro out. unfold extractor_init, find_constraints_file, load_constraints,
      load_json.
    unfold constraints_file in *. rewrite Hfile. cbn [bind try_except].
    rewrite Hfile. cbn [bind try_except]. rewrite Hv. reflexivity. }
  split; [apply Hinit|].
  unfold extractor_run. rewrite Hinit. reflexivity.
Qed.

(** ** Sorting by time period *)

Lemma ltb_leb : forall x y : string, String.ltb x y = true -> String.leb x y = true.
Proof.
  intros x y. unfold String.ltb, String.leb.
  destruct (String.compare x y); congruence.
Qed.

Lemma not_ltb_leb :
  forall x y : string, String.ltb x y = false -> String.leb y x = true.
Proof.
  intros x y. unfold String.ltb, String.leb.
  rewrite (String.compare_antisym y x).
  destruct (String.compare x y); simpl; congruence.
Qed.

Lemma insert_sorted_perm :
  forall x l r, insert_sorted x l = Ok r -> Permutation (x :: l) r.
Proof.
  intros x l. induction l as [|y l IH]; intros r H; simpl in H.
  - injection H as <-. apply Permutation_refl.
  - destruct (key_lt (sort_key x) (sort_key y)) as [b|]; [|discriminate H].
    cbn [bind] in H. destruct b.
    + injection H as <-. apply Permutation_refl.
    + destruct (insert_sorted x l) as [r'|]; [|discriminate H].
      cbn [bind] in H. injection H as <-.
      apply perm_trans with (y :: x :: l); [apply perm_swap|].
      apply perm_skip. apply IH. reflexivity.
Qed.

Lemma sort_loop_perm :
  forall l acc r,
    for_each (fun sorted x => insert_sorted x sorted) l acc = Ok r ->
    Permutation (l ++ acc) r.
Proof.
  induction l as [|x l IH]; intros acc r H; simpl in H.
  - injection H as <-. apply Permutation_refl.
  - destruct (insert_sorted x acc) as [acc'|] eqn:Hi; [|discriminate H].
    cbn [bind] in H. apply IH in H.
    apply perm_trans with (l ++ acc'); [|exact H].
    apply insert_sorted_perm in Hi.
    simpl. apply perm_trans with (l ++ x :: acc).
    + apply Permutation_middle.
    + apply Permutation_app_head. exact Hi.
Qed.

Lemma sort_by_time_period_perm :
  forall l r, sort_by_time_period l = Ok r -> Permutation l r.
Proof.
  intros l r H. apply sort_loop_perm in H. rewrite app_nil_r in H. exact H.
Qed.

Lemma insert_sorted_hdrel :
  forall a x l r,
    insert_sorted x l = Ok r ->
    HdRel time_le a l -> time_le a x -> HdRel time_le a r.
Proof.
  intros a x l r H Hl Hx. destruct l as [|y l]; simpl in H.
  - injection H as <-. constructor. exact Hx.
  - destruct (key_lt (sort_key x) (sort_key y)) as [b|]; [|discriminate H].
    cbn [bind] in H. destruct b.
    + injection H as <-. constructor. exact Hx.
    + destruct (insert_sorted x l) as [r'|]; [|discriminate H].
      cbn [bind] in H. injection H as <-.
      constructor. inversion Hl; assumption.
Qed.

Lemma insert_sorted_sorted :
  forall x l r,
    insert_sorted x l = Ok r -> Sorted time_le l -> Sorted time_le r.
Proof.
  intros x l. induction l as [|y l IH]; intros r H Hs; simpl in H.
  - injection H as <-. repeat constructor.
  - destruct (key_lt (sort_key x) (sort_key y)) as [b|] eqn:Hlt;
      [|discriminate H].
    cbn [bind] in H. unfold key_lt in Hlt.
    destruct (sort_key x) as [kx|] eqn:Hkx; [|discriminate Hlt].
    destruct (sort_key y) as [ky|] eqn:Hky; [|discriminate Hlt].
    injection Hlt as Hb. destruct b.
    + injection H as <-. constructor; [exact Hs|].
      constructor. unfold time_le. rewrite Hkx, Hky. apply ltb_leb. exact Hb.
    + destruct (insert_sorted x l) as [r'|] eqn:Hi; [|discriminate H].
      cbn [bind] in H. injection H as <-.
      inversion Hs as [|? ? Hs' Hhd]; subst.
      constructor.
      * apply IH; [reflexivity|exact Hs'].
      * apply (insert_sorted_hdrel y x l r' Hi Hhd).
        unfold time_le. rewrite Hkx, Hky. apply not_ltb_leb. exact Hb.
Qed.

Lemma sort_loop_sorted :
  forall l acc r,
    for_each (fun sorted x => insert_sorted x sorted) l acc = Ok r ->
    Sorted time_le acc -> Sorted time_le r.
Proof.
  induction l as [|x l IH]; intros acc r H Hs; simpl in H.
  - injection H as <-. exact Hs.
  - destruct (insert_sorted x acc) as [acc'|] eqn:Hi; [|discriminate H].
    cbn [bind] in H. apply (IH acc' r H).
    apply (insert_sorted_sorted x acc acc' Hi Hs).
Qed.

Lemma sort_by_time_period_sorted :
  forall l r, sort_by_time_period l = Ok r -> Sorted time_le r.
Proof.
  intros l r H. apply (sort_loop_sorted l [] r H). constructor.
Qed.

(** What a successful [extract_series_key] returns as observations: the
    surviving observations, sorted. *)
Lemma extract_series_key_observations :
  forall ex now series_elem sd,
    extract_series_key ex now series_elem = Ok sd ->
    match surviving_observations series_elem with
    | [] => sd_observations sd = []
    | _ :: _ =>
        sort_by_time_period (surviving_observations series_elem)
        = Ok (sd_observations sd)
    end.
Proof.
  intros ex now series_elem sd H.
  unfold extract_series_key, try_except in H.
  fold (surviving_observations series_elem) in H.
  destruct (py_getitem (ex_constraints ex) (Some "dataset_info")) as [info|];
    [|discriminate H].
  cbn [bind] in H.
  destruct (py_getitem info (Some "names")) as [names|]; [|discriminate H].
  cbn [bind] in H.
  destruct (py_getitem info (Some "structure_reference")) as [sref|];
    [|discriminate H].
  cbn [bind] in H.
  destruct (match find_child tag_SeriesKey series_elem with
            | Some series_key =>
                for_each (add_key_value (ex_constraints ex))
                         (findall_desc tag_Value series_key) []
            | None => Ok []
            end) as [metadata|]; [|discriminate H].
  cbn [bind] in H.
  destruct (surviving_observations series_elem) as [|o l].
  - cbn [bind] in H. injection H as <-. reflexivity.
  - destruct (sort_by_time_period (o :: l)) as [sorted|]; [|discriminate H].
    cbn [bind] in H. injection H as <-. reflexivity.
Qed.

Lemma extract_series_key_perm :
  forall ex now series_elem sd,
    extract_series_key ex now series_elem = Ok sd ->
    Permutation (surviving_observations series_elem) (sd_observations sd).
Proof.
  intros ex now series_elem sd H.
  apply extract_series_key_observations in H.
  destruct (surviving_observations series_elem) as [|o l].
  - rewrite H. apply Permutation_refl.
  - apply sort_by_time_period_perm. exact H.
Qed.

(** The part of C3 that the code does ensure: the observations of a record
    are in ascending order of their time-period strings, each has the key
    ["time_period"] and a value. *)
Lemma extract_series_key_sorted :
  forall ex now series_elem sd,
    extract_series_key ex now series_elem = Ok sd ->
    Sorted time_le (sd_observations sd)
    /\ Forall (fun o => has_time_and_value o = true) (sd_observations sd).
Proof.
  intros ex now series_elem sd H. split.
  - apply extract_series_key_observations in H.
    destruct (surviving_observations series_elem) as [|o l].
    + rewrite H. constructor.
    + apply (sort_by_time_period_sorted _ _ H).
  - apply extract_series_key_perm in H.
    apply Forall_forall. intros o Ho.
    apply (Permutation_in _ (Permutation_sym H)) in Ho.
    unfold surviving_observations in Ho. apply filter_In in Ho. apply Ho.
Qed.

(** ** Observations *)

(** The observation dict in terms of the raw attributes. *)
Lemma read_observation_raw :
  forall obs,
    read_observation obs =
    Observation (raw_time obs)
                (match raw_value obs with
                 | Some v =>
                     if String.eqb v EmptyString then None
                     else match float_of_str v with
                          | Some f => Some (VFloat f)
                          | None => Some (VText v)
                          end
                 | None => None
                 end).
Proof.
  intro obs. unfold read_observation, raw_time, raw_value, str_truthy.
  destruct (find_child tag_ObsValue obs) as [e|]; [|reflexivity].
  destruct (attrib_get "value" e) as [v|]; [|reflexivity].
  destruct (String.eqb v EmptyString); reflexivity.
Qed.

(** C5. In a record, the value of every observation comes from a raw
    observation with a non-empty value text: it is the parsed number when
    [float] accepts the text, and the text itself otherwise.  A raw
    observation with a time period and a non-numeric, non-empty value text
    is in the record with that text as its value. *)
Theorem stored_value_parsed_or_verbatim :
  forall ex now series_elem sd,
    extract_series_key ex now series_elem = Ok sd ->
    (forall o,
        In o (sd_observations sd) ->
        exists obs v,
          In obs (findall_child tag_Obs series_elem)
          /\ o = read_observation obs
          /\ raw_value obs = Some v /\ v <> EmptyString
          /\ (forall f, float_of_str v = Some f -> value o = Some (VFloat f))
          /\ (float_of_str v = None -> value o = Some (VText v)))
    /\ (forall obs t v,
           In obs (findall_child tag_Obs series_elem) ->
           raw_time obs = Some t ->
           raw_value obs = Some v -> v <> EmptyString ->
           float_of_str v = None ->
           In (Observation (Some t) (Some (VText v))) (sd_observations sd)).
Proof.
  intros ex now series_elem sd H.
  apply extract_series_key_perm in H. split.
  - intros o Ho.
    apply (Permutation_in _ (Permutation_sym H)) in Ho.
    unfold surviving_observations in Ho.
    apply filter_In in Ho. destruct Ho as [Ho Hkeep].
    apply in_map_iff in Ho. destruct Ho as [obs [Heq Hin]].
    subst o. rewrite read_observation_raw in Hkeep.
    unfold has_time_and_value in Hkeep. cbn [time_period value] in Hkeep.
    destruct (raw_time obs) as [t|]; [|discriminate Hkeep].
    destruct (raw_value obs) as [v|] eqn:Hv; [|discriminate Hkeep].
    destruct (String.eqb v EmptyString) eqn:Hempty; [discriminate Hkeep|].
    exists obs, v. split; [exact Hin|]. split; [reflexivity|].
    split; [exact Hv|]. split; [apply String.eqb_neq; exact Hempty|].
    rewrite read_observation_raw, Hv, Hempty. cbn [value].
    split.
    + intros f Hf. rewrite Hf. reflexivity.
    + intros Hf. rewrite Hf. reflexivity.
  - intros obs t v Hin Ht Hv Hne Hf.
    apply (Permutation_in _ H).
    unfold surviving_observations. apply filter_In. split.
    + apply in_map_iff. exists obs. split; [|exact Hin].
      rewrite read_observation_raw, Ht, Hv, Hf.
      apply String.eqb_neq in Hne. rewrite Hne. reflexivity.
    + reflexivity.
Qed.

(** An observation without a value attribute has no value. *)
Lemma missing_value_not_kept :
  forall obs,
    raw_value obs = None -> has_time_and_value (read_observation obs) = false.
Proof.
  intros obs H. rewrite read_observation_raw, H.
  unfold has_time_and_value. cbn. destruct (raw_time obs); reflexivity.
Qed.

(** C10. A raw observation whose [ObsValue] carries an empty [value] attribute gets no
    value: the record of its series is the record of the series without
    that observation. *)
Theorem empty_value_is_no_value :
  forall ex now t a x pre obs post,
    tag_of obs = tag_Obs ->
    raw_value obs = Some EmptyString ->
    value (read_observation obs) = None
    /\ extract_series_key ex now (Element t a x (pre ++ obs :: post))
       = extract_series_key ex now (Element t a x (pre ++ post)).
Proof.
  intros ex now t a x pre obs post Htag Hv.
  assert (Hval : value (read_observation obs) = None).
  { rewrite read_observation_raw, Hv. reflexivity. }
  split; [exact Hval|].
  assert (E1 : find_child tag_SeriesKey (Element t a x (pre ++ obs :: post))
               = find_child tag_SeriesKey (Element t a x (pre ++ post))).
  { unfold find_child, findall_child. cbn [children_of].
    rewrite !filter_app. cbn [filter]. unfold has_tag at 2. rewrite Htag.
    reflexivity. }
  assert (E2 : surviving_observations (Element t a x (pre ++ obs :: post))
               = surviving_observations (Element t a x (pre ++ post))).
  { unfold surviving_observations, findall_child. cbn [children_of].
    rewrite !filter_app. cbn [filter]. unfold has_tag at 2. rewrite Htag.
    rewrite String.eqb_refl. rewrite !map_app, !filter_app. cbn [map filter].
    unfold has_time_and_value at 2. rewrite Hval.
    destruct (time_period (read_observation obs)); reflexivity. }
  unfold extract_series_key.
  fold (surviving_observations (Element t a x (pre ++ obs :: post))).
  fold (surviving_observations (Element t a x (pre ++ post))).
  rewrite E1, E2. reflexivity.
Qed.

(** ** The batch *)

(** A series none of whose observations has both time and value saves
    nothing, and the loop goes on with the files saved so far. *)
Lemma series_without_observations_not_saved :
  forall ex w written i series_elem,
    surviving_observations series_elem = [] ->
    process_one ex w written (i, series_elem) = written.
Proof.
  intros ex w written i series_elem Hnone. unfold process_one.
  destruct (extract_series_key ex (clock w i) series_elem) as [sd|] eqn:He;
    [|reflexivity].
  apply extract_series_key_observations in He. rewrite Hnone in He.
  rewrite He. reflexivity.
Qed.

(** ** File names *)

Lemma get_value_description_total :
  forall constraints concept code,
    exists label, get_value_description constraints concept code = Ok label.
Proof.
  intros. rewrite get_value_description_eq. eexists. reflexivity.
Qed.

(** The codes of a metadata dict, without the labels. *)
Lemma codes_of_dict_set :
  forall (k : option string) (kl : key_label) md,
    map (fun e => (fst e, code (snd e))) (dict_set opt_eqb k kl md)
    = dict_set opt_eqb k (code kl) (map (fun e => (fst e, code (snd e))) md).
Proof.
  intros k kl md. induction md as [|[k' v'] md IH]; simpl.
  - reflexivity.
  - destruct (opt_eqb k k'); simpl; [reflexivity|]. rewrite IH. reflexivity.
Qed.

Lemma metadata_codes :
  forall constraints vs md md',
    for_each (add_key_value constraints) vs md = Ok md' ->
    map (fun e => (fst e, code (snd e))) md'
    = fold_left (fun d p => dict_set opt_eqb (fst p) (snd p) d)
                (map (fun v => (attrib_get "id" v, attrib_get "value" v)) vs)
                (map (fun e => (fst e, code (snd e))) md).
Proof.
  intros constraints vs. induction vs as [|v vs IH]; intros md md' H;
    simpl in H.
  - injection H as <-. reflexivity.
  - unfold add_key_value at 1 in H.
    destruct (get_value_description_total constraints (attrib_get "id" v)
                (attrib_get "value" v)) as [label Hl].
    rewrite Hl in H. cbn [bind] in H.
    apply IH in H. rewrite H. cbn [map fold_left fst snd].
    rewrite codes_of_dict_set. reflexivity.
Qed.

(** The metadata of a record list the pairs of the series key. *)
Lemma extract_series_key_metadata :
  forall ex now series_elem sd,
    extract_series_key ex now series_elem = Ok sd ->
    map (fun e => (fst e, code (snd e))) (sd_metadata sd)
    = pairs_dict (key_pairs series_elem).
Proof.
  intros ex now series_elem sd H.
  unfold extract_series_key, try_except in H.
  destruct (py_getitem (ex_constraints ex) (Some "dataset_info")) as [info|];
    [|discriminate H].
  cbn [bind] in H.
  destruct (py_getitem info (Some "names")) as [names|]; [|discriminate H].
  cbn [bind] in H.
  destruct (py_getitem info (Some "structure_reference")) as [sref|];
    [|discriminate H].
  cbn [bind] in H.
  unfold pairs_dict, key_pairs.
  destruct (find_child tag_SeriesKey series_elem) as [series_key|].
  - destruct (for_each (add_key_value (ex_constraints ex))
                       (findall_desc tag_Value series_key) [])
      as [metadata|] eqn:Hm; [|discriminate H].
    cbn [bind] in H. apply metadata_codes in Hm.
    destruct (filter has_time_and_value
                (map read_observation (findall_child tag_Obs series_elem))).
    + cbn [bind] in H. injection H as <-. exact Hm.
    + destruct (sort_by_time_period (o :: l)); [|discriminate H].
      cbn [bind] in H. injection H as <-. exact Hm.
  - cbn [bind] in H.
    destruct (filter has_time_and_value
                (map read_observation (findall_child tag_Obs series_elem))).
    + cbn [bind] in H. injection H as <-. reflexivity.
    + destruct (sort_by_time_period (o :: l)); [|discriminate H].
      cbn [bind] in H. injection H as <-. reflexivity.
Qed.

Lemma series_filename_of_pairs :
  forall ex now series_elem sd dataset_id,
    extract_series_key ex now series_elem = Ok sd ->
    series_filename dataset_id (sd_metadata sd)
    = filename_of_pairs dataset_id (key_pairs series_elem).
Proof.
  intros ex now series_elem sd dataset_id H.
  apply extract_series_key_metadata in H.
  unfold series_filename, filename_of_pairs. rewrite <- H. rewrite map_map.
  do 4 f_equal. apply map_ext. intros [concept info]. reflexivity.
Qed.

(** Every file the loop saves is the record of one of the series, under
    the name its key pairs spell. *)
Lemma process_loop_paths :
  forall ex w items written p sd,
    In (p, sd) (fold_left (process_one ex w) items written) ->
    In (p, sd) written
    \/ exists i series_elem,
        In (i, series_elem) items
        /\ extract_series_key ex (clock w i) series_elem = Ok sd
        /\ sd_observations sd <> []
        /\ p = os_path_join (ex_output_dir ex)
                 (filename_of_pairs (ex_dataset_id ex) (key_pairs series_elem)).
Proof.
  intros ex w items. induction items as [|[i s] items IH];
    intros written p sd Hin; simpl in Hin.
  - left. exact Hin.
  - apply IH in Hin. destruct Hin as [Hin|[i' [s' [Hi' Hrest]]]].
    + unfold process_one in Hin.
      destruct (extract_series_key ex (clock w i) s) as [sd'|] eqn:He;
        [|left; exact Hin].
      destruct (sd_observations sd') as [|o l] eqn:Ho; [left; exact Hin|].
      apply in_app_or in Hin. destruct Hin as [Hin|Hin]; [left; exact Hin|].
      right. destruct Hin as [Heq|[]]. injection Heq as Hp Hsd. subst sd'.
      exists i, s. split; [left; reflexivity|]. split; [exact He|].
      split; [rewrite Ho; discriminate|].
      rewrite <- Hp. f_equal.
      apply (series_filename_of_pairs ex (clock w i) s sd _ He).
    + right. exists i', s'. split; [right; exact Hi'|exact Hrest].
Qed.

Lemma process_loop_keeps :
  forall ex w items written f,
    In f written -> In f (fold_left (process_one ex w) items written).
Proof.
  intros ex w items. induction items as [|[i s] items IH];
    intros written f Hin; simpl.
  - exact Hin.
  - apply IH. unfold process_one.
    destruct (extract_series_key ex (clock w i) s) as [sd|]; [|exact Hin].
    destruct (sd_observations sd); [exact Hin|].
    apply in_or_app. left. exact Hin.
Qed.

(** Every series whose record has observations is saved. *)
Lemma process_loop_saves :
  forall ex w items written i series_elem sd,
    In (i, series_elem) items ->
    extract_series_key ex (clock w i) series_elem = Ok sd ->
    sd_observations sd <> [] ->
    In (os_path_join (ex_output_dir ex)
          (filename_of_pairs (ex_dataset_id ex) (key_pairs series_elem)), sd)
       (fold_left (process_one ex w) items written).
Proof.
  intros ex w items. induction items as [|[i0 s0] items IH];
    intros written i series_elem sd Hin He Hobs; simpl.
  - destruct Hin.
  - destruct Hin as [Heq|Hin].
    + injection Heq as -> ->. apply process_loop_keeps.
      unfold process_one. rewrite He.
      destruct (sd_observations sd) as [|o l]; [contradiction Hobs; reflexivity|].
      apply in_or_app. right. left.
      rewrite (series_filename_of_pairs ex (clock w i) series_elem sd _ He).
      reflexivity.
    + apply (IH _ i series_elem sd Hin He Hobs).
Qed.

(** The reading of the clock only shows in [generated_at]. *)
Lemma extract_series_key_clock :
  forall ex now1 now2 series_elem,
    match extract_series_key ex now1 series_elem,
          extract_series_key ex now2 series_elem with
    | Ok sd1, Ok sd2 =>
        sd_metadata sd1 = sd_metadata sd2
        /\ sd_observations sd1 = sd_observations sd2
    | Raise _, Raise _ => True
    | _, _ => False
    end.
Proof.
  intros ex now1 now2 series_elem. unfold extract_series_key, try_except.
  destruct (py_getitem (ex_constraints ex) (Some "dataset_info")) as [info|];
    [|exact I].
  cbn [bind].
  destruct (py_getitem info (Some "names")) as [names|]; [|exact I].
  cbn [bind].
  destruct (py_getitem info (Some "structure_reference")) as [sref|];
    [|exact I].
  cbn [bind].
  destruct (match find_child tag_SeriesKey series_elem with
            | Some series_key =>
                for_each (add_key_value (ex_constraints ex))
                         (findall_desc tag_Value series_key) []
            | None => Ok []
            end) as [metadata|]; [|exact I].
  cbn [bind].
  destruct (filter has_time_and_value
              (map read_observation (findall_child tag_Obs series_elem))).
  - cbn [bind]. split; reflexivity.
  - destruct (sort_by_time_period (o :: l)); [|exact I].
    cbn [bind]. split; reflexivity.
Qed.

Lemma process_loop_clock :
  forall ex w1 w2 items written1 written2,
    map fst written1 = map fst written2 ->
    map fst (fold_left (process_one ex w1) items written1)
    = map fst (fold_left (process_one ex w2) items written2).
Proof.
  intros ex w1 w2 items. induction items as [|[i s] items IH];
    intros written1 written2 Hw; simpl.
  - exact Hw.
  - apply IH. unfold process_one.
    pose proof (extract_series_key_clock ex (clock w1 i) (clock w2 i) s) as Hc.
    destruct (extract_series_key ex (clock w1 i) s) as [sd1|];
      destruct (extract_series_key ex (clock w2 i) s) as [sd2|];
      try contradiction; [|exact Hw].
    destruct Hc as [Hm Ho]. rewrite Hm, Ho.
    destruct (sd_observations sd2); [exact Hw|].
    rewrite !map_app, Hw. reflexivity.
Qed.

(** C9 (as amended). Two runs against the same constraints file and the
    same data response save files of the same names, in the same order,
    whatever their clocks read.  Every file saved is the record of one
    series of the response, named after the dataset id and the
    (dimension, code) pairs of that series in the order its key lists
    them; and every series whose record has observations is saved under
    that name. *)
Theorem filenames_reproducible :
  forall (w1 w2 : world) (dataset_id : string) (root : element),
    files w1 (constraints_file dataset_id) = files w2 (constraints_file dataset_id) ->
    remote w1 (base_url +++ "/data/" +++ dataset_id) = Ok root ->
    remote w2 (base_url +++ "/data/" +++ dataset_id) = Ok root ->
    map fst (extractor_run w1 dataset_id) = map fst (extractor_run w2 dataset_id)
    /\ (forall p sd,
           In (p, sd) (extractor_run w1 dataset_id) ->
           exists series_elem,
             In series_elem (findall_desc tag_Series root)
             /\ p = os_path_join "./series_data"
                      (filename_of_pairs dataset_id (key_pairs series_elem)))
    /\ (forall ex i series_elem sd,
           extractor_init w1 dataset_id "./series_data" = Ok ex ->
           In (i, series_elem) (enumerate1 (findall_desc tag_Series root)) ->
           extract_series_key ex (clock w1 i) series_elem = Ok sd ->
           sd_observations sd <> [] ->
           In (os_path_join "./series_data"
                 (filename_of_pairs dataset_id (key_pairs series_elem)), sd)
              (extractor_run w1 dataset_id)).
Proof.
  intros w1 w2 dataset_id root Hfiles Hr1 Hr2.
  assert (Hinit : extractor_init w1 dataset_id "./series_data"
                  = extractor_init w2 dataset_id "./series_data").
  { unfold extractor_init, find_constraints_file, load_constraints, load_json.
    unfold constraints_file in Hfiles. rewrite Hfiles.
    destruct (files w2 _) as [c|] eqn:Hc; [|reflexivity].
    cbn [bind]. rewrite Hfiles, Hc. reflexivity. }
  assert (Hid : forall w ex, extractor_init w dataset_id "./series_data" = Ok ex ->
                             ex_dataset_id ex = dataset_id
                             /\ ex_output_dir ex = "./series_data").
  { intros w ex He. unfold extractor_init in He.
    destruct (find_constraints_file w dataset_id); [|discriminate He].
    cbn [bind] in He.
    destruct (load_constraints w a); [|discriminate He].
    cbn [bind] in He.
    destruct (validate_constraints dataset_id a a0); [|discriminate He].
    cbn [bind] in He. injection He as <-. split; reflexivity. }
  unfold extractor_run. rewrite Hinit.
  destruct (extractor_init w2 dataset_id "./series_data") as [ex|] eqn:Hex;
    [|split; [reflexivity|split; [intros p sd []|intros ? ? ? ? H; discriminate H]]].
  cbn [bind]. destruct (Hid w2 ex Hex) as [Hd Ho].
  unfold process_series, fetch_series_data, fetch_xml, try_except.
  rewrite Hd, Hr1, Hr2. cbn [bind]. split; [|split].
  - apply process_loop_clock. reflexivity.
  - intros p sd Hin. apply process_loop_paths in Hin.
    destruct Hin as [[]|[i [s [Hi [_ [_ Hp]]]]]].
    exists s. split.
    + unfold enumerate1 in Hi. apply in_combine_r in Hi. exact Hi.
    + rewrite Hp, Hd, Ho. reflexivity.
  - intros ex' i series_elem sd Hex' Hin He Hobs. injection Hex' as <-.
    rewrite <- Hd at 1. rewrite <- Ho.
    apply (process_loop_saves ex w1 _ [] i series_elem sd Hin He Hobs).
Qed.

(** ** Dictionaries *)

Section DictFacts.
Context {K V : Type} (eqb : K -> K -> bool).
Hypothesis eqb_eq : forall a b, eqb a b = true <-> a = b.

Lemma eqb_same : forall k, eqb k k = true.
Proof. intro k. apply eqb_eq. reflexivity. Qed.

Lemma eqb_other : forall a b, a <> b -> eqb a b = false.
Proof.
  intros a b H. destruct (eqb a b) eqn:E; [|reflexivity].
  apply eqb_eq in E. contradiction.
Qed.

Lemma dict_get_set_same :
  forall (k : K) (v : V) d, dict_get eqb k (dict_set eqb k v d) = Some v.
Proof.
  intros k v d. induction d as [|[k' v'] d IH]; simpl.
  - rewrite eqb_same. reflexivity.
  - destruct (eqb k k') eqn:E; simpl; rewrite E; [reflexivity|exact IH].
Qed.

Lemma dict_get_set_other :
  forall (k k' : K) (v : V) d,
    k <> k' -> dict_get eqb k (dict_set eqb k' v d) = dict_get eqb k d.
Proof.
  intros k k' v d Hneq. induction d as [|[k0 v0] d IH]; simpl.
  - rewrite (eqb_other _ _ Hneq). reflexivity.
  - destruct (eqb k' k0) eqn:E; simpl.
    + apply eqb_eq in E. subst k0. rewrite (eqb_other _ _ Hneq). reflexivity.
    + destruct (eqb k k0); [reflexivity|exact IH].
Qed.

Lemma dict_set_keys :
  forall (k x : K) (v : V) d,
    In x (map fst (dict_set eqb k v d)) -> x = k \/ In x (map fst d).
Proof.
  intros k x v d. induction d as [|[k' v'] d IH]; simpl; intro H.
  - destruct H as [H|[]]. left. symmetry. exact H.
  - destruct (eqb k k'); simpl in H.
    + right. exact H.
    + destruct H as [H|H]; [right; left; exact H|].
      destruct (IH H) as [Hk|Hd]; [left; exact Hk|right; right; exact Hd].
Qed.

Lemma dict_set_NoDup :
  forall (k : K) (v : V) d,
    NoDup (map fst d) -> NoDup (map fst (dict_set eqb k v d)).
Proof.
  intros k v d. induction d as [|[k' v'] d IH]; simpl; intro H.
  - constructor; [intros []|constructor].
  - destruct (eqb k k') eqn:E; simpl; [exact H|].
    inversion H as [|? ? Hnotin Hd]; subst. constructor; [|apply IH; exact Hd].
    intro Hin. apply dict_set_keys in Hin. destruct Hin as [Hk|Hin].
    + subst k'. rewrite eqb_same in E. discriminate E.
    + contradiction.
Qed.

Lemma dict_get_In :
  forall (k : K) (v : V) d, dict_get eqb k d = Some v -> In (k, v) d.
Proof.
  intros k v d. induction d as [|[k' v'] d IH]; simpl; intro H.
  - discriminate H.
  - destruct (eqb k k') eqn:E.
    + apply eqb_eq in E. subst k'. injection H as <-. left. reflexivity.
    + right. apply IH. exact H.
Qed.

Lemma dict_mem_keys :
  forall (k : K) (d : list (K * V)),
    dict_mem eqb k d = true -> In k (map fst d).
Proof.
  intros k d H. unfold dict_mem in H.
  destruct (dict_get eqb k d) as [v|] eqn:E; [|discriminate H].
  apply dict_get_In in E. apply (in_map fst) in E. exact E.
Qed.

(** A dict built by assigning items whose keys are distinct holds, for
    each key, what its item assigned. *)
Lemma dict_of_items_keeps :
  forall {A : Type} (key : A -> K) (val : A -> V) (items : list A) acc k,
    ~ In k (map key items) ->
    dict_get eqb k
      (fold_left (fun d item => dict_set eqb (key item) (val item) d) items acc)
    = dict_get eqb k acc.
Proof.
  intros A key val items. induction items as [|item items IH];
    intros acc k Hnotin; simpl.
  - reflexivity.
  - rewrite IH.
    + apply dict_get_set_other. intro Heq. apply Hnotin. left. symmetry. exact Heq.
    + intro Hin. apply Hnotin. right. exact Hin.
Qed.

Lemma dict_of_items_get :
  forall {A : Type} (key : A -> K) (val : A -> V) (items : list A) acc item,
    NoDup (map key items) ->
    In item items ->
    dict_get eqb (key item)
      (fold_left (fun d item => dict_set eqb (key item) (val item) d) items acc)
    = Some (val item).
Proof.
  intros A key val items. induction items as [|item0 items IH];
    intros acc item Hnodup Hin; simpl.
  - destruct Hin.
  - inversion Hnodup as [|? ? Hnotin Hrest]; subst.
    destruct Hin as [Heq|Hin].
    + subst item0. rewrite dict_of_items_keeps; [|exact Hnotin].
      apply dict_get_set_same.
    + apply IH; assumption.
Qed.

Lemma dict_of_keys_stays :
  forall (val : K -> V) (keys : list K) acc k,
    dict_get eqb k acc = Some (val k) ->
    dict_get eqb k (fold_left (fun d x => dict_set eqb x (val x) d) keys acc)
    = Some (val k).
Proof.
  intros val keys. induction keys as [|x keys IH]; intros acc k H; simpl.
  - exact H.
  - apply IH. destruct (eqb k x) eqn:E.
    + apply eqb_eq in E. subst x. apply dict_get_set_same.
    + rewrite dict_get_set_other; [exact H|].
      intro Heq. subst x. rewrite eqb_same in E. discriminate E.
Qed.

(** A dict built by assigning [val k] to each key [k] of a list, in which
    keys may repeat. *)
Lemma dict_of_keys_get :
  forall (val : K -> V) (keys : list K) acc k,
    In k keys ->
    dict_get eqb k (fold_left (fun d x => dict_set eqb x (val x) d) keys acc)
    = Some (val k).
Proof.
  intros val keys. induction keys as [|x keys IH]; intros acc k Hin; simpl.
  - destruct Hin.
  - destruct Hin as [Heq|Hin].
    + subst x. apply dict_of_keys_stays. apply dict_get_set_same.
    + apply IH. exact Hin.
Qed.

End DictFacts.

Lemma string_eqb_eq : forall a b : string, String.eqb a b = true <-> a = b.
Proof. exact String.eqb_eq. Qed.

(** ** The constraints overview *)

(** C7. When the constraint response has no [CubeRegion],
    [get_available_constraints] returns the empty dict without raising,
    and - the dataflow response and the mapping file being there -
    [build_constraints_overview] returns an overview with the
    [dataset_info] block of the dataset and no dimension. *)
Theorem missing_cube_region_gives_empty_overview :
  forall (w : world) (dataset_id mappings_dir output_dir : string)
         (flow response : element) (mapping : json),
    remote w (base_url +++ "/dataflow/IT1/" +++ dataset_id) = Ok flow ->
    remote w (base_url +++ "/availableconstraint/" +++ dataset_id) = Ok response ->
    find_desc tag_CubeRegion response = None ->
    files w (os_path_join mappings_dir ("mapping_" +++ dataset_id +++ ".json"))
    = Some (FileJson mapping) ->
    get_available_constraints w dataset_id = Ok []
    /\ exists info,
        get_dataflow_info w dataset_id = Ok info
        /\ df_id info = dataset_id
        /\ build_constraints_overview w dataset_id mappings_dir output_dir
           = Ok (os_path_join output_dir ("constraints_" +++ dataset_id +++ ".json"),
                 Overview info (clock w 0) []).
Proof.
  intros w dataset_id mappings_dir output_dir flow response mapping
         Hflow Hresp Hnone Hfile.
  assert (Hav : get_available_constraints w dataset_id = Ok []).
  { unfold get_available_constraints, fetch_xml, try_except.
    rewrite Hresp. cbn [bind]. rewrite Hnone. reflexivity. }
  split; [exact Hav|].
  assert (Hinfo : exists info, get_dataflow_info w dataset_id = Ok info
                               /\ df_id info = dataset_id).
  { unfold get_dataflow_info, fetch_xml, try_except. rewrite Hflow. cbn [bind].
    destruct (find_desc tag_Dataflow flow); eexists; split; reflexivity. }
  destruct Hinfo as [info [Hinfo Hid]]. exists info.
  split; [exact Hinfo|]. split; [exact Hid|].
  unfold build_constraints_overview. rewrite Hinfo, Hav.
  unfold load_mapping_file, load_json. rewrite Hfile. reflexivity.
Qed.

(** A loop whose body never raises is a fold. *)
Lemma for_each_pure :
  forall {A S : Type} (body : S -> A -> result S) (f : S -> A -> S),
    (forall s a, body s a = Ok (f s a)) ->
    forall l s, for_each body l s = Ok (fold_left f l s).
Proof.
  intros A S body f Hbody l. induction l as [|a l IH]; intro s; simpl.
  - reflexivity.
  - rewrite Hbody. cbn [bind]. apply IH.
Qed.

Lemma add_value_label_ok :
  forall dim_info values v,
    dimension_well_formed dim_info = true ->
    add_value_label dim_info values v
    = Ok (dict_set String.eqb v
            (ValueLabel (label_or_default (dimension_name dim_info v) v))
            values).
Proof.
  intros dim_info values v Hwf. unfold add_value_label, dimension_name.
  destruct dim_info as [| | | | | |d]; try discriminate Hwf.
  cbn [dimension_well_formed] in Hwf. cbn [py_get obj_field].
  destruct (dict_get String.eqb "values" d) as [all_values|]; [|reflexivity].
  destruct all_values as [| | | | | |vals]; try discriminate Hwf.
  cbn [bind py_get obj_field].
  destruct (dict_get String.eqb v vals) as [value_info|] eqn:Hv; [|reflexivity].
  apply (dict_get_In String.eqb string_eqb_eq) in Hv.
  rewrite forallb_forall in Hwf. apply Hwf in Hv. cbn [snd] in Hv.
  destruct value_info as [| | | | | |vi]; try discriminate Hv.
  cbn [bind]. destruct (truthy (JObj vi)); [|reflexivity].
  cbn [py_get obj_field].
  destruct (dict_get String.eqb "name" vi); reflexivity.
Qed.

(** [mapping.get("dimensions", {}).get(dim_id, {})] on a well-formed
    mapping document. *)
Lemma dimension_info_ok :
  forall mapping dim_id,
    mapping_well_formed mapping = true ->
    exists dim_info,
      (all_dimensions <- py_get mapping (Some "dimensions") (JObj []) ;;
       py_get all_dimensions (Some dim_id) (JObj [])) = Ok dim_info
      /\ dimension_well_formed dim_info = true
      /\ forall c, dimension_name dim_info c = mapping_name mapping dim_id c.
Proof.
  intros mapping dim_id Hwf. unfold mapping_name.
  destruct mapping as [| | | | | |top]; try discriminate Hwf.
  cbn [mapping_well_formed] in Hwf. cbn [py_get obj_field].
  destruct (dict_get String.eqb "dimensions" top) as [dims|].
  - destruct dims as [| | | | | |dims]; try discriminate Hwf.
    cbn [bind py_get obj_field].
    destruct (dict_get String.eqb dim_id dims) as [dim_info|] eqn:Hd.
    + exists dim_info. split; [reflexivity|]. split; [|reflexivity].
      apply (dict_get_In String.eqb string_eqb_eq) in Hd.
      rewrite forallb_forall in Hwf. apply (Hwf _ Hd).
    + exists (JObj []). repeat split.
  - exists (JObj []). repeat split.
Qed.

Lemma add_dimension_overview_ok :
  forall mapping dimensions dim_id values,
    mapping_well_formed mapping = true ->
    add_dimension_overview mapping dimensions (dim_id, values)
    = Ok (dict_set String.eqb dim_id
            (DimensionOverview dim_id
               (fold_left
                  (fun d v =>
                     dict_set String.eqb v
                       (ValueLabel
                          (label_or_default (mapping_name mapping dim_id v) v))
                       d)
                  values []))
            dimensions).
Proof.
  intros mapping dimensions dim_id values Hwf.
  destruct (dimension_info_ok mapping dim_id Hwf) as [dim_info [Hget [Hd Hname]]].
  unfold add_dimension_overview.
  destruct (py_get mapping (Some "dimensions") (JObj [])) as [all|];
    [|discriminate Hget].
  cbn [bind] in Hget |- *. rewrite Hget. cbn [bind].
  rewrite (for_each_pure (add_value_label dim_info)
             (fun d v =>
                dict_set String.eqb v
                  (ValueLabel (label_or_default (mapping_name mapping dim_id v) v))
                  d)).
  - reflexivity.
  - intros s a. rewrite add_value_label_ok; [|exact Hd].
    rewrite Hname. reflexivity.
Qed.

(** *** The codes read from the constraint region *)

Lemma listed_codes_stay :
  forall vs acc c,
    In c acc -> In c (fold_left add_constraint_value vs acc).
Proof.
  induction vs as [|v vs IH]; intros acc c H; simpl.
  - exact H.
  - apply IH. unfold add_constraint_value.
    destruct (text_of v) as [t|]; [|exact H].
    destruct (str_truthy (Some t)); [|exact H].
    apply in_or_app. left. exact H.
Qed.

Lemma listed_codes_In :
  forall vs acc v c,
    In v vs -> text_of v = Some c -> c <> EmptyString ->
    In c (fold_left add_constraint_value vs acc).
Proof.
  induction vs as [|v0 vs IH]; intros acc v c Hin Ht Hne; simpl.
  - destruct Hin.
  - destruct Hin as [Heq|Hin].
    + subst v0. apply listed_codes_stay. unfold add_constraint_value.
      rewrite Ht. unfold str_truthy. apply String.eqb_neq in Hne. rewrite Hne.
      apply in_or_app. right. left. reflexivity.
    + apply (IH _ v c Hin Ht Hne).
Qed.

Lemma available_constraints_NoDup :
  forall kvs acc,
    NoDup (map fst acc) ->
    NoDup (map fst (fold_left add_key_constraints kvs acc)).
Proof.
  induction kvs as [|kv kvs IH]; intros acc H; simpl.
  - exact H.
  - apply IH. unfold add_key_constraints.
    destruct (attrib_get "id" kv) as [d|]; [|exact H].
    destruct (str_truthy (Some d)); [|exact H].
    apply (dict_set_NoDup String.eqb string_eqb_eq). exact H.
Qed.

Lemma available_constraints_keep :
  forall kvs acc d,
    ~ In (Some d) (map (attrib_get "id") kvs) ->
    dict_get String.eqb d (fold_left add_key_constraints kvs acc)
    = dict_get String.eqb d acc.
Proof.
  induction kvs as [|kv kvs IH]; intros acc d Hnotin; simpl.
  - reflexivity.
  - rewrite IH; [|intro Hin; apply Hnotin; right; exact Hin].
    unfold add_key_constraints.
    destruct (attrib_get "id" kv) as [d'|] eqn:Hid; [|reflexivity].
    destruct (str_truthy (Some d')); [|reflexivity].
    apply (dict_get_set_other String.eqb string_eqb_eq).
    intro Heq. subst d'. apply Hnotin. left. exact Hid.
Qed.

Lemma available_constraints_get :
  forall kvs acc kv d,
    NoDup (map (attrib_get "id") kvs) ->
    In kv kvs -> attrib_get "id" kv = Some d -> d <> EmptyString ->
    dict_get String.eqb d (fold_left add_key_constraints kvs acc)
    = Some (listed_codes kv).
Proof.
  induction kvs as [|kv0 kvs IH]; intros acc kv d Hnodup Hin Hid Hne; simpl.
  - destruct Hin.
  - inversion Hnodup as [|? ? Hnotin Hrest]; subst.
    destruct Hin as [Heq|Hin].
    + subst kv0. rewrite Hid in Hnotin.
      rewrite (available_constraints_keep kvs _ d Hnotin).
      unfold add_key_constraints. rewrite Hid. unfold str_truthy.
      apply String.eqb_neq in Hne. rewrite Hne. cbn [negb].
      apply (dict_get_set_same String.eqb string_eqb_eq).
    + apply (IH _ kv d Hrest Hin Hid Hne).
Qed.

(** C8 (as amended). Let the dataflow and constraint responses and a
    well-formed mapping file be there.  Then [build_constraints_overview]
    returns an overview, and for every code listed for a dimension by the
    last [KeyValue] element of the region that carries the id of that
    dimension, the overview has an entry: its name is the name the mapping
    document records for the code, and the degenerate label
    [{"default": code}] when the mapping document records none. *)
Theorem missing_label_never_blocks :
  forall (w : world) (dataset_id mappings_dir output_dir : string)
         (flow response region : element) (mapping : json),
    remote w (base_url +++ "/dataflow/IT1/" +++ dataset_id) = Ok flow ->
    remote w (base_url +++ "/availableconstraint/" +++ dataset_id) = Ok response ->
    find_desc tag_CubeRegion response = Some region ->
    files w (os_path_join mappings_dir ("mapping_" +++ dataset_id +++ ".json"))
    = Some (FileJson mapping) ->
    mapping_well_formed mapping = true ->
    exists p ov,
      build_constraints_overview w dataset_id mappings_dir output_dir = Ok (p, ov)
      /\ forall pre key_value post dim_id v c,
          findall_desc tag_KeyValue region = pre ++ key_value :: post ->
          attrib_get "id" key_value = Some dim_id -> dim_id <> EmptyString ->
          ~ In (Some dim_id) (map (attrib_get "id") post) ->
          In v (findall_child tag_common_Value key_value) ->
          text_of v = Some c -> c <> EmptyString ->
          exists dim,
            dict_get String.eqb dim_id (ov_dimensions ov) = Some dim
            /\ dict_get String.eqb c (do_values dim)
               = Some (ValueLabel
                         (match mapping_name mapping dim_id c with
                          | Some name => name
                          | None => JObj [("default", JStr c)]
                          end)).
Proof.
  intros w dataset_id mappings_dir output_dir flow response region mapping
         Hflow Hresp Hregion Hfile Hwf.
  assert (Hinfo : exists info, get_dataflow_info w dataset_id = Ok info).
  { unfold get_dataflow_info, fetch_xml, try_except. rewrite Hflow. cbn [bind].
    destruct (find_desc tag_Dataflow flow); eexists; reflexivity. }
  destruct Hinfo as [info Hinfo].
  set (available := fold_left add_key_constraints
                              (findall_desc tag_KeyValue region) []).
  assert (Hav : get_available_constraints w dataset_id = Ok available).
  { unfold get_available_constraints, fetch_xml, try_except.
    rewrite Hresp. cbn [bind]. rewrite Hregion. reflexivity. }
  set (entry := fun item : string * list string =>
                  DimensionOverview (fst item)
                    (fold_left
                       (fun d v =>
                          dict_set String.eqb v
                            (ValueLabel
                               (label_or_default
                                  (mapping_name mapping (fst item) v) v))
                            d)
                       (snd item) [])).
  assert (Hdims : for_each (add_dimension_overview mapping) available []
                  = Ok (fold_left
                          (fun d item => dict_set String.eqb (fst item) (entry item) d)
                          available [])).
  { apply for_each_pure. intros s [dim_id values].
    apply add_dimension_overview_ok. exact Hwf. }
  eexists. eexists. split.
  - unfold build_constraints_overview. rewrite Hinfo, Hav.
    unfold load_mapping_file, load_json. rewrite Hfile.
    cbn [bind try_except]. rewrite Hdims. reflexivity.
  - intros pre key_value post dim_id v c Hsplit Hid Hne Hlast Hv Ht Hc.
    cbn [ov_dimensions].
    assert (Hget : dict_get String.eqb dim_id available
                   = Some (listed_codes key_value)).
    { unfold available. rewrite Hsplit, fold_left_app. cbn [fold_left].
      rewrite (available_constraints_keep post _ dim_id Hlast).
      unfold add_key_constraints. rewrite Hid. unfold str_truthy.
      apply String.eqb_neq in Hne. rewrite Hne. cbn [negb].
      apply (dict_get_set_same String.eqb string_eqb_eq). }
    apply (dict_get_In String.eqb string_eqb_eq) in Hget.
    exists (entry (dim_id, listed_codes key_value)). split.
    + apply (dict_of_items_get String.eqb string_eqb_eq fst entry available []
               (dim_id, listed_codes key_value)).
      * apply available_constraints_NoDup. constructor.
      * exact Hget.
    + unfold entry. cbn [do_values fst snd].
      apply (dict_of_keys_get String.eqb string_eqb_eq
               (fun v => ValueLabel
                           (label_or_default (mapping_name mapping dim_id v) v))).
      apply (listed_codes_In _ [] v c Hv Ht Hc).
Qed.

(** ** The mapping document *)

Lemma dict_set_In :
  forall {V : Type} (k x : string) (v v' : V) d,
    In (x, v') (dict_set String.eqb k v d) -> (x = k /\ v' = v) \/ In (x, v') d.
Proof.
  intros V k x v v' d. induction d as [|[k0 v0] d IH]; simpl; intro H.
  - destruct H as [H|[]]. injection H as -> ->. left. split; reflexivity.
  - destruct (String.eqb k k0) eqn:E; simpl in H.
    + destruct H as [H|H].
      * injection H as <- <-. apply String.eqb_eq in E. subst k0.
        left. split; reflexivity.
      * right. right. exact H.
    + destruct H as [H|H]; [right; left; exact H|].
      destruct (IH H) as [Hk|Hd]; [left; exact Hk|right; right; exact Hd].
Qed.







(** ** More on the extractor *)

Lemma opt_eqb_eq : forall a b : option string, opt_eqb a b = true <-> a = b.
Proof.
  intros [a|] [b|]; simpl; split; intro H; try discriminate H;
    try reflexivity.
  - apply String.eqb_eq in H. subst b. reflexivity.
  - injection H as ->. apply String.eqb_refl.
Qed.

(** X1. Without a constraints file for the dataset id, building the
    extractor raises [FileNotFoundError] naming the expected file, and the
    run saves nothing. *)
Theorem missing_constraints_file_stops_run :
  forall (w : world) (dataset_id output_dir : string),
    files w (constraints_file dataset_id) = None ->
    extractor_init w dataset_id output_dir
    = Raise (FileNotFoundError
               (MsgConstraintsNotFound dataset_id (constraints_file dataset_id)))
    /\ extractor_run w dataset_id = [].
Proof.
  intros w dataset_id output_dir Hnone.
  assert (Hinit : forall out,
             extractor_init w dataset_id out
             = Raise (FileNotFoundError
                        (MsgConstraintsNotFound dataset_id
                                                (constraints_file dataset_id)))).
  { intro out. unfold extractor_init, find_constraints_file.
    unfold constraints_file in *. rewrite Hnone. reflexivity. }
  split; [apply Hinit|]. unfold extractor_run. rewrite Hinit. reflexivity.
Qed.

Lemma validate_constraints_ok :
  forall dataset_id p doc,
    validate_constraints dataset_id p doc = Ok tt
    <-> declared_dataset_id doc = Some (JStr dataset_id).
Proof.
  intros dataset_id p doc. unfold validate_constraints, declared_dataset_id.
  destruct doc as [| | | | | |top];
    try (split; intro H; discriminate H).
  cbn [py_getitem obj_field].
  destruct (dict_get String.eqb "dataset_info" top) as [info|];
    [|split; intro H; discriminate H].
  cbn [bind].
  destruct info as [| | | | | |info];
    try (split; intro H; discriminate H).
  cbn [py_getitem obj_field].
  destruct (dict_get String.eqb "id" info) as [id|];
    [|split; intro H; discriminate H].
  cbn [bind].
  destruct id as [| | | |s| |]; cbn [py_eq_str negb];
    try (split; intro H; discriminate H).
  destruct (String.eqb dataset_id s) eqn:E; cbn [negb].
  - apply String.eqb_eq in E. subst s. split; reflexivity.
  - apply String.eqb_neq in E. split; intro H; [discriminate H|].
    injection H as ->. contradiction E. reflexivity.
Qed.

(** X2. [validate_constraints] returns exactly when the document declares
    the dataset id, as a string, in [dataset_info.id].  When it declares
    anything else there (another string, or a value that is not a string,
    such as the number 111 for the id "111"), it raises the mismatch
    [ValueError] carrying the expected id, the declared value and the path
    of the file; and when the document has no [dataset_info.id] it raises
    [KeyError] or [TypeError]. *)
Theorem validate_constraints_accepts :
  forall (dataset_id : string) (p : path) (doc : json),
    (validate_constraints dataset_id p doc = Ok tt
     <-> declared_dataset_id doc = Some (JStr dataset_id))
    /\ (forall declared,
           declared_dataset_id doc = Some declared ->
           declared <> JStr dataset_id ->
           validate_constraints dataset_id p doc
           = Raise (ValueError (MsgConstraintsMismatch dataset_id declared p)))
    /\ (declared_dataset_id doc = None ->
        validate_constraints dataset_id p doc = Raise KeyError
        \/ validate_constraints dataset_id p doc = Raise TypeError).
Proof.
  intros dataset_id p doc. split; [apply validate_constraints_ok|]. split.
  - intros declared Hid Hneq.
    unfold declared_dataset_id in Hid. unfold validate_constraints.
    destruct doc as [| | | | | |top]; try discriminate Hid.
    cbn [obj_field] in Hid. cbn [py_getitem].
    destruct (dict_get String.eqb "dataset_info" top) as [info|];
      [|discriminate Hid].
    cbn [bind].
    destruct info as [| | | | | |info]; try discriminate Hid.
    cbn [obj_field] in Hid. cbn [py_getitem]. rewrite Hid. cbn [bind].
    assert (Hne : py_eq_str (Some dataset_id) declared = false).
    { destruct declared as [| | | |s| |]; try reflexivity.
      cbn [py_eq_str]. apply String.eqb_neq. intro Heq. subst s.
      contradiction Hneq. reflexivity. }
    rewrite Hne. reflexivity.
  - intro Hnone. unfold declared_dataset_id in Hnone.
    unfold validate_constraints.
    destruct doc as [| | | | | |top]; try (right; reflexivity).
    cbn [obj_field] in Hnone. cbn [py_getitem].
    destruct (dict_get String.eqb "dataset_info" top) as [info|];
      [|left; reflexivity].
    cbn [bind].
    destruct info as [| | | | | |info]; try (right; reflexivity).
    cbn [obj_field] in Hnone. cbn [py_getitem]. rewrite Hnone.
    left. reflexivity.
Qed.

(** *** Sorting *)

(** In a list of two or more observations in ascending order, every sort
    key is a string: an order between two keys exists for strings only. *)
Lemma sorted_keys_are_strings :
  forall l,
    Sorted time_le l -> 2 <= length l ->
    Forall (fun o => sort_key o <> None) l.
Proof.
  induction l as [|a l IH]; intros Hs Hlen; [constructor|].
  inversion Hs as [|? ? Hs' Hhd]; subst.
  destruct l as [|b l]; [simpl in Hlen; lia|].
  inversion Hhd as [|? ? Hab]; subst. unfold time_le in Hab.
  constructor.
  - intro Hk. rewrite Hk in Hab. exact Hab.
  - destruct l as [|c l].
    + constructor; [|constructor]. intro Hk.
      destruct (sort_key a); [|exact Hab]. rewrite Hk in Hab. exact Hab.
    + apply IH; [exact Hs'|simpl; lia].
Qed.

Lemma kept_period :
  forall o,
    has_time_and_value o = true -> sort_key o <> None -> has_period o.
Proof.
  intros [t v] Hkeep Hkey. unfold has_time_and_value in Hkeep.
  unfold sort_key in Hkey. cbn in *.
  destruct t as [[t|]|]; try discriminate Hkeep.
  - exists t. reflexivity.
  - contradiction Hkey. reflexivity.
Qed.

(** X3. The observations of a record are the observations of the series
    that have both keys, rearranged in ascending order of time period; and
    when there are two or more of them, every time period is a string. *)
Theorem observations_sorted_permutation :
  forall ex now series_elem sd,
    extract_series_key ex now series_elem = Ok sd ->
    Permutation (surviving_observations series_elem) (sd_observations sd)
    /\ Sorted time_le (sd_observations sd)
    /\ (2 <= length (sd_observations sd) ->
        Forall has_period (sd_observations sd)).
Proof.
  intros ex now series_elem sd H.
  pose proof (extract_series_key_perm _ _ _ _ H) as Hperm.
  assert (Hsorted : Sorted time_le (sd_observations sd)).
  { apply extract_series_key_observations in H.
    destruct (surviving_observations series_elem) as [|o l].
    - rewrite H. constructor.
    - apply (sort_by_time_period_sorted _ _ H). }
  split; [exact Hperm|]. split; [exact Hsorted|].
  intros Hlen. pose proof (sorted_keys_are_strings _ Hsorted Hlen) as Hkeys.
  rewrite Forall_forall in Hkeys |- *. intros o Ho.
  apply kept_period; [|apply Hkeys; exact Ho].
  apply (Permutation_in _ (Permutation_sym Hperm)) in Ho.
  unfold surviving_observations in Ho. apply filter_In in Ho. apply Ho.
Qed.

(** X4. A series that has two or more complete observations, one of which
    holds [None] as its time period, raises in the sort: nothing is saved
    for it, its other observations included, and the loop goes on. *)
Theorem missing_period_loses_series :
  forall ex w written i series_elem o,
    2 <= length (surviving_observations series_elem) ->
    In o (surviving_observations series_elem) ->
    time_period o = Some None ->
    (exists e, extract_series_key ex (clock w i) series_elem = Raise e)
    /\ process_one ex w written (i, series_elem) = written.
Proof.
  intros ex w written i series_elem o Hlen Hin Hnone.
  assert (Hraise : exists e, extract_series_key ex (clock w i) series_elem = Raise e).
  { destruct (extract_series_key ex (clock w i) series_elem) as [sd|e] eqn:He;
      [|exists e; reflexivity].
    exfalso.
    pose proof (extract_series_key_perm _ _ _ _ He) as Hperm.
    assert (Hsorted : Sorted time_le (sd_observations sd)).
    { apply extract_series_key_observations in He.
      destruct (surviving_observations series_elem) as [|o' l].
      - rewrite He. constructor.
      - apply (sort_by_time_period_sorted _ _ He). }
    rewrite (Permutation_length Hperm) in Hlen.
    pose proof (sorted_keys_are_strings _ Hsorted Hlen) as Hkeys.
    rewrite Forall_forall in Hkeys.
    apply (Hkeys o (Permutation_in _ Hperm Hin)).
    unfold sort_key. rewrite Hnone. reflexivity. }
  split; [exact Hraise|].
  destruct Hraise as [e He]. unfold process_one. rewrite He. reflexivity.
Qed.

Lemma insert_sorted_total :
  forall x l,
    sort_key x <> None ->
    Forall (fun o => sort_key o <> None) l ->
    exists r, insert_sorted x l = Ok r
              /\ Forall (fun o => sort_key o <> None) r.
Proof.
  intros x l Hx. induction l as [|y l IH]; intro Hl; simpl.
  - exists [x]. split; [reflexivity|]. constructor; [exact Hx|constructor].
  - inversion Hl as [|? ? Hy Hl']; subst.
    destruct (sort_key x) as [kx|] eqn:Hkx; [|contradiction Hx; reflexivity].
    destruct (sort_key y) as [ky|] eqn:Hky; [|contradiction Hy; reflexivity].
    cbn [key_lt bind]. destruct (String.ltb kx ky).
    + eexists. split; [reflexivity|].
      constructor; [rewrite Hkx; discriminate|].
      constructor; [rewrite Hky; discriminate|exact Hl'].
    + destruct (IH Hl') as [r [Hr Hall]]. rewrite Hr. cbn [bind].
      eexists. split; [reflexivity|].
      constructor; [rewrite Hky; discriminate|exact Hall].
Qed.

Lemma sort_loop_total :
  forall l acc,
    Forall (fun o => sort_key o <> None) l ->
    Forall (fun o => sort_key o <> None) acc ->
    exists r, for_each (fun sorted x => insert_sorted x sorted) l acc = Ok r.
Proof.
  induction l as [|x l IH]; intros acc Hl Hacc; simpl.
  - eexists. reflexivity.
  - inversion Hl as [|? ? Hx Hl']; subst.
    destruct (insert_sorted_total x acc Hx Hacc) as [r [Hr Hall]].
    rewrite Hr. cbn [bind]. apply (IH r Hl' Hall).
Qed.

Lemma extract_series_key_total :
  forall ex now series_elem info names structure_reference,
    obj_field "dataset_info" (ex_constraints ex) = Some info ->
    obj_field "names" info = Some names ->
    obj_field "structure_reference" info = Some structure_reference ->
    Forall has_period (surviving_observations series_elem) ->
    exists sd,
      extract_series_key ex now series_elem = Ok sd
      /\ sd_dataset_info sd
         = DatasetInfo (ex_dataset_id ex) names structure_reference now.
Proof.
  intros ex now series_elem info names structure_reference
         Hinfo Hnames Hsref Hperiods.
  unfold extract_series_key, try_except.
  fold (surviving_observations series_elem).
  destruct (ex_constraints ex) as [| | | | | |top]; try discriminate Hinfo.
  cbn [obj_field] in Hinfo. cbn [py_getitem]. rewrite Hinfo. cbn [bind].
  destruct info as [| | | | | |fields]; try discriminate Hnames.
  cbn [obj_field] in Hnames, Hsref. cbn [py_getitem].
  rewrite Hnames, Hsref. cbn [bind].
  assert (Hmeta : exists metadata,
             match find_child tag_SeriesKey series_elem with
             | Some series_key =>
                 for_each (add_key_value (JObj top))
                          (findall_desc tag_Value series_key) []
             | None => Ok []
             end = Ok metadata).
  { destruct (find_child tag_SeriesKey series_elem) as [series_key|];
      [|eexists; reflexivity].
    generalize (@nil (option string * key_label)).
    induction (findall_desc tag_Value series_key) as [|v vs IH]; intro md; simpl.
    - eexists. reflexivity.
    - unfold add_key_value at 1.
      destruct (get_value_description_total (JObj top) (attrib_get "id" v)
                  (attrib_get "value" v)) as [label Hl].
      rewrite Hl. cbn [bind]. apply IH. }
  destruct Hmeta as [metadata Hmeta]. rewrite Hmeta. cbn [bind].
  destruct (surviving_observations series_elem) as [|o l] eqn:Hobs.
  - cbn [bind]. eexists. split; reflexivity.
  - assert (Hkeys : Forall (fun o => sort_key o <> None) (o :: l)).
    { rewrite Forall_forall in Hperiods |- *. intros o' Ho'.
      destruct (Hperiods o' Ho') as [t Ht]. unfold sort_key. rewrite Ht.
      discriminate. }
    destruct (sort_loop_total (o :: l) [] Hkeys (Forall_nil _)) as [r Hr].
    unfold sort_by_time_period. rewrite Hr. cbn [bind].
    eexists. split; reflexivity.
Qed.

(** X5. If the constraints document has [names] and
    [structure_reference] in its [dataset_info], and every complete
    observation of the series has a string as time period, the extraction
    returns a record; its [dataset_info] is the dataset id of the
    extractor, those two entries of the document, and the time of the
    extraction. *)
Theorem extraction_succeeds :
  forall ex now series_elem info names structure_reference,
    obj_field "dataset_info" (ex_constraints ex) = Some info ->
    obj_field "names" info = Some names ->
    obj_field "structure_reference" info = Some structure_reference ->
    Forall has_period (surviving_observations series_elem) ->
    exists sd,
      extract_series_key ex now series_elem = Ok sd
      /\ sd_dataset_info sd
         = DatasetInfo (ex_dataset_id ex) names structure_reference now.
Proof.
  intros ex now series_elem info names structure_reference
         Hinfo Hnames Hsref Hperiods.
  apply (extract_series_key_total ex now series_elem info names
           structure_reference Hinfo Hnames Hsref Hperiods).
Qed.

Lemma process_loop_all_raise :
  forall ex w items written,
    (forall i series_elem,
        In (i, series_elem) items ->
        exists e, extract_series_key ex (clock w i) series_elem = Raise e) ->
    fold_left (process_one ex w) items written = written.
Proof.
  intros ex w items. induction items as [|[i s] items IH];
    intros written Hall; cbn [fold_left].
  - reflexivity.
  - destruct (Hall i s (or_introl eq_refl)) as [e He].
    replace (process_one ex w written (i, s)) with written
      by (unfold process_one; rewrite He; reflexivity).
    apply IH. intros i' s' Hin. apply Hall. right. exact Hin.
Qed.

(** X6. A constraints file that declares the right dataset id but has no
    [names] or no [structure_reference] in its [dataset_info] passes the
    validation, and then every series raises [KeyError]: the run saves
    nothing, whatever the data response holds. *)
Theorem incomplete_dataset_info_saves_nothing :
  forall (w : world) (dataset_id : string) (doc info : json),
    files w (constraints_file dataset_id) = Some (FileJson doc) ->
    declared_dataset_id doc = Some (JStr dataset_id) ->
    obj_field "dataset_info" doc = Some info ->
    obj_field "names" info = None
    \/ obj_field "structure_reference" info = None ->
    (exists ex, extractor_init w dataset_id "./series_data" = Ok ex
                /\ forall now series_elem,
                    extract_series_key ex now series_elem = Raise KeyError)
    /\ extractor_run w dataset_id = [].
Proof.
  intros w dataset_id doc info Hfile Hid Hinfo Hmissing.
  set (ex := Extractor dataset_id "./series_data" (constraints_file dataset_id) doc).
  assert (Hinit : extractor_init w dataset_id "./series_data" = Ok ex).
  { unfold extractor_init, find_constraints_file, load_constraints, load_json.
    fold (constraints_file dataset_id). rewrite Hfile.
    cbn [bind try_except]. rewrite Hfile. cbn [bind try_except].
    rewrite (proj2 (validate_constraints_ok dataset_id
                      (constraints_file dataset_id) doc) Hid).
    reflexivity. }
  assert (Hraise : forall now series_elem,
             extract_series_key ex now series_elem = Raise KeyError).
  { intros now series_elem. unfold extract_series_key, try_except.
    cbn [ex_constraints ex].
    unfold declared_dataset_id in Hid. rewrite Hinfo in Hid.
    destruct doc as [| | | | | |top]; try discriminate Hinfo.
    cbn [obj_field] in Hinfo. cbn [py_getitem]. rewrite Hinfo. cbn [bind].
    destruct info as [| | | | | |fields]; try discriminate Hid.
    cbn [obj_field] in Hmissing. cbn [py_getitem].
    destruct Hmissing as [Hn|Hs].
    - rewrite Hn. reflexivity.
    - destruct (dict_get String.eqb "names" fields); [|reflexivity].
      cbn [bind]. rewrite Hs. reflexivity. }
  split; [exists ex; split; [exact Hinit|exact Hraise]|].
  unfold extractor_run. rewrite Hinit. cbn [bind].
  unfold process_series, try_except.
  destruct (fetch_series_data w (ex_dataset_id ex)) as [root|]; [|reflexivity].
  cbn [bind]. apply process_loop_all_raise.
  intros i series_elem _. exists KeyError. apply Hraise.
Qed.

(** *** Metadata *)

Lemma dict_set_In_gen :
  forall {K V : Type} (eqb : K -> K -> bool),
    (forall a b, eqb a b = true <-> a = b) ->
    forall (k x : K) (v v' : V) d,
      In (x, v') (dict_set eqb k v d) -> (x = k /\ v' = v) \/ In (x, v') d.
Proof.
  intros K V eqb eqb_eq k x v v' d.
  induction d as [|[k0 v0] d IH]; simpl; intro H.
  - destruct H as [H|[]]. injection H as -> ->. left. split; reflexivity.
  - destruct (eqb k k0) eqn:E; simpl in H.
    + destruct H as [H|H].
      * injection H as <- <-. apply eqb_eq in E. subst k0.
        left. split; reflexivity.
      * right. right. exact H.
    + destruct H as [H|H]; [right; left; exact H|].
      destruct (IH H) as [Hk|Hd]; [left; exact Hk|right; right; exact Hd].
Qed.

Lemma extract_series_key_metadata_loop :
  forall ex now series_elem sd,
    extract_series_key ex now series_elem = Ok sd ->
    match find_child tag_SeriesKey series_elem with
    | Some series_key =>
        for_each (add_key_value (ex_constraints ex))
                 (findall_desc tag_Value series_key) [] = Ok (sd_metadata sd)
    | None => sd_metadata sd = []
    end.
Proof.
  intros ex now series_elem sd H.
  unfold extract_series_key, try_except in H.
  destruct (py_getitem (ex_constraints ex) (Some "dataset_info")) as [info|];
    [|discriminate H].
  cbn [bind] in H.
  destruct (py_getitem info (Some "names")) as [names|]; [|discriminate H].
  cbn [bind] in H.
  destruct (py_getitem info (Some "structure_reference")) as [sref|];
    [|discriminate H].
  cbn [bind] in H.
  destruct (find_child tag_SeriesKey series_elem) as [series_key|].
  - destruct (for_each (add_key_value (ex_constraints ex))
                       (findall_desc tag_Value series_key) [])
      as [metadata|]; [|discriminate H].
    cbn [bind] in H.
    destruct (filter has_time_and_value
                (map read_observation (findall_child tag_Obs series_elem))).
    + cbn [bind] in H. injection H as <-. reflexivity.
    + destruct (sort_by_time_period (o :: l)); [|discriminate H].
      cbn [bind] in H. injection H as <-. reflexivity.
  - cbn [bind] in H.
    destruct (filter has_time_and_value
                (map read_observation (findall_child tag_Obs series_elem))).
    + cbn [bind] in H. injection H as <-. reflexivity.
    + destruct (sort_by_time_period (o :: l)); [|discriminate H].
      cbn [bind] in H. injection H as <-. reflexivity.
Qed.

Lemma metadata_loop_inv :
  forall constraints (all : list element) vs md md',
    (forall v, In v vs -> In v all) ->
    for_each (add_key_value constraints) vs md = Ok md' ->
    (NoDup (map fst md) -> NoDup (map fst md'))
    /\ ((forall concept kl,
            In (concept, kl) md ->
            (exists v, In v all /\ attrib_get "id" v = concept
                       /\ attrib_get "value" v = code kl)
            /\ get_value_description constraints concept (code kl)
               = Ok (description kl)) ->
        forall concept kl,
          In (concept, kl) md' ->
          (exists v, In v all /\ attrib_get "id" v = concept
                     /\ attrib_get "value" v = code kl)
          /\ get_value_description constraints concept (code kl)
             = Ok (description kl)).
Proof.
  intros constraints all vs. induction vs as [|v vs IH];
    intros md md' Hsub H; simpl in H.
  - injection H as <-. split; intro Hmd; exact Hmd.
  - unfold add_key_value at 1 in H.
    destruct (get_value_description constraints (attrib_get "id" v)
                (attrib_get "value" v)) as [label|] eqn:Hl; [|discriminate H].
    cbn [bind] in H.
    apply IH in H; [|intros v' Hv'; apply Hsub; right; exact Hv'].
    destruct H as [Hnd Hinv]. split.
    + intro Hmd. apply Hnd. apply (dict_set_NoDup opt_eqb opt_eqb_eq). exact Hmd.
    + intro Hmd. apply Hinv. intros concept kl Hin.
      apply (dict_set_In_gen opt_eqb opt_eqb_eq) in Hin.
      destruct Hin as [[Hc Hkl]|Hin]; [|apply Hmd; exact Hin].
      subst concept kl. cbn [code description]. split; [|exact Hl].
      exists v. split; [apply Hsub; left; reflexivity|]. split; reflexivity.
Qed.

Lemma dict_set_keys_intro :
  forall {V : Type} (k x : option string) (v : V) d,
    x = k \/ In x (map fst d) -> In x (map fst (dict_set opt_eqb k v d)).
Proof.
  intros V k x v d. induction d as [|[k0 v0] d IH]; simpl; intro H.
  - destruct H as [H|[]]. left. symmetry. exact H.
  - destruct (opt_eqb k k0) eqn:E; simpl.
    + apply opt_eqb_eq in E. subst k0.
      destruct H as [H|[H|H]];
        [left; symmetry; exact H|left; exact H|right; exact H].
    + destruct H as [H|[H|H]].
      * right. apply IH. left. exact H.
      * left. exact H.
      * right. apply IH. right. exact H.
Qed.

Lemma pairs_dict_keys :
  forall (pairs : list (option string * option string)) acc c,
    In c (map fst acc) \/ In c (map fst pairs) ->
    In c (map fst (fold_left (fun d p => dict_set opt_eqb (fst p) (snd p) d)
                             pairs acc)).
Proof.
  induction pairs as [|[c0 k0] pairs IH]; intros acc c H; simpl.
  - destruct H as [H|[]]. exact H.
  - apply IH. cbn [map fst] in H. destruct H as [H|[H|H]].
    + left. apply dict_set_keys_intro. right. exact H.
    + left. apply dict_set_keys_intro. left. symmetry. exact H.
    + right. exact H.
Qed.

(** X7. The metadata of a record have one entry per dimension id of the
    series key: no dimension id has two entries, and every dimension id
    the key names has one.  The code of an entry is the code some [Value]
    element of the key gives for that dimension, and its description is
    the label [get_value_description] resolves for that dimension and
    code. *)
Theorem metadata_entries_labelled :
  forall ex now series_elem sd,
    extract_series_key ex now series_elem = Ok sd ->
    NoDup (map fst (sd_metadata sd))
    /\ (forall concept listed,
           In (concept, listed) (key_pairs series_elem) ->
           exists kl, In (concept, kl) (sd_metadata sd))
    /\ forall concept kl,
        In (concept, kl) (sd_metadata sd) ->
        In (concept, code kl) (key_pairs series_elem)
        /\ get_value_description (ex_constraints ex) concept (code kl)
           = Ok (description kl).
Proof.
  intros ex now series_elem sd H.
  pose proof (extract_series_key_metadata _ _ _ _ H) as Hcodes.
  apply extract_series_key_metadata_loop in H.
  assert (Hall : forall concept listed,
             In (concept, listed) (key_pairs series_elem) ->
             exists kl, In (concept, kl) (sd_metadata sd)).
  { intros concept listed Hin.
    assert (Hkey : In concept
                      (map fst (map (fun e => (fst e, code (snd e)))
                                    (sd_metadata sd)))).
    { rewrite Hcodes. unfold pairs_dict. apply pairs_dict_keys. right.
      apply (in_map fst) in Hin. exact Hin. }
    rewrite map_map in Hkey. cbn [fst] in Hkey.
    apply in_map_iff in Hkey. destruct Hkey as [[c kl] [Hc Hin']].
    cbn [fst] in Hc. subst c. exists kl. exact Hin'. }
  unfold key_pairs in *.
  destruct (find_child tag_SeriesKey series_elem) as [series_key|].
  - destruct (metadata_loop_inv (ex_constraints ex)
                (findall_desc tag_Value series_key)
                (findall_desc tag_Value series_key) [] (sd_metadata sd)
                (fun v Hv => Hv) H) as [Hnd Hinv].
    split; [apply Hnd; constructor|]. split; [exact Hall|].
    intros concept kl Hin.
    destruct (Hinv (fun c k (Hc : In (c, k) []) => match Hc with end)
                   concept kl Hin) as [[v [Hv [Hid Hcode]]] Hlabel].
    split; [|exact Hlabel].
    apply in_map_iff. exists v. split; [|exact Hv].
    rewrite Hid, Hcode. reflexivity.
  - split; [rewrite H; constructor|]. split; [exact Hall|].
    rewrite H. intros concept kl [].
Qed.

(** ** More on the mapping builder *)







Lemma mapping_dimensions_raise :
  forall w items acc d ref,
    In (d, ref) items ->
    (exists e, get_codelist_values w ref = Raise e) ->
    exists e, for_each (add_dimension w) items acc = Raise e.
Proof.
  intros w items. induction items as [|[dim_id ref0] items IH];
    intros acc d ref Hin Hraise; simpl.
  - destruct Hin.
  - destruct (get_codelist_values w ref0) as [data|e] eqn:Hdata.
    + cbn [bind]. destruct Hin as [Heq|Hin].
      * injection Heq as -> ->. destruct Hraise as [e He].
        rewrite He in Hdata. discriminate Hdata.
      * apply (IH _ d ref Hin Hraise).
    + exists e. reflexivity.
Qed.

(** X9. [build_mapping] returns no partial document: if the fetch of the
    data response fails, it raises that exception; and if the fetch of the
    codelist of any one dimension fails, it raises as well. *)
Theorem failed_fetch_fails_mapping :
  forall (w : world) (dataset_id output_dir : string),
    (forall e,
        remote w (base_url +++ "/data/" +++ dataset_id) = Raise e ->
        build_mapping w dataset_id output_dir = Raise e)
    /\ (forall structure_info codelist_refs d codelist_ref e,
           get_structure_from_data w dataset_id = Ok structure_info ->
           get_dimension_codelist_refs w structure_info = Ok codelist_refs ->
           In (d, codelist_ref) codelist_refs ->
           remote w (codelist_url codelist_ref) = Raise e ->
           exists e', build_mapping w dataset_id output_dir = Raise e').
Proof.
  intros w dataset_id output_dir. split.
  - intros e He. unfold build_mapping, get_structure_from_data, fetch_xml,
      try_except. rewrite He. reflexivity.
  - intros structure_info codelist_refs d codelist_ref e Hs Hrefs Hin He.
    destruct (mapping_dimensions_raise w codelist_refs [] d codelist_ref Hin)
      as [e' He'].
    { exists e. unfold get_codelist_values, fetch_xml, try_except.
      fold (codelist_url codelist_ref). rewrite He. reflexivity. }
    exists e'. unfold build_mapping, try_except. rewrite Hs. cbn [bind].
    rewrite Hrefs. cbn [bind]. rewrite He'. reflexivity.
Qed.

(** X10. In the values of a codelist whose codes have distinct ids, a
    code with a non-empty id carries, for each of its name elements, the
    text of that element under its language tag, and under "default" for
    an element without [xml:lang] (the tags of its name elements being
    distinct). *)
Theorem code_names_by_language :
  forall (w : world) (codelist_ref : CodelistRef) (root code : element)
         (c : string),
    remote w (codelist_url codelist_ref) = Ok root ->
    NoDup (map (attrib_get "id") (findall_desc tag_Code root)) ->
    In code (findall_desc tag_Code root) ->
    attrib_get "id" code = Some c -> c <> EmptyString ->
    NoDup (map lang_of (findall_desc tag_common_Name code)) ->
    exists data cv,
      get_codelist_values w codelist_ref = Ok data
      /\ dict_get String.eqb c (cd_values data) = Some cv
      /\ forall name,
          In name (findall_desc tag_common_Name code) ->
          dict_get String.eqb
                   (match attrib_get xml_lang name with
                    | Some l => l
                    | None => "default"
                    end)
                   (cv_name cv)
          = Some (text_of name).
Proof.
  intros w codelist_ref root code c Hroot Hnodup Hin Hid Hne Hlangs.
  set (cv := CodeValue
               (fold_left add_lang (findall_desc tag_common_Name code) [])
               (fold_left add_lang (findall_desc tag_common_Description code) [])).
  assert (Hkeep : forall codes acc,
             ~ In (Some c) (map (attrib_get "id") codes) ->
             dict_get String.eqb c (fold_left add_code codes acc)
             = dict_get String.eqb c acc).
  { induction codes as [|code0 codes IH]; intros acc Hnotin; simpl.
    - reflexivity.
    - rewrite IH; [|intro H; apply Hnotin; right; exact H].
      unfold add_code.
      destruct (attrib_get "id" code0) as [c0|] eqn:Hid0; [|reflexivity].
      destruct (str_truthy (Some c0)); [|reflexivity].
      apply (dict_get_set_other String.eqb string_eqb_eq).
      intro Heq. subst c0. apply Hnotin. left. exact Hid0. }
  assert (Hget : forall codes acc,
             NoDup (map (attrib_get "id") codes) -> In code codes ->
             dict_get String.eqb c (fold_left add_code codes acc) = Some cv).
  { induction codes as [|code0 codes IH]; intros acc Hnd Hc; simpl.
    - destruct Hc.
    - inversion Hnd as [|? ? Hnotin Hrest]; subst.
      destruct Hc as [Heq|Hc].
      + subst code0. rewrite Hid in Hnotin. rewrite (Hkeep codes _ Hnotin).
        unfold add_code. rewrite Hid. unfold str_truthy.
        apply String.eqb_neq in Hne. rewrite Hne. cbn [negb].
        apply (dict_get_set_same String.eqb string_eqb_eq).
      + apply (IH _ Hrest Hc). }
  eexists. exists cv. split; [|split].
  - unfold get_codelist_values, fetch_xml, try_except.
    fold (codelist_url codelist_ref). rewrite Hroot. reflexivity.
  - cbn [cd_values]. apply (Hget _ [] Hnodup Hin).
  - intros name Hname. cbn [cv_name cv].
    apply (dict_of_items_get String.eqb string_eqb_eq lang_of text_of
             (findall_desc tag_common_Name code) [] name Hlangs Hname).
Qed.

(** ** More on the constraints builder *)

Lemma listed_codes_flat_map :
  forall vs acc,
    fold_left add_constraint_value vs acc = acc ++ flat_map value_text vs.
Proof.
  induction vs as [|v vs IH]; intro acc; simpl.
  - rewrite app_nil_r. reflexivity.
  - rewrite IH. unfold add_constraint_value, value_text, str_truthy.
    destruct (text_of v) as [t|]; [|reflexivity].
    destruct (String.eqb t EmptyString); cbn [negb]; [reflexivity|].
    rewrite <- app_assoc. reflexivity.
Qed.

(** X11. When two [KeyValue] elements of the region carry the same id, the
    later one replaces the earlier: the codes of a dimension are those of
    the last [KeyValue] element with its id, namely the non-empty texts of
    its [Value] children in document order. *)
Theorem last_key_value_wins :
  forall (w : world) (dataset_id : string) (response region : element)
         (pre post : list element) (key_value : element) (dim_id : string),
    remote w (base_url +++ "/availableconstraint/" +++ dataset_id) = Ok response ->
    find_desc tag_CubeRegion response = Some region ->
    findall_desc tag_KeyValue region = pre ++ key_value :: post ->
    attrib_get "id" key_value = Some dim_id -> dim_id <> EmptyString ->
    ~ In (Some dim_id) (map (attrib_get "id") post) ->
    exists available,
      get_available_constraints w dataset_id = Ok available
      /\ dict_get String.eqb dim_id available
         = Some (flat_map value_text (findall_child tag_common_Value key_value)).
Proof.
  intros w dataset_id response region pre post key_value dim_id
         Hresp Hregion Hsplit Hid Hne Hlast.
  eexists. split.
  - unfold get_available_constraints, fetch_xml, try_except.
    rewrite Hresp. cbn [bind]. rewrite Hregion. reflexivity.
  - rewrite Hsplit, fold_left_app. cbn [fold_left].
    rewrite (available_constraints_keep post _ dim_id Hlast).
    unfold add_key_constraints. rewrite Hid. unfold str_truthy.
    apply String.eqb_neq in Hne. rewrite Hne. cbn [negb].
    rewrite (dict_get_set_same String.eqb string_eqb_eq).
    rewrite listed_codes_flat_map. reflexivity.
Qed.

Lemma available_constraints_from :
  forall kvs acc d codes,
    In (d, codes) (fold_left add_key_constraints kvs acc) ->
    In (d, codes) acc
    \/ exists kv,
        In kv kvs /\ attrib_get "id" kv = Some d
        /\ codes = flat_map value_text (findall_child tag_common_Value kv).
Proof.
  induction kvs as [|kv kvs IH]; intros acc d codes H; simpl in H.
  - left. exact H.
  - apply IH in H. destruct H as [H|[kv' [Hin Hkv']]].
    + unfold add_key_constraints in H.
      destruct (attrib_get "id" kv) as [d'|] eqn:Hid; [|left; exact H].
      destruct (str_truthy (Some d')); [|left; exact H].
      apply dict_set_In in H. destruct H as [[Hd Hc]|H]; [|left; exact H].
      right. exists kv. subst d' codes. split; [left; reflexivity|].
      split; [exact Hid|]. apply listed_codes_flat_map.
    + right. exists kv'. split; [right; exact Hin|exact Hkv'].
Qed.

Lemma value_labels_from :
  forall dim_info vs acc res,
    for_each (add_value_label dim_info) vs acc = Ok res ->
    forall c, In c (map fst res) -> In c (map fst acc) \/ In c vs.
Proof.
  intros dim_info vs. induction vs as [|v vs IH]; intros acc res H c Hc;
    simpl in H.
  - injection H as <-. left. exact Hc.
  - destruct (add_value_label dim_info acc v) as [acc'|] eqn:Hv;
      [|discriminate H].
    cbn [bind] in H. destruct (IH _ _ H c Hc) as [Hin|Hin];
      [|right; right; exact Hin].
    assert (Hkeys : In c (map fst acc') -> c = v \/ In c (map fst acc)).
    { unfold add_value_label in Hv.
      destruct (py_get dim_info (Some "values") (JObj [])) as [all|];
        [|discriminate Hv].
      cbn [bind] in Hv.
      destruct (py_get all (Some v) (JObj [])) as [value_info|];
        [|discriminate Hv].
      cbn [bind] in Hv. destruct (truthy value_info).
      - destruct (py_get value_info (Some "name") (default_label v)) as [name|];
          [|discriminate Hv].
        cbn [bind] in Hv. injection Hv as <-.
        apply (dict_set_keys String.eqb).
      - injection Hv as <-. apply (dict_set_keys String.eqb). }
    destruct (Hkeys Hin) as [Heq|Hacc].
    + right. left. symmetry. exact Heq.
    + left. exact Hacc.
Qed.

Lemma dimension_overviews_from :
  forall mapping items acc res,
    for_each (add_dimension_overview mapping) items acc = Ok res ->
    forall d dim,
      In (d, dim) res ->
      In (d, dim) acc
      \/ (do_id dim = d
          /\ exists vs, In (d, vs) items
                        /\ forall c, In c (map fst (do_values dim)) -> In c vs).
Proof.
  intros mapping items. induction items as [|[dim_id vs] items IH];
    intros acc res H d dim Hin; cbn [for_each] in H.
  - injection H as <-. left. exact Hin.
  - destruct (add_dimension_overview mapping acc (dim_id, vs)) as [acc'|] eqn:Ha;
      [|discriminate H].
    cbn [bind] in H. destruct (IH _ _ H d dim Hin) as [Hacc'|[Hid [vs' [Hvs' Hc]]]].
    + unfold add_dimension_overview in Ha.
      destruct (py_get mapping (Some "dimensions") (JObj [])) as [all|];
        [|discriminate Ha].
      cbn [bind] in Ha.
      destruct (py_get all (Some dim_id) (JObj [])) as [dim_info|];
        [|discriminate Ha].
      cbn [bind] in Ha.
      destruct (for_each (add_value_label dim_info) vs []) as [labels|] eqn:Hl;
        [|discriminate Ha].
      cbn [bind] in Ha. injection Ha as <-.
      apply dict_set_In in Hacc'. destruct Hacc' as [[Hd Hdim]|Hacc];
        [|left; exact Hacc].
      right. subst d dim. split; [reflexivity|].
      exists vs. split; [left; reflexivity|].
      intros c Hc. cbn [do_values] in Hc.
      destruct (value_labels_from dim_info vs [] labels Hl c Hc) as [[]|Hvs].
      exact Hvs.
    + right. split; [exact Hid|]. exists vs'. split; [right; exact Hvs'|exact Hc].
Qed.

(** X12. The overview narrows: each of its dimensions is the id of a
    [KeyValue] element of the constraint region, stored under that id, and
    each of its codes is a non-empty text of a [Value] child of that
    element.  Nothing comes from the mapping document but names. *)
Theorem overview_lists_region_only :
  forall (w : world) (dataset_id mappings_dir output_dir : string)
         (response region : element) (p : path) (ov : overview),
    remote w (base_url +++ "/availableconstraint/" +++ dataset_id) = Ok response ->
    find_desc tag_CubeRegion response = Some region ->
    build_constraints_overview w dataset_id mappings_dir output_dir = Ok (p, ov) ->
    forall dim_id dim,
      In (dim_id, dim) (ov_dimensions ov) ->
      do_id dim = dim_id
      /\ exists key_value,
          In key_value (findall_desc tag_KeyValue region)
          /\ attrib_get "id" key_value = Some dim_id
          /\ forall c,
              In c (map fst (do_values dim)) ->
              In c (flat_map value_text
                             (findall_child tag_common_Value key_value)).
Proof.
  intros w dataset_id mappings_dir output_dir response region p ov
         Hresp Hregion Hbuild dim_id dim Hin.
  unfold build_constraints_overview, try_except in Hbuild.
  destruct (get_dataflow_info w dataset_id) as [info|]; [|discriminate Hbuild].
  cbn [bind] in Hbuild.
  unfold get_available_constraints, fetch_xml, try_except in Hbuild.
  rewrite Hresp in Hbuild. cbn [bind] in Hbuild. rewrite Hregion in Hbuild.
  cbn [bind] in Hbuild.
  destruct (load_mapping_file w mappings_dir dataset_id) as [mapping|];
    [|discriminate Hbuild].
  cbn [bind] in Hbuild.
  destruct (for_each (add_dimension_overview mapping)
                     (fold_left add_key_constraints
                                (findall_desc tag_KeyValue region) []) [])
    as [dimensions|] eqn:Hdims; [|discriminate Hbuild].
  cbn [bind] in Hbuild. injection Hbuild as _ <-. cbn [ov_dimensions] in Hin.
  destruct (dimension_overviews_from _ _ _ _ Hdims dim_id dim Hin)
    as [[]|[Hid [vs [Hvs Hcodes]]]].
  split; [exact Hid|].
  apply available_constraints_from in Hvs.
  destruct Hvs as [[]|[kv [Hkv [Hkid Hvs]]]].
  exists kv. split; [exact Hkv|]. split; [exact Hkid|].
  intros c Hc. rewrite <- Hvs. apply Hcodes. exact Hc.
Qed.

(** ** From one stage to the next *)

Lemma dict_get_map :
  forall {V W : Type} (f : V -> W) (k : string) (d : list (string * V)),
    dict_get String.eqb k (map (fun e => (fst e, f (snd e))) d)
    = option_map f (dict_get String.eqb k d).
Proof.
  intros V W f k d. induction d as [|[k' v] d IH]; simpl.
  - reflexivity.
  - destruct (String.eqb k k'); [reflexivity|exact IH].
Qed.

Lemma mapping_json_well_formed :
  forall m, mapping_well_formed (mapping_json m) = true.
Proof.
  intro m. unfold mapping_json. cbn.
  apply forallb_forall. intros [d j] Hin. cbn [snd].
  apply in_map_iff in Hin. destruct Hin as [[d' dm] [Heq _]].
  injection Heq as _ <-. cbn.
  apply forallb_forall. intros [c j] Hin. cbn [snd].
  apply in_map_iff in Hin. destruct Hin as [[c' cv] [Heq _]].
  injection Heq as _ <-. reflexivity.
Qed.

Lemma mapping_json_name :
  forall m d dm c cv,
    dict_get String.eqb d (md_dimensions m) = Some dm ->
    dict_get String.eqb c (dm_values dm) = Some cv ->
    mapping_name (mapping_json m) d c = Some (lang_map_json (cv_name cv)).
Proof.
  intros m d dm c cv Hd Hc. unfold mapping_name, mapping_json.
  cbn [obj_field dict_get String.eqb Ascii.eqb Bool.eqb].
  rewrite dict_get_map, Hd. cbn [option_map].
  unfold dimension_name, dimension_mapping_json.
  cbn [obj_field dict_get String.eqb Ascii.eqb Bool.eqb].
  rewrite dict_get_map, Hc. reflexivity.
Qed.

(** The entries of the overview, for a well-formed mapping document and
    a region with distinct ids. *)
Lemma overview_entry :
  forall (w : world) (dataset_id mappings_dir output_dir : string)
         (flow response region : element) (mapping : json),
    remote w (base_url +++ "/dataflow/IT1/" +++ dataset_id) = Ok flow ->
    remote w (base_url +++ "/availableconstraint/" +++ dataset_id) = Ok response ->
    find_desc tag_CubeRegion response = Some region ->
    NoDup (map (attrib_get "id") (findall_desc tag_KeyValue region)) ->
    files w (os_path_join mappings_dir ("mapping_" +++ dataset_id +++ ".json"))
    = Some (FileJson mapping) ->
    mapping_well_formed mapping = true ->
    exists p ov,
      build_constraints_overview w dataset_id mappings_dir output_dir = Ok (p, ov)
      /\ forall key_value dim_id v c,
          In key_value (findall_desc tag_KeyValue region) ->
          attrib_get "id" key_value = Some dim_id -> dim_id <> EmptyString ->
          In v (findall_child tag_common_Value key_value) ->
          text_of v = Some c -> c <> EmptyString ->
          exists dim,
            dict_get String.eqb dim_id (ov_dimensions ov) = Some dim
            /\ dict_get String.eqb c (do_values dim)
               = Some (ValueLabel
                         (label_or_default (mapping_name mapping dim_id c) c)).
Proof.
  intros w dataset_id mappings_dir output_dir flow response region mapping
         Hflow Hresp Hregion Hnodup Hfile Hwf.
  assert (Hinfo : exists info, get_dataflow_info w dataset_id = Ok info).
  { unfold get_dataflow_info, fetch_xml, try_except. rewrite Hflow. cbn [bind].
    destruct (find_desc tag_Dataflow flow); eexists; reflexivity. }
  destruct Hinfo as [info Hinfo].
  set (available := fold_left add_key_constraints
                              (findall_desc tag_KeyValue region) []).
  assert (Hav : get_available_constraints w dataset_id = Ok available).
  { unfold get_available_constraints, fetch_xml, try_except.
    rewrite Hresp. cbn [bind]. rewrite Hregion. reflexivity. }
  set (entry := fun item : string * list string =>
                  DimensionOverview (fst item)
                    (fold_left
                       (fun d v =>
                          dict_set String.eqb v
                            (ValueLabel
                               (label_or_default
                                  (mapping_name mapping (fst item) v) v))
                            d)
                       (snd item) [])).
  assert (Hdims : for_each (add_dimension_overview mapping) available []
                  = Ok (fold_left
                          (fun d item => dict_set String.eqb (fst item) (entry item) d)
                          available [])).
  { apply for_each_pure. intros s [dim_id values].
    apply add_dimension_overview_ok. exact Hwf. }
  eexists. eexists. split.
  - unfold build_constraints_overview. rewrite Hinfo, Hav.
    unfold load_mapping_file, load_json. rewrite Hfile.
    cbn [bind try_except]. rewrite Hdims. reflexivity.
  - intros key_value dim_id v c Hkv Hid Hne Hv Ht Hc. cbn [ov_dimensions].
    assert (Hget : dict_get String.eqb dim_id available
                   = Some (listed_codes key_value)).
    { apply available_constraints_get; assumption. }
    apply (dict_get_In String.eqb string_eqb_eq) in Hget.
    exists (entry (dim_id, listed_codes key_value)). split.
    + apply (dict_of_items_get String.eqb string_eqb_eq fst entry available []
               (dim_id, listed_codes key_value)).
      * apply available_constraints_NoDup. constructor.
      * exact Hget.
    + unfold entry. cbn [do_values fst snd].
      apply (dict_of_keys_get String.eqb string_eqb_eq
               (fun v => ValueLabel
                           (label_or_default (mapping_name mapping dim_id v) v))).
      apply (listed_codes_In _ [] v c Hv Ht Hc).
Qed.

Lemma overview_total :
  forall (w : world) (dataset_id mappings_dir output_dir : string)
         (flow response : element) (mapping : json),
    remote w (base_url +++ "/dataflow/IT1/" +++ dataset_id) = Ok flow ->
    remote w (base_url +++ "/availableconstraint/" +++ dataset_id) = Ok response ->
    files w (os_path_join mappings_dir ("mapping_" +++ dataset_id +++ ".json"))
    = Some (FileJson mapping) ->
    mapping_well_formed mapping = true ->
    exists p ov,
      build_constraints_overview w dataset_id mappings_dir output_dir = Ok (p, ov).
Proof.
  intros w dataset_id mappings_dir output_dir flow response mapping
         Hflow Hresp Hfile Hwf.
  assert (Hinfo : exists info, get_dataflow_info w dataset_id = Ok info).
  { unfold get_dataflow_info, fetch_xml, try_except. rewrite Hflow. cbn [bind].
    destruct (find_desc tag_Dataflow flow); eexists; reflexivity. }
  destruct Hinfo as [info Hinfo].
  assert (Hav : exists available,
             get_available_constraints w dataset_id = Ok available).
  { unfold get_available_constraints, fetch_xml, try_except.
    rewrite Hresp. cbn [bind].
    destruct (find_desc tag_CubeRegion response); eexists; reflexivity. }
  destruct Hav as [available Hav].
  eexists. eexists. unfold build_constraints_overview. rewrite Hinfo, Hav.
  unfold load_mapping_file, load_json. rewrite Hfile. cbn [bind try_except].
  rewrite (for_each_pure (add_dimension_overview mapping)
             (fun d item =>
                dict_set String.eqb (fst item)
                  (DimensionOverview (fst item)
                     (fold_left
                        (fun d v =>
                           dict_set String.eqb v
                             (ValueLabel
                                (label_or_default
                                   (mapping_name mapping (fst item) v) v))
                             d)
                        (snd item) []))
                  d)).
  - reflexivity.
  - intros s [dim_id values]. apply add_dimension_overview_ok. exact Hwf.
Qed.

(** X13. The constraints builder accepts every mapping file the mapping
    builder writes: with such a file, and the dataflow and constraint
    responses there, [build_constraints_overview] returns an overview; and
    (the ids of the region being distinct) each listed code that the
    mapping document has gets the names of that code, language by
    language, as its name. *)
Theorem mapping_file_accepted :
  forall (w : world) (dataset_id mappings_dir output_dir : string)
         (flow response : element) (m : mapping_document),
    remote w (base_url +++ "/dataflow/IT1/" +++ dataset_id) = Ok flow ->
    remote w (base_url +++ "/availableconstraint/" +++ dataset_id) = Ok response ->
    files w (os_path_join mappings_dir ("mapping_" +++ dataset_id +++ ".json"))
    = Some (FileJson (mapping_json m)) ->
    exists p ov,
      build_constraints_overview w dataset_id mappings_dir output_dir = Ok (p, ov)
      /\ forall region key_value dim_id v c dm cv,
          find_desc tag_CubeRegion response = Some region ->
          NoDup (map (attrib_get "id") (findall_desc tag_KeyValue region)) ->
          In key_value (findall_desc tag_KeyValue region) ->
          attrib_get "id" key_value = Some dim_id -> dim_id <> EmptyString ->
          In v (findall_child tag_common_Value key_value) ->
          text_of v = Some c -> c <> EmptyString ->
          dict_get String.eqb dim_id (md_dimensions m) = Some dm ->
          dict_get String.eqb c (dm_values dm) = Some cv ->
          exists dim,
            dict_get String.eqb dim_id (ov_dimensions ov) = Some dim
            /\ dict_get String.eqb c (do_values dim)
               = Some (ValueLabel (lang_map_json (cv_name cv))).
Proof.
  intros w dataset_id mappings_dir output_dir flow response m Hflow Hresp Hfile.
  destruct (overview_total w dataset_id mappings_dir output_dir flow response
              (mapping_json m) Hflow Hresp Hfile (mapping_json_well_formed m))
    as [p [ov Hbuild]].
  exists p, ov. split; [exact Hbuild|].
  intros region key_value dim_id v c dm cv
         Hregion Hnodup Hkv Hid Hne Hv Ht Hc Hdm Hcv.
  destruct (overview_entry w dataset_id mappings_dir output_dir flow
              response region (mapping_json m) Hflow Hresp Hregion Hnodup
              Hfile (mapping_json_well_formed m)) as [p' [ov' [Hbuild' Hentry]]].
  rewrite Hbuild in Hbuild'. injection Hbuild' as _ <-.
  destruct (Hentry key_value dim_id v c Hkv Hid Hne Hv Ht Hc)
    as [dim [Hdim Hlabel]].
  exists dim. split; [exact Hdim|].
  rewrite Hlabel, (mapping_json_name m dim_id dm c cv Hdm Hcv). reflexivity.
Qed.

Lemma build_constraints_overview_inv :
  forall (w : world) (dataset_id mappings_dir output_dir : string)
         (p : path) (ov : overview),
    build_constraints_overview w dataset_id mappings_dir output_dir = Ok (p, ov) ->
    p = os_path_join output_dir ("constraints_" +++ dataset_id +++ ".json")
    /\ df_id (ov_dataset_info ov) = dataset_id.
Proof.
  intros w dataset_id mappings_dir output_dir p ov H.
  unfold build_constraints_overview, try_except in H.
  destruct (get_dataflow_info w dataset_id) as [info|] eqn:Hinfo;
    [|discriminate H].
  cbn [bind] in H.
  destruct (get_available_constraints w dataset_id) as [available|];
    [|discriminate H].
  cbn [bind] in H.
  destruct (load_mapping_file w mappings_dir dataset_id) as [mapping|];
    [|discriminate H].
  cbn [bind] in H.
  destruct (for_each (add_dimension_overview mapping) available [])
    as [dimensions|]; [|discriminate H].
  cbn [bind] in H. injection H as <- <-. split; [reflexivity|].
  cbn [ov_dataset_info].
  unfold get_dataflow_info, fetch_xml, try_except in Hinfo.
  destruct (remote w _) as [root|]; [|discriminate Hinfo].
  cbn [bind] in Hinfo.
  destruct (find_desc tag_Dataflow root); injection Hinfo as <-; reflexivity.
Qed.

(** X14. The constraints file that [build_constraints_overview] writes
    for a dataset id has the file name the extractor looks for; read back
    from where the extractor looks, it passes the extractor's validation
    for that id, and its [dataset_info] has the entries each extraction
    reads, so that a series whose complete observations all have a string
    as time period yields a record. *)
Theorem built_constraints_accepted :
  forall (w : world) (dataset_id mappings_dir output_dir : string)
         (p : path) (ov : overview),
    build_constraints_overview w dataset_id mappings_dir output_dir = Ok (p, ov) ->
    path_file p = path_file (constraints_file dataset_id)
    /\ (forall w' out,
           files w' (constraints_file dataset_id)
           = Some (FileJson (overview_json ov)) ->
           extractor_init w' dataset_id out
           = Ok (Extractor dataset_id out (constraints_file dataset_id)
                           (overview_json ov)))
    /\ (forall ex now series_elem,
           ex_constraints ex = overview_json ov ->
           Forall has_period (surviving_observations series_elem) ->
           exists sd, extract_series_key ex now series_elem = Ok sd).
Proof.
  intros w dataset_id mappings_dir output_dir p ov H.
  apply build_constraints_overview_inv in H. destruct H as [Hp Hid].
  split; [rewrite Hp; reflexivity|]. split.
  - intros w' out Hfile.
    unfold extractor_init, find_constraints_file, load_constraints, load_json.
    fold (constraints_file dataset_id). rewrite Hfile.
    cbn [bind try_except]. rewrite Hfile. cbn [bind try_except].
    rewrite (proj2 (validate_constraints_ok dataset_id
                      (constraints_file dataset_id) (overview_json ov))).
    + reflexivity.
    + unfold declared_dataset_id, overview_json, dataflow_info_json.
      cbn. rewrite Hid. reflexivity.
  - intros ex now series_elem Hc Hperiods.
    destruct (extract_series_key_total ex now series_elem
                (dataflow_info_json (ov_dataset_info ov))
                (JObj (fold_left
                         (fun d e =>
                            dict_set String.eqb (json_key (fst e))
                                     (of_opt_str (snd e)) d)
                         (df_names (ov_dataset_info ov)) []))
                (structure_reference_json
                   (df_structure_reference (ov_dataset_info ov))))
      as [sd [Hsd _]].
    + rewrite Hc. reflexivity.
    + reflexivity.
    + reflexivity.
    + exact Hperiods.
    + exists sd. exact Hsd.
Qed.

Lemma overview_json_names :
  forall ov dim_id dim c name,
    dict_get String.eqb dim_id (ov_dimensions ov) = Some dim ->
    dict_get String.eqb c (do_values dim) = Some (ValueLabel name) ->
    name_entries (overview_json ov) (Some dim_id) (Some c)
    = match name with
      | JObj names => Some names
      | _ => None
      end.
Proof.
  intros ov dim_id dim c name Hdim Hc. unfold name_entries, overview_json.
  cbn [obj_field dict_get String.eqb Ascii.eqb Bool.eqb].
  rewrite dict_get_map, Hdim. cbn [option_map].
  unfold dimension_overview_json.
  cbn [obj_field dict_get String.eqb Ascii.eqb Bool.eqb].
  rewrite (dict_get_map (fun vl => JObj [("name", vl_name vl)])), Hc.
  cbn [option_map vl_name obj_field dict_get String.eqb Ascii.eqb Bool.eqb].
  destruct name; reflexivity.
Qed.

(** X15. Labels from the mapping document to the series.  Let the
    overview be built from a well-formed mapping document and a region
    with distinct ids, and let the extractor read it back.  For every code
    listed in the region, the extractor's label is the "en", else "it",
    else "default" name the mapping document records for the code, else
    the code; and it is the code itself when the mapping document does not
    know the code. *)
Theorem labels_across_stages :
  forall (w : world) (dataset_id mappings_dir output_dir : string)
         (flow response region : element) (mapping : json),
    remote w (base_url +++ "/dataflow/IT1/" +++ dataset_id) = Ok flow ->
    remote w (base_url +++ "/availableconstraint/" +++ dataset_id) = Ok response ->
    find_desc tag_CubeRegion response = Some region ->
    NoDup (map (attrib_get "id") (findall_desc tag_KeyValue region)) ->
    files w (os_path_join mappings_dir ("mapping_" +++ dataset_id +++ ".json"))
    = Some (FileJson mapping) ->
    mapping_well_formed mapping = true ->
    exists p ov,
      build_constraints_overview w dataset_id mappings_dir output_dir = Ok (p, ov)
      /\ forall key_value dim_id v c,
          In key_value (findall_desc tag_KeyValue region) ->
          attrib_get "id" key_value = Some dim_id -> dim_id <> EmptyString ->
          In v (findall_child tag_common_Value key_value) ->
          text_of v = Some c -> c <> EmptyString ->
          get_value_description (overview_json ov) (Some dim_id) (Some c)
          = Ok (match mapping_name mapping dim_id c with
                | Some (JObj names) => fallback_label names (Some c)
                | _ => JStr c
                end).
Proof.
  intros w dataset_id mappings_dir output_dir flow response region mapping
         Hflow Hresp Hregion Hnodup Hfile Hwf.
  destruct (overview_entry w dataset_id mappings_dir output_dir flow
              response region mapping Hflow Hresp Hregion Hnodup Hfile Hwf)
    as [p [ov [Hbuild Hentry]]].
  exists p, ov. split; [exact Hbuild|].
  intros key_value dim_id v c Hkv Hid Hne Hv Ht Hc.
  destruct (Hentry key_value dim_id v c Hkv Hid Hne Hv Ht Hc)
    as [dim [Hdim Hlabel]].
  rewrite get_value_description_eq.
  rewrite (overview_json_names ov dim_id dim c _ Hdim Hlabel).
  destruct (mapping_name mapping dim_id c) as [name|]; cbn [label_or_default].
  - destruct name; reflexivity.
  - reflexivity.
Qed.

(** ** The plotter's file names *)

(** X16. [generate_output_filename] never raises: it always returns a
    name, and for a document that is not a dict, or that has no dataset
    id, no [FREQ] and no data-type entry, the name is the stem of the
    series file with [.png]. *)
Theorem generate_output_filename_total :
  forall (series_data : json) (stem : string),
    (exists name, generate_output_filename series_data stem = Ok name)
    /\ (is_obj series_data = false ->
        generate_output_filename series_data stem = Ok (stem +++ ".png"))
    /\ (forall fields,
           series_data = JObj fields ->
           dict_get String.eqb "dataset_info" fields = None ->
           dict_get String.eqb "metadata" fields = None ->
           generate_output_filename series_data stem = Ok (stem +++ ".png")).
Proof.
  intros series_data stem. split; [|split].
  - unfold generate_output_filename, try_except.
    match goal with
    | |- exists name, match ?b with Ok a => _ | Raise e => _ end = _ =>
        destruct b; eexists; reflexivity
    end.
  - intro Hobj. destruct series_data; try discriminate Hobj; reflexivity.
  - intros fields -> Hinfo Hmeta. unfold generate_output_filename.
    cbn [py_get]. rewrite Hinfo, Hmeta. reflexivity.
Qed.

Lemma dict_get_absent :
  forall {V : Type} (k : option string) (d : list (option string * V)),
    ~ In k (map fst d) -> dict_get opt_eqb k d = None.
Proof.
  intros V k d. induction d as [|[k' v] d IH]; simpl; intro H.
  - reflexivity.
  - destruct (opt_eqb k k') eqn:E.
    + apply opt_eqb_eq in E. subst k'. contradiction H. left. reflexivity.
    + apply IH. intro Hin. apply H. right. exact Hin.
Qed.

(** Reading an entry of the metadata back from the file. *)
Lemma metadata_json_get :
  forall (k : string) (md : list (option string * key_label)) acc,
    k <> "null" ->
    NoDup (map fst md) ->
    dict_get String.eqb k
      (fold_left
         (fun d e =>
            dict_set String.eqb (json_key (fst e)) (key_label_json (snd e)) d)
         md acc)
    = match dict_get opt_eqb (Some k) md with
      | Some kl => Some (key_label_json kl)
      | None => dict_get String.eqb k acc
      end.
Proof.
  intros k md. induction md as [|[k0 kl0] md IH]; intros acc Hk Hnd;
    cbn [fold_left].
  - reflexivity.
  - cbn [map fst] in Hnd. inversion Hnd as [|? ? Hnotin Hrest]; subst.
    cbn [fst snd]. rewrite (IH _ Hk Hrest). cbn [dict_get].
    destruct (opt_eqb (Some k) k0) eqn:E.
    + apply opt_eqb_eq in E. subst k0.
      rewrite (dict_get_absent (Some k) md Hnotin). cbn [json_key].
      apply (dict_get_set_same String.eqb string_eqb_eq).
    + destruct (dict_get opt_eqb (Some k) md); [reflexivity|].
      apply (dict_get_set_other String.eqb string_eqb_eq).
      intro Heq. destruct k0 as [k0|]; cbn [json_key] in Heq.
      * subst k0. cbn [opt_eqb] in E. rewrite String.eqb_refl in E.
        discriminate E.
      * contradiction.
Qed.

Lemma extract_series_key_metadata_NoDup :
  forall ex now series_elem sd,
    extract_series_key ex now series_elem = Ok sd ->
    NoDup (map fst (sd_metadata sd)).
Proof.
  intros ex now series_elem sd H.
  apply extract_series_key_metadata_loop in H.
  destruct (find_child tag_SeriesKey series_elem) as [series_key|].
  - apply (proj1 (metadata_loop_inv (ex_constraints ex)
                    (findall_desc tag_Value series_key)
                    (findall_desc tag_Value series_key) [] (sd_metadata sd)
                    (fun v Hv => Hv) H)).
    constructor.
  - rewrite H. constructor.
Qed.

Lemma str_parts_strings :
  forall l, str_parts (map JStr l) = Ok l.
Proof.
  induction l as [|s l IH]; simpl; [reflexivity|]. rewrite IH. reflexivity.
Qed.

(** X17. The plot of a saved record is named after the dataset id, the
    code of [FREQ] and the code of [TIPO_DATO] (else of
    [TIPO_AGGR_MILEURO]) alone: no other dimension of the series and, the
    dataset id not being empty, not the name of its file enter the name,
    so that records that agree on these get the same plot file. *)
Theorem plot_filename_of_record :
  forall ex now series_elem sd stem,
    extract_series_key ex now series_elem = Ok sd ->
    generate_output_filename (series_data_json sd) stem
    = Ok (plot_filename (di_id (sd_dataset_info sd)) (sd_metadata sd) stem).
Proof.
  intros ex now series_elem sd stem H.
  pose proof (extract_series_key_metadata_NoDup _ _ _ _ H) as Hnd.
  unfold generate_output_filename, series_data_json, plot_filename, code_part.
  cbn [py_get dict_get String.eqb Ascii.eqb Bool.eqb bind].
  rewrite (metadata_json_get "TIPO_DATO" (sd_metadata sd) []
             ltac:(discriminate) Hnd).
  rewrite (metadata_json_get "TIPO_AGGR_MILEURO" (sd_metadata sd) []
             ltac:(discriminate) Hnd).
  rewrite (metadata_json_get "FREQ" (sd_metadata sd) []
             ltac:(discriminate) Hnd).
  destruct (dict_get opt_eqb (Some "TIPO_DATO") (sd_metadata sd)) as [[[c1|] d1]|];
    destruct (dict_get opt_eqb (Some "TIPO_AGGR_MILEURO") (sd_metadata sd))
      as [[[c2|] d2]|];
    destruct (dict_get opt_eqb (Some "FREQ") (sd_metadata sd)) as [[[c3|] d3]|];
    cbn;
    repeat match goal with
           | E : String.eqb ?s EmptyString = _
             |- context [String.eqb ?s EmptyString] => rewrite E; cbn
           | |- context [String.eqb ?s EmptyString] =>
               destruct (String.eqb s EmptyString) eqn:?; cbn
           end;
    reflexivity.
Qed.

End Pipeline.

Arguments Ok {FP A} a.
Arguments Raise {FP A} e.

#[local] Existing Instance decimal_floats.

(** ** Label resolution on concrete documents *)

(** With truthy "en" and "it" entries the "en" entry is chosen; with "it"
    alone, "it"; with no entry at all, the code. *)
Example label_en_first :
  get_value_description
    (constraints_with_names (JObj [("it", JStr "annuale"); ("en", JStr "annual")]))
    (Some "FREQ") (Some "A") = Ok (JStr "annual").
Proof. reflexivity. Qed.

Example label_it_second :
  get_value_description
    (constraints_with_names (JObj [("it", JStr "annuale")]))
    (Some "FREQ") (Some "A") = Ok (JStr "annuale").
Proof. reflexivity. Qed.

Example label_code_last :
  get_value_description (constraints_with_names (JObj []))
                        (Some "FREQ") (Some "A") = Ok (JStr "A")
  /\ get_value_description (constraints_with_names (JObj []))
                           (Some "ITTER107") (Some "IT") = Ok (JStr "IT")
  /\ get_value_description (JArr []) None None = Ok JNull.
Proof. repeat split; reflexivity. Qed.

(** C1 (as stated) fails twice.  An "en" entry that holds [null] (a name
    element without text) is passed over although both entries exist, and
    with neither "en" nor "it" the "default" entry is returned, which need
    not be the raw code. *)
Lemma label_fallback_counterexample :
  (name_entries
     (constraints_with_names (JObj [("en", JNull); ("it", JStr "annuale")]))
     (Some "FREQ") (Some "A") = Some [("en", JNull); ("it", JStr "annuale")]
   /\ get_value_description
        (constraints_with_names (JObj [("en", JNull); ("it", JStr "annuale")]))
        (Some "FREQ") (Some "A") = Ok (JStr "annuale")
   /\ get_value_description
        (constraints_with_names (JObj [("en", JNull); ("it", JStr "annuale")]))
        (Some "FREQ") (Some "A") <> Ok JNull)
  /\
  (name_entries
     (constraints_with_names (JObj [("default", JStr "annual")]))
     (Some "FREQ") (Some "A") = Some [("default", JStr "annual")]
   /\ get_value_description
        (constraints_with_names (JObj [("default", JStr "annual")]))
        (Some "FREQ") (Some "A") = Ok (JStr "annual")
   /\ get_value_description
        (constraints_with_names (JObj [("default", JStr "annual")]))
        (Some "FREQ") (Some "A") <> Ok (JStr "A")).
Proof.
  repeat split; try reflexivity; intro H; discriminate H.
Qed.

(** ** Validation on a concrete store *)

Lemma mismatched_constraints_rejected_witness :
  extractor_init
    (world_with "D2" (constraints_with_names (JObj [])) (data_response []))
    "D2" "./series_data" =
    Raise (ValueError (MsgConstraintsMismatch "D2" (JStr "D1")
                                              (constraints_file "D2")))
  /\ extractor_run
       (world_with "D2" (constraints_with_names (JObj [])) (data_response []))
       "D2" = [].
Proof.
  apply (mismatched_constraints_rejected
           (world_with "D2" (constraints_with_names (JObj [])) (data_response []))
           "D2" "D1" "./series_data" (constraints_with_names (JObj []))).
  - intro H; discriminate H.
  - reflexivity.
  - reflexivity.
Defined.

(** ** Extraction on concrete series *)

(** The end-to-end example: observations given as 2019, 2018 come out as
    2018, 2019 with parsed values, under the label of the code. *)
Example extract_two_observations :
  extract_series_key
    (extractor_with_names (JObj [("en", JStr "annual")])) "T"
    (series_elem_of [key_value_elem "FREQ" "A"; key_value_elem "ITTER107" "IT"]
                    [obs_elem "2019" "10.5"; obs_elem "2018" "9.1"])
  = Ok (SeriesData
          (DatasetInfo "D1" (JObj [("en", JStr "Sample dataset")])
                       (JObj [("id", JStr "DSD1")]) "T")
          [(Some "FREQ", KeyLabel (Some "A") (JStr "annual"));
           (Some "ITTER107", KeyLabel (Some "IT") (JStr "IT"))]
          [Observation (Some (Some "2018")) (Some (VFloat (Decimal 91 1)));
           Observation (Some (Some "2019")) (Some (VFloat (Decimal 105 1)))]).
Proof. reflexivity. Qed.

(** A series whose only observation lacks the [value] attribute saves
    nothing, and the series after it is saved. *)
Example series_without_value_skipped :
  map (fun f => path_file (fst f))
      (extractor_run
         (world_with "D1" (constraints_with_names (JObj []))
            (data_response
               [series_elem_of [key_value_elem "FREQ" "A"]
                               [obs_elem_no_value "2019"];
                series_elem_of [key_value_elem "FREQ" "Q"]
                               [obs_elem "2019-Q1" "1"]]))
         "D1")
  = ["series_dataset_D1_FREQ-Q.json"].
Proof. reflexivity. Qed.

(** C3, failing input. The time dimension of the only observation has no
    [value] attribute; the record keeps the observation, with [None] as
    its time period. *)
Lemma record_keeps_observation_without_period :
  raw_time (obs_elem_no_period "10.5") = Some None
  /\ extract_series_key
       (extractor_with_names (JObj [])) "T"
       (series_elem_of [key_value_elem "FREQ" "A"] [obs_elem_no_period "10.5"])
     = Ok (SeriesData
             (DatasetInfo "D1" (JObj [("en", JStr "Sample dataset")])
                          (JObj [("id", JStr "DSD1")]) "T")
             [(Some "FREQ", KeyLabel (Some "A") (JStr "A"))]
             [Observation (Some None) (Some (VFloat (Decimal 105 1)))]).
Proof. split; reflexivity. Qed.

(** C4, failing input. In a batch, the observation that has no time period
    is not dropped before sorting.  When it is the only observation of its
    series, the series is saved with it instead of being discarded; when
    the series has another observation, the sort raises on the missing
    period and nothing is saved for the series, the other observation
    included.  The batch goes on in both cases. *)
Lemma batch_saves_observation_without_period :
  map (fun f => (path_file (fst f), sd_observations (snd f)))
      (extractor_run
         (world_with "D1" (constraints_with_names (JObj []))
            (data_response
               [series_elem_of [key_value_elem "FREQ" "A"]
                               [obs_elem_no_period "10.5"];
                series_elem_of [key_value_elem "FREQ" "M"]
                               [obs_elem_no_period "10.5"; obs_elem "2019-01" "2"];
                series_elem_of [key_value_elem "FREQ" "Q"]
                               [obs_elem "2019-Q1" "1"]]))
         "D1")
  = [("series_dataset_D1_FREQ-A.json",
      [Observation (Some None) (Some (VFloat (Decimal 105 1)))]);
     ("series_dataset_D1_FREQ-Q.json",
      [Observation (Some (Some "2019-Q1")) (Some (VFloat (Decimal 1 0)))])].
Proof. reflexivity. Qed.

Lemma stored_value_parsed_or_verbatim_witness :
  extract_series_key
    (extractor_with_names (JObj [])) "T"
    (series_elem_of [key_value_elem "FREQ" "Q"]
                    [obs_elem "2019" "10.5"; obs_elem "2017" "n.a."])
  = Ok (SeriesData
          (DatasetInfo "D1" (JObj [("en", JStr "Sample dataset")])
                       (JObj [("id", JStr "DSD1")]) "T")
          [(Some "FREQ", KeyLabel (Some "Q") (JStr "Q"))]
          [Observation (Some (Some "2017")) (Some (VText "n.a."));
           Observation (Some (Some "2019")) (Some (VFloat (Decimal 105 1)))])
  /\ (forall o,
         In o [Observation (Some (Some "2017")) (Some (VText "n.a."));
               Observation (Some (Some "2019")) (Some (VFloat (Decimal 105 1)))] ->
         exists obs v,
           In obs (findall_child tag_Obs
                     (series_elem_of [key_value_elem "FREQ" "Q"]
                        [obs_elem "2019" "10.5"; obs_elem "2017" "n.a."]))
           /\ o = read_observation obs
           /\ raw_value obs = Some v /\ v <> EmptyString
           /\ (forall f, float_of_str v = Some f -> value o = Some (VFloat f))
           /\ (float_of_str v = None -> value o = Some (VText v)))
  /\ In (Observation (Some (Some "2017")) (Some (VText "n.a.")))
        [Observation (Some (Some "2017")) (Some (VText "n.a."));
         Observation (Some (Some "2019")) (Some (VFloat (Decimal 105 1)))].
Proof.
  split; [reflexivity|].
  assert (E : extract_series_key
                (extractor_with_names (JObj [])) "T"
                (series_elem_of [key_value_elem "FREQ" "Q"]
                                [obs_elem "2019" "10.5"; obs_elem "2017" "n.a."])
              = Ok (SeriesData
                      (DatasetInfo "D1" (JObj [("en", JStr "Sample dataset")])
                                   (JObj [("id", JStr "DSD1")]) "T")
                      [(Some "FREQ", KeyLabel (Some "Q") (JStr "Q"))]
                      [Observation (Some (Some "2017")) (Some (VText "n.a."));
                       Observation (Some (Some "2019"))
                                   (Some (VFloat (Decimal 105 1)))]))
    by reflexivity.
  destruct (stored_value_parsed_or_verbatim _ _ _ _ E) as [Hvalues Hkept].
  split; [exact Hvalues|].
  apply (Hkept (obs_elem "2017" "n.a.") (Some "2017") "n.a.").
  - right. left. reflexivity.
  - reflexivity.
  - reflexivity.
  - intro H; discriminate H.
  - reflexivity.
Defined.

Lemma empty_value_is_no_value_witness :
  value (read_observation (obs_elem "2016" EmptyString)) = None
  /\ extract_series_key
       (extractor_with_names (JObj [])) "T"
       (Element tag_Series [] None
          ([Element tag_SeriesKey [] None [key_value_elem "FREQ" "A"];
            obs_elem "2019" "10.5"]
             ++ obs_elem "2016" EmptyString :: [obs_elem "2018" "9.1"]))
     = extract_series_key
         (extractor_with_names (JObj [])) "T"
         (Element tag_Series [] None
            ([Element tag_SeriesKey [] None [key_value_elem "FREQ" "A"];
              obs_elem "2019" "10.5"]
               ++ [obs_elem "2018" "9.1"])).
Proof.
  apply (empty_value_is_no_value
           (extractor_with_names (JObj [])) "T" tag_Series [] None
           [Element tag_SeriesKey [] None [key_value_elem "FREQ" "A"];
            obs_elem "2019" "10.5"]
           (obs_elem "2016" EmptyString) [obs_elem "2018" "9.1"]).
  - reflexivity.
  - reflexivity.
Defined.

(** ** File names on concrete batches *)

(** C9 (as stated) fails: two series with the same set of (dimension,
    code) pairs, listed in different orders, get different file names. *)
Lemma filename_follows_key_order :
  Permutation
    (key_pairs (series_elem_of [key_value_elem "FREQ" "A";
                                key_value_elem "ITTER107" "IT"]
                               [obs_elem "2019" "1"]))
    (key_pairs (series_elem_of [key_value_elem "ITTER107" "IT";
                                key_value_elem "FREQ" "A"]
                               [obs_elem "2019" "1"]))
  /\ map (fun f => path_file (fst f))
         (extractor_run
            (world_with "D1" (constraints_with_names (JObj []))
               (data_response
                  [series_elem_of [key_value_elem "FREQ" "A";
                                   key_value_elem "ITTER107" "IT"]
                                  [obs_elem "2019" "1"];
                   series_elem_of [key_value_elem "ITTER107" "IT";
                                   key_value_elem "FREQ" "A"]
                                  [obs_elem "2019" "1"]]))
            "D1")
     = ["series_dataset_D1_FREQ-A_ITTER107-IT.json";
        "series_dataset_D1_ITTER107-IT_FREQ-A.json"]
  /\ "series_dataset_D1_FREQ-A_ITTER107-IT.json"
     <> "series_dataset_D1_ITTER107-IT_FREQ-A.json".
Proof.
  split; [apply perm_swap|].
  split; [reflexivity|]. intro H; discriminate H.
Qed.

Lemma filenames_reproducible_witness :
  map fst
      (extractor_run
         (world_at "2024-01-02T00:00:00" "D1" (constraints_with_names (JObj []))
            (data_response [series_elem_of [key_value_elem "FREQ" "A"]
                                           [obs_elem "2019" "1"]]))
         "D1")
  = map fst
        (extractor_run
           (world_at "2025-06-30T12:00:00" "D1" (constraints_with_names (JObj []))
              (data_response [series_elem_of [key_value_elem "FREQ" "A"]
                                             [obs_elem "2019" "1"]]))
           "D1").
Proof.
  apply (filenames_reproducible
           (world_at "2024-01-02T00:00:00" "D1" (constraints_with_names (JObj []))
              (data_response [series_elem_of [key_value_elem "FREQ" "A"]
                                             [obs_elem "2019" "1"]]))
           (world_at "2025-06-30T12:00:00" "D1" (constraints_with_names (JObj []))
              (data_response [series_elem_of [key_value_elem "FREQ" "A"]
                                             [obs_elem "2019" "1"]]))
           "D1"
           (data_response [series_elem_of [key_value_elem "FREQ" "A"]
                                          [obs_elem "2019" "1"]])).
  - reflexivity.
  - reflexivity.
  - reflexivity.
Defined.

(** ** The constraints overview on concrete responses *)

Lemma missing_cube_region_gives_empty_overview_witness :
  get_available_constraints
    (constraints_world dataflow_response constraint_response_empty mapping_doc)
    "D1" = Ok []
  /\ exists info,
      get_dataflow_info
        (constraints_world dataflow_response constraint_response_empty mapping_doc)
        "D1" = Ok info
      /\ df_id info = "D1"
      /\ build_constraints_overview
           (constraints_world dataflow_response constraint_response_empty
                              mapping_doc)
           "D1" "./mappings" "./constraints"
         = Ok (os_path_join "./constraints" ("constraints_" +++ "D1" +++ ".json"),
               Overview info "2024-01-01T00:00:00" []).
Proof.
  apply (missing_cube_region_gives_empty_overview
           (constraints_world dataflow_response constraint_response_empty
                              mapping_doc)
           "D1" "./mappings" "./constraints"
           dataflow_response constraint_response_empty mapping_doc).
  - reflexivity.
  - reflexivity.
  - reflexivity.
  - reflexivity.
Defined.

(** The overview of the sample region: [A] gets the name of the mapping
    document, [Q] and [IT], which the mapping document does not know, get
    the degenerate label. *)
Example overview_with_missing_labels :
  build_constraints_overview
    (constraints_world dataflow_response constraint_response mapping_doc)
    "D1" "./mappings" "./constraints"
  = Ok (Path "./constraints" "constraints_D1.json",
        Overview
          (DataflowInfo "D1" [(Some "en", Some "Sample dataset")]
             (Some (StructureReference (Some "IT1") (Some "DSD1") (Some "1.0"))))
          "2024-01-01T00:00:00"
          [("FREQ",
            DimensionOverview "FREQ"
              [("A", ValueLabel (JObj [("en", JStr "annual")]));
               ("Q", ValueLabel (JObj [("default", JStr "Q")]))]);
           ("ITTER107",
            DimensionOverview "ITTER107"
              [("IT", ValueLabel (JObj [("default", JStr "IT")]))])]).
Proof. reflexivity. Qed.

(** C8 (as stated) fails on a region that lists a dimension twice: the
    second [KeyValue] element resets the codes of the first, so the pair
    ([FREQ], [A]) found in the region has no entry in the overview. *)
Lemma repeated_key_value_loses_codes :
  In (Element tag_KeyValue [("id", "FREQ")] None
        [Element tag_common_Value [] (Some "A") []])
     (findall_desc tag_KeyValue constraint_region_repeated)
  /\ get_available_constraints
       (constraints_world dataflow_response
          (Element (qname ns_message "Structure") [] None
                   [constraint_region_repeated])
          mapping_doc)
       "D1" = Ok [("FREQ", ["Q"])]
  /\ build_constraints_overview
       (constraints_world dataflow_response
          (Element (qname ns_message "Structure") [] None
                   [constraint_region_repeated])
          mapping_doc)
       "D1" "./mappings" "./constraints"
     = Ok (Path "./constraints" "constraints_D1.json",
           Overview
             (DataflowInfo "D1" [(Some "en", Some "Sample dataset")]
                (Some (StructureReference (Some "IT1") (Some "DSD1") (Some "1.0"))))
             "2024-01-01T00:00:00"
             [("FREQ",
               DimensionOverview "FREQ"
                 [("Q", ValueLabel (JObj [("default", JStr "Q")]))])])
  /\ dict_get String.eqb "A"
              [("Q", ValueLabel (JObj [("default", JStr "Q")]))] = None.
Proof.
  split; [left; reflexivity|]. split; [reflexivity|]. split; reflexivity.
Qed.

Lemma missing_label_never_blocks_witness :
  exists p ov,
    build_constraints_overview
      (constraints_world dataflow_response
         (Element (qname ns_message "Structure") [] None
                  [constraint_region_repeated])
         mapping_doc)
      "D1" "./mappings" "./constraints" = Ok (p, ov)
    /\ exists dim,
        dict_get String.eqb "FREQ" (ov_dimensions ov) = Some dim
        /\ dict_get String.eqb "Q" (do_values dim)
           = Some (ValueLabel (JObj [("default", JStr "Q")])).
Proof.
  destruct (missing_label_never_blocks
              (constraints_world dataflow_response
                 (Element (qname ns_message "Structure") [] None
                          [constraint_region_repeated])
                 mapping_doc)
              "D1" "./mappings" "./constraints"
              dataflow_response
              (Element (qname ns_message "Structure") [] None
                       [constraint_region_repeated])
              constraint_region_repeated mapping_doc)
    as [p [ov [Hbuild Hlabels]]].
  - reflexivity.
  - reflexivity.
  - reflexivity.
  - reflexivity.
  - reflexivity.
  - exists p, ov. split; [exact Hbuild|].
    apply (Hlabels
             [Element tag_KeyValue [("id", "FREQ")] None
                [Element tag_common_Value [] (Some "A") []]]
             (Element tag_KeyValue [("id", "FREQ")] None
                [Element tag_common_Value [] (Some "Q") []])
             []
             "FREQ" (Element tag_common_Value [] (Some "Q") []) "Q").
    + reflexivity.
    + reflexivity.
    + intro H; discriminate H.
    + intros [].
    + left. reflexivity.
    + reflexivity.
    + intro H; discriminate H.
Defined.

(** ** The mapping document on concrete responses *)



(** ** More on the extractor, on concrete inputs *)

Lemma missing_constraints_file_stops_run_witness :
  extractor_init
    (world_with "D1" (constraints_with_names (JObj [])) (data_response []))
    "D9" "./series_data"
  = Raise (FileNotFoundError (MsgConstraintsNotFound "D9" (constraints_file "D9")))
  /\ extractor_run
       (world_with "D1" (constraints_with_names (JObj [])) (data_response []))
       "D9" = [].
Proof.
  apply (missing_constraints_file_stops_run
           (world_with "D1" (constraints_with_names (JObj [])) (data_response []))
           "D9" "./series_data").
  reflexivity.
Defined.

(** A document that declares the id as the number 111. *)
Lemma validate_constraints_accepts_witness :
  validate_constraints "111" (constraints_file "111")
    (JObj [("dataset_info", JObj [("id", JInt 111)])])
  = Raise (ValueError (MsgConstraintsMismatch "111" (JInt 111)
                                              (constraints_file "111")))
  /\ validate_constraints "D1" (constraints_file "D1")
       (constraints_with_names (JObj [])) = Ok tt.
Proof.
  split.
  - apply (proj1 (proj2 (validate_constraints_accepts
                           "111" (constraints_file "111")
                           (JObj [("dataset_info", JObj [("id", JInt 111)])])))
             (JInt 111)).
    + reflexivity.
    + intro H; discriminate H.
  - apply (proj2 (proj1 (validate_constraints_accepts
                           "D1" (constraints_file "D1")
                           (constraints_with_names (JObj []))))).
    reflexivity.
Defined.

Lemma observations_sorted_permutation_witness :
  Permutation
    (surviving_observations
       (series_elem_of [key_value_elem "FREQ" "A"]
                       [obs_elem "2019" "10.5"; obs_elem "2018" "9.1"]))
    [Observation (Some (Some "2018")) (Some (VFloat (Decimal 91 1)));
     Observation (Some (Some "2019")) (Some (VFloat (Decimal 105 1)))]
  /\ Sorted time_le
       [Observation (Some (Some "2018")) (Some (VFloat (Decimal 91 1)));
        Observation (Some (Some "2019")) (Some (VFloat (Decimal 105 1)))]
  /\ (2 <= 2 ->
      Forall has_period
        [Observation (Some (Some "2018")) (Some (VFloat (Decimal 91 1)));
         Observation (Some (Some "2019")) (Some (VFloat (Decimal 105 1)))]).
Proof.
  assert (E : extract_series_key
                (extractor_with_names (JObj [])) "T"
                (series_elem_of [key_value_elem "FREQ" "A"]
                                [obs_elem "2019" "10.5"; obs_elem "2018" "9.1"])
              = Ok (SeriesData
                      (DatasetInfo "D1" (JObj [("en", JStr "Sample dataset")])
                                   (JObj [("id", JStr "DSD1")]) "T")
                      [(Some "FREQ", KeyLabel (Some "A") (JStr "A"))]
                      [Observation (Some (Some "2018"))
                                   (Some (VFloat (Decimal 91 1)));
                       Observation (Some (Some "2019"))
                                   (Some (VFloat (Decimal 105 1)))]))
    by reflexivity.
  exact (observations_sorted_permutation _ _ _ _ E).
Defined.

Lemma missing_period_loses_series_witness :
  (exists e,
      extract_series_key
        (extractor_with_names (JObj [])) "2024-01-02T00:00:00"
        (series_elem_of [key_value_elem "FREQ" "M"]
                        [obs_elem_no_period "10.5"; obs_elem "2019-01" "2"])
      = Raise e)
  /\ process_one
       (extractor_with_names (JObj []))
       (world_with "D1" (constraints_with_names (JObj [])) (data_response []))
       []
       (1, series_elem_of [key_value_elem "FREQ" "M"]
                          [obs_elem_no_period "10.5"; obs_elem "2019-01" "2"])
     = [].
Proof.
  apply (missing_period_loses_series
           (extractor_with_names (JObj []))
           (world_with "D1" (constraints_with_names (JObj [])) (data_response []))
           [] 1
           (series_elem_of [key_value_elem "FREQ" "M"]
                           [obs_elem_no_period "10.5"; obs_elem "2019-01" "2"])
           (read_observation (obs_elem_no_period "10.5"))).
  - apply le_n.
  - left. reflexivity.
  - reflexivity.
Defined.

Lemma extraction_succeeds_witness :
  exists sd,
    extract_series_key
      (extractor_with_names (JObj [])) "T"
      (series_elem_of [key_value_elem "FREQ" "A"]
                      [obs_elem "2019" "10.5"; obs_elem "2018" "n.a."])
    = Ok sd
    /\ sd_dataset_info sd
       = DatasetInfo "D1" (JObj [("en", JStr "Sample dataset")])
                     (JObj [("id", JStr "DSD1")]) "T".
Proof.
  apply (extraction_succeeds
           (extractor_with_names (JObj [])) "T"
           (series_elem_of [key_value_elem "FREQ" "A"]
                           [obs_elem "2019" "10.5"; obs_elem "2018" "n.a."])
           (JObj [("id", JStr "D1");
                  ("names", JObj [("en", JStr "Sample dataset")]);
                  ("structure_reference", JObj [("id", JStr "DSD1")])])).
  - reflexivity.
  - reflexivity.
  - reflexivity.
  - repeat constructor; eexists; reflexivity.
Defined.

(** A constraints document whose [dataset_info] has the id only. *)
Lemma incomplete_dataset_info_saves_nothing_witness :
  extractor_run
    (world_with "D1"
       (JObj [("dataset_info", JObj [("id", JStr "D1")]);
              ("dimensions", JObj [])])
       (data_response [series_elem_of [key_value_elem "FREQ" "A"]
                                      [obs_elem "2019" "10.5"]]))
    "D1" = [].
Proof.
  apply (incomplete_dataset_info_saves_nothing
           (world_with "D1"
              (JObj [("dataset_info", JObj [("id", JStr "D1")]);
                     ("dimensions", JObj [])])
              (data_response [series_elem_of [key_value_elem "FREQ" "A"]
                                             [obs_elem "2019" "10.5"]]))
           "D1"
           (JObj [("dataset_info", JObj [("id", JStr "D1")]);
                  ("dimensions", JObj [])])
           (JObj [("id", JStr "D1")])).
  - reflexivity.
  - reflexivity.
  - reflexivity.
  - left. reflexivity.
Defined.

Lemma metadata_entries_labelled_witness :
  NoDup (map fst [(Some "FREQ", KeyLabel (Some "A") (JStr "annual"))])
  /\ (forall concept listed,
         In (concept, listed)
            (key_pairs (series_elem_of [key_value_elem "FREQ" "A"]
                                       [obs_elem "2019" "10.5"])) ->
         exists kl,
           In (concept, kl) [(Some "FREQ", KeyLabel (Some "A") (JStr "annual"))])
  /\ forall concept kl,
      In (concept, kl) [(Some "FREQ", KeyLabel (Some "A") (JStr "annual"))] ->
      In (concept, code kl)
         (key_pairs (series_elem_of [key_value_elem "FREQ" "A"]
                                    [obs_elem "2019" "10.5"]))
      /\ get_value_description
           (constraints_with_names (JObj [("en", JStr "annual")]))
           concept (code kl)
         = Ok (description kl).
Proof.
  assert (E : extract_series_key
                (extractor_with_names (JObj [("en", JStr "annual")])) "T"
                (series_elem_of [key_value_elem "FREQ" "A"]
                                [obs_elem "2019" "10.5"])
              = Ok (SeriesData
                      (DatasetInfo "D1" (JObj [("en", JStr "Sample dataset")])
                                   (JObj [("id", JStr "DSD1")]) "T")
                      [(Some "FREQ", KeyLabel (Some "A") (JStr "annual"))]
                      [Observation (Some (Some "2019"))
                                   (Some (VFloat (Decimal 105 1)))]))
    by reflexivity.
  exact (metadata_entries_labelled _ _ _ _ E).
Defined.

(** ** More on the mapping builder, on concrete responses *)


(** A service whose codelist endpoint is down. *)
Lemma failed_fetch_fails_mapping_witness :
  exists e,
    build_mapping
      (World
         (fun url =>
            if String.eqb url (base_url +++ "/data/D1")
            then Ok data_with_structure
            else if String.eqb url (base_url +++ "/datastructure/IT1/DSD1")
                 then Ok structure_response
                 else Raise (FetchError "503"))
         (fun _ => None)
         (fun _ => "2024-01-01T00:00:00"))
      "D1" "./mappings" = Raise e.
Proof.
  apply (proj2 (failed_fetch_fails_mapping
                  (World
                     (fun url =>
                        if String.eqb url (base_url +++ "/data/D1")
                        then Ok data_with_structure
                        else if String.eqb url
                                  (base_url +++ "/datastructure/IT1/DSD1")
                             then Ok structure_response
                             else Raise (FetchError "503"))
                     (fun _ => None)
                     (fun _ => "2024-01-01T00:00:00"))
                  "D1" "./mappings")
           (Build_DataStructureInfo (Some "IT1") (Some "DSD1") (Some "1.0"))
           [("FREQ", Build_CodelistRef (Some "IT1") (Some "CL_FREQ") (Some "1.0"))]
           "FREQ"
           (Build_CodelistRef (Some "IT1") (Some "CL_FREQ") (Some "1.0"))
           (FetchError "503")).
  - reflexivity.
  - reflexivity.
  - left. reflexivity.
  - reflexivity.
Defined.

Lemma code_names_by_language_witness :
  exists data cv,
    get_codelist_values
      (mapping_world data_with_structure structure_response codelist_response)
      (Build_CodelistRef (Some "IT1") (Some "CL_FREQ") (Some "1.0")) = Ok data
    /\ dict_get String.eqb "A" (cd_values data) = Some cv
    /\ dict_get String.eqb "it" (cv_name cv) = Some (Some "annuale").
Proof.
  destruct (code_names_by_language
              (mapping_world data_with_structure structure_response
                             codelist_response)
              (Build_CodelistRef (Some "IT1") (Some "CL_FREQ") (Some "1.0"))
              codelist_response
              (Element tag_Code [("id", "A")] None
                 [Element tag_common_Name [(xml_lang, "en")] (Some "annual") [];
                  Element tag_common_Name [(xml_lang, "it")] (Some "annuale") []])
              "A")
    as [data [cv [Hdata [Hcv Hnames]]]].
  - reflexivity.
  - repeat constructor; simpl; intuition discriminate.
  - left. reflexivity.
  - reflexivity.
  - intro H; discriminate H.
  - repeat constructor; simpl; intuition discriminate.
  - exists data, cv. split; [exact Hdata|]. split; [exact Hcv|].
    apply (Hnames (Element tag_common_Name [(xml_lang, "it")] (Some "annuale") [])).
    right. left. reflexivity.
Defined.

(** ** More on the constraints builder, on concrete responses *)

(** A region that lists [FREQ] twice. *)
Lemma last_key_value_wins_witness :
  exists available,
    get_available_constraints
      (constraints_world dataflow_response
         (Element (qname ns_message "Structure") [] None
            [Element tag_CubeRegion [] None
               [Element tag_KeyValue [("id", "FREQ")] None
                  [Element tag_common_Value [] (Some "A") []];
                Element tag_KeyValue [("id", "FREQ")] None
                  [Element tag_common_Value [] (Some "Q") [];
                   Element tag_common_Value [] None [];
                   Element tag_common_Value [] (Some "M") []]]])
         mapping_doc)
      "D1" = Ok available
    /\ dict_get String.eqb "FREQ" available = Some ["Q"; "M"].
Proof.
  apply (last_key_value_wins
           (constraints_world dataflow_response
              (Element (qname ns_message "Structure") [] None
                 [Element tag_CubeRegion [] None
                    [Element tag_KeyValue [("id", "FREQ")] None
                       [Element tag_common_Value [] (Some "A") []];
                     Element tag_KeyValue [("id", "FREQ")] None
                       [Element tag_common_Value [] (Some "Q") [];
                        Element tag_common_Value [] None [];
                        Element tag_common_Value [] (Some "M") []]]])
              mapping_doc)
           "D1"
           (Element (qname ns_message "Structure") [] None
              [Element tag_CubeRegion [] None
                 [Element tag_KeyValue [("id", "FREQ")] None
                    [Element tag_common_Value [] (Some "A") []];
                  Element tag_KeyValue [("id", "FREQ")] None
                    [Element tag_common_Value [] (Some "Q") [];
                     Element tag_common_Value [] None [];
                     Element tag_common_Value [] (Some "M") []]]])
           (Element tag_CubeRegion [] None
              [Element tag_KeyValue [("id", "FREQ")] None
                 [Element tag_common_Value [] (Some "A") []];
               Element tag_KeyValue [("id", "FREQ")] None
                 [Element tag_common_Value [] (Some "Q") [];
                  Element tag_common_Value [] None [];
                  Element tag_common_Value [] (Some "M") []]])
           [Element tag_KeyValue [("id", "FREQ")] None
              [Element tag_common_Value [] (Some "A") []]]
           []
           (Element tag_KeyValue [("id", "FREQ")] None
              [Element tag_common_Value [] (Some "Q") [];
               Element tag_common_Value [] None [];
               Element tag_common_Value [] (Some "M") []])
           "FREQ").
  - reflexivity.
  - reflexivity.
  - reflexivity.
  - reflexivity.
  - intro H; discriminate H.
  - intros [].
Defined.

Lemma overview_lists_region_only_witness :
  exists key_value,
    In key_value
       (findall_desc tag_KeyValue
          (Element tag_CubeRegion [] None
             [Element tag_KeyValue [("id", "FREQ")] None
                [Element tag_common_Value [] (Some "A") [];
                 Element tag_common_Value [] (Some "Q") []];
              Element tag_KeyValue [("id", "ITTER107")] None
                [Element tag_common_Value [] (Some "IT") []]]))
    /\ attrib_get "id" key_value = Some "FREQ"
    /\ forall c,
        In c ["A"; "Q"] ->
        In c (flat_map value_text (findall_child tag_common_Value key_value)).
Proof.
  assert (E : build_constraints_overview
                (constraints_world dataflow_response constraint_response
                                   mapping_doc)
                "D1" "./mappings" "./constraints"
              = Ok (Path "./constraints" "constraints_D1.json",
                    Overview
                      (DataflowInfo "D1" [(Some "en", Some "Sample dataset")]
                         (Some (StructureReference (Some "IT1") (Some "DSD1")
                                                   (Some "1.0"))))
                      "2024-01-01T00:00:00"
                      [("FREQ",
                        DimensionOverview "FREQ"
                          [("A", ValueLabel (JObj [("en", JStr "annual")]));
                           ("Q", ValueLabel (JObj [("default", JStr "Q")]))]);
                       ("ITTER107",
                        DimensionOverview "ITTER107"
                          [("IT", ValueLabel (JObj [("default", JStr "IT")]))])]))
    by reflexivity.
  apply (overview_lists_region_only
           (constraints_world dataflow_response constraint_response mapping_doc)
           "D1" "./mappings" "./constraints" constraint_response
           (Element tag_CubeRegion [] None
              [Element tag_KeyValue [("id", "FREQ")] None
                 [Element tag_common_Value [] (Some "A") [];
                  Element tag_common_Value [] (Some "Q") []];
               Element tag_KeyValue [("id", "ITTER107")] None
                 [Element tag_common_Value [] (Some "IT") []]])
           _ _ eq_refl eq_refl E
           "FREQ"
           (DimensionOverview "FREQ"
              [("A", ValueLabel (JObj [("en", JStr "annual")]));
               ("Q", ValueLabel (JObj [("default", JStr "Q")]))])).
  left. reflexivity.
Defined.

(** ** From one stage to the next, on concrete documents *)

Lemma mapping_file_accepted_witness :
  exists p ov,
    build_constraints_overview
      (constraints_world dataflow_response constraint_response
         (mapping_json
            (MappingDocument "D1" "2024-01-01T00:00:00"
               (Build_DataStructureInfo (Some "IT1") (Some "DSD1") (Some "1.0"))
               [("FREQ",
                 DimensionMapping
                   (Build_CodelistRef (Some "IT1") (Some "CL_FREQ") (Some "1.0"))
                   [] []
                   [("A", CodeValue [("en", Some "annual"); ("it", Some "annuale")]
                                    [])])])))
      "D1" "./mappings" "./constraints" = Ok (p, ov)
    /\ exists dim,
        dict_get String.eqb "FREQ" (ov_dimensions ov) = Some dim
        /\ dict_get String.eqb "A" (do_values dim)
           = Some (ValueLabel
                     (JObj [("en", JStr "annual"); ("it", JStr "annuale")])).
Proof.
  destruct (mapping_file_accepted
              (constraints_world dataflow_response constraint_response
                 (mapping_json
                    (MappingDocument "D1" "2024-01-01T00:00:00"
                       (Build_DataStructureInfo (Some "IT1") (Some "DSD1")
                                                (Some "1.0"))
                       [("FREQ",
                         DimensionMapping
                           (Build_CodelistRef (Some "IT1") (Some "CL_FREQ")
                                              (Some "1.0"))
                           [] []
                           [("A", CodeValue [("en", Some "annual");
                                             ("it", Some "annuale")] [])])])))
              "D1" "./mappings" "./constraints"
              dataflow_response constraint_response
              (MappingDocument "D1" "2024-01-01T00:00:00"
                 (Build_DataStructureInfo (Some "IT1") (Some "DSD1") (Some "1.0"))
                 [("FREQ",
                   DimensionMapping
                     (Build_CodelistRef (Some "IT1") (Some "CL_FREQ") (Some "1.0"))
                     [] []
                     [("A", CodeValue [("en", Some "annual");
                                       ("it", Some "annuale")] [])])])
              eq_refl eq_refl eq_refl)
    as [p [ov [Hbuild Hnames]]].
  exists p, ov. split; [exact Hbuild|].
  apply (Hnames
           (Element tag_CubeRegion [] None
              [Element tag_KeyValue [("id", "FREQ")] None
                 [Element tag_common_Value [] (Some "A") [];
                  Element tag_common_Value [] (Some "Q") []];
               Element tag_KeyValue [("id", "ITTER107")] None
                 [Element tag_common_Value [] (Some "IT") []]])
           (Element tag_KeyValue [("id", "FREQ")] None
              [Element tag_common_Value [] (Some "A") [];
               Element tag_common_Value [] (Some "Q") []])
           "FREQ" (Element tag_common_Value [] (Some "A") []) "A"
           (DimensionMapping
              (Build_CodelistRef (Some "IT1") (Some "CL_FREQ") (Some "1.0"))
              [] []
              [("A", CodeValue [("en", Some "annual"); ("it", Some "annuale")] [])])
           (CodeValue [("en", Some "annual"); ("it", Some "annuale")] [])).
  - reflexivity.
  - repeat constructor; simpl; intuition discriminate.
  - left. reflexivity.
  - reflexivity.
  - intro H; discriminate H.
  - left. reflexivity.
  - reflexivity.
  - intro H; discriminate H.
  - reflexivity.
  - reflexivity.
Defined.

Lemma built_constraints_accepted_witness :
  extractor_init
    (world_with "D1"
       (overview_json
          (Overview
             (DataflowInfo "D1" [(Some "en", Some "Sample dataset")]
                (Some (StructureReference (Some "IT1") (Some "DSD1") (Some "1.0"))))
             "2024-01-01T00:00:00" []))
       (data_response []))
    "D1" "./series_data"
  = Ok (Extractor "D1" "./series_data" (constraints_file "D1")
          (overview_json
             (Overview
                (DataflowInfo "D1" [(Some "en", Some "Sample dataset")]
                   (Some (StructureReference (Some "IT1") (Some "DSD1")
                                             (Some "1.0"))))
                "2024-01-01T00:00:00" []))).
Proof.
  assert (E : build_constraints_overview
                (constraints_world dataflow_response constraint_response_empty
                                   mapping_doc)
                "D1" "./mappings" "./constraints"
              = Ok (Path "./constraints" "constraints_D1.json",
                    Overview
                      (DataflowInfo "D1" [(Some "en", Some "Sample dataset")]
                         (Some (StructureReference (Some "IT1") (Some "DSD1")
                                                   (Some "1.0"))))
                      "2024-01-01T00:00:00" []))
    by reflexivity.
  apply (proj1 (proj2 (built_constraints_accepted _ _ _ _ _ _ E))).
  reflexivity.
Defined.

Lemma labels_across_stages_witness :
  exists p ov,
    build_constraints_overview
      (constraints_world dataflow_response constraint_response mapping_doc)
      "D1" "./mappings" "./constraints" = Ok (p, ov)
    /\ get_value_description (overview_json ov) (Some "FREQ") (Some "A")
       = Ok (JStr "annual")
    /\ get_value_description (overview_json ov) (Some "FREQ") (Some "Q")
       = Ok (JStr "Q").
Proof.
  destruct (labels_across_stages
              (constraints_world dataflow_response constraint_response mapping_doc)
              "D1" "./mappings" "./constraints"
              dataflow_response constraint_response
              (Element tag_CubeRegion [] None
                 [Element tag_KeyValue [("id", "FREQ")] None
                    [Element tag_common_Value [] (Some "A") [];
                     Element tag_common_Value [] (Some "Q") []];
                  Element tag_KeyValue [("id", "ITTER107")] None
                    [Element tag_common_Value [] (Some "IT") []]])
              mapping_doc)
    as [p [ov [Hbuild Hlabels]]].
  - reflexivity.
  - reflexivity.
  - reflexivity.
  - repeat constructor; simpl; intuition discriminate.
  - reflexivity.
  - reflexivity.
  - exists p, ov. split; [exact Hbuild|]. split.
    + apply (Hlabels
               (Element tag_KeyValue [("id", "FREQ")] None
                  [Element tag_common_Value [] (Some "A") [];
                   Element tag_common_Value [] (Some "Q") []])
               "FREQ" (Element tag_common_Value [] (Some "A") []) "A").
      * left. reflexivity.
      * reflexivity.
      * intro H; discriminate H.
      * left. reflexivity.
      * reflexivity.
      * intro H; discriminate H.
    + apply (Hlabels
               (Element tag_KeyValue [("id", "FREQ")] None
                  [Element tag_common_Value [] (Some "A") [];
                   Element tag_common_Value [] (Some "Q") []])
               "FREQ" (Element tag_common_Value [] (Some "Q") []) "Q").
      * left. reflexivity.
      * reflexivity.
      * intro H; discriminate H.
      * right. left. reflexivity.
      * reflexivity.
      * intro H; discriminate H.
Defined.

(** ** The plotter's file names, on concrete documents *)

Lemma generate_output_filename_total_witness :
  generate_output_filename (JArr []) "series_dataset_D1_FREQ-A"
  = Ok "series_dataset_D1_FREQ-A.png"
  /\ generate_output_filename (JObj [("observations", JArr [])])
                              "series_dataset_D1_FREQ-A"
     = Ok "series_dataset_D1_FREQ-A.png".
Proof.
  split.
  - apply (proj1 (proj2 (generate_output_filename_total
                           (JArr []) "series_dataset_D1_FREQ-A"))).
    reflexivity.
  - apply (proj2 (proj2 (generate_output_filename_total
                           (JObj [("observations", JArr [])])
                           "series_dataset_D1_FREQ-A"))
             [("observations", JArr [])]).
    + reflexivity.
    + reflexivity.
    + reflexivity.
Defined.

(** Two series of a dataset that differ in their territory only. *)
Lemma plot_filename_of_record_witness :
  generate_output_filename
    (series_data_json
       (SeriesData
          (DatasetInfo "D1" (JObj [("en", JStr "Sample dataset")])
                       (JObj [("id", JStr "DSD1")]) "T")
          [(Some "FREQ", KeyLabel (Some "A") (JStr "A"));
           (Some "ITTER107", KeyLabel (Some "IT") (JStr "IT"))]
          [Observation (Some (Some "2019")) (Some (VFloat (Decimal 105 1)))]))
    "series_dataset_D1_FREQ-A_ITTER107-IT"
  = Ok "D1_A.png".
Proof.
  assert (E : extract_series_key
                (extractor_with_names (JObj [])) "T"
                (series_elem_of [key_value_elem "FREQ" "A";
                                 key_value_elem "ITTER107" "IT"]
                                [obs_elem "2019" "10.5"])
              = Ok (SeriesData
                      (DatasetInfo "D1" (JObj [("en", JStr "Sample dataset")])
                                   (JObj [("id", JStr "DSD1")]) "T")
                      [(Some "FREQ", KeyLabel (Some "A") (JStr "A"));
                       (Some "ITTER107", KeyLabel (Some "IT") (JStr "IT"))]
                      [Observation (Some (Some "2019"))
                                   (Some (VFloat (Decimal 105 1)))]))
    by reflexivity.
  exact (plot_filename_of_record _ _ _ _ "series_dataset_D1_FREQ-A_ITTER107-IT" E).
Defined.

